(** * gcp-agentor: a shallow embedding of the routing core

    The development follows the Python package [gcp_agentor]:

    - [acp.py]            the [ACPMessage] dataclass,
    - [agent_registry.py] [AgentMetadata] and [AgentRegistry],
    - [memory.py]         [MemoryManager] (in-memory backend),
    - [logger.py]         [ReasoningLogger] (in-memory backend),
    - [invoker.py]        [AgentInvoker] (local invocation),
    - [router.py]         [AgentRouter],
    - [core.py]           [AgentOrchestrator.handle_message].

    Python values are embedded as a JSON-like universe [pyval]; a Python
    [str] is a [string] read one character per code point; a Python
    [dict] with string keys is an association list in insertion order;
    Python exceptions are the left summand of a result; the objects the
    package mutates (registry, routing tables, session store, reasoning
    log, the [logging] records and the number of clock reads so far) are
    collected in one record [World] that is threaded through a small
    state-and-exception monad. *)

From Stdlib Require Import ZArith List String Ascii Bool Floats DecimalString Lia.
Import ListNotations.

Local Open Scope string_scope.
Local Open Scope list_scope.

(** ** Dictionaries with string keys

    [dict V] is a Python [dict] whose keys are [str]: an association
    list kept in insertion order, as [dict.items()] iterates it. *)

Module Dict.
Section Dict.
Context {V : Type}.

Definition t : Type := list (string * V).

(** [d.get(k)] *)
Fixpoint get (k : string) (d : t) : option V :=
  match d with
  | [] => None
  | (k', v) :: r => if String.eqb k k' then Some v else get k r
  end.

(** [k in d] *)
Definition mem (k : string) (d : t) : bool :=
  match get k d with Some _ => true | None => false end.

(** [d[k] = v]: an existing key keeps its position, a new key goes
    last. *)
Fixpoint set (k : string) (v : V) (d : t) : t :=
  match d with
  | [] => [(k, v)]
  | (k', v') :: r =>
      if String.eqb k k' then (k, v) :: r else (k', v') :: set k v r
  end.

(** [del d[k]] / [d.pop(k, None)] *)
Fixpoint del (k : string) (d : t) : t :=
  match d with
  | [] => []
  | (k', v') :: r =>
      if String.eqb k k' then r else (k', v') :: del k r
  end.

(** [list(d.keys())] *)
Definition keys (d : t) : list string := map fst d.

(** [{**d, **d'}] *)
Definition merge (d d' : t) : t :=
  fold_left (fun acc kv => set (fst kv) (snd kv) acc) d' d.
End Dict.
Arguments t : clear implicits.
End Dict.

Abbreviation dict := Dict.t.

(** ** Python values *)

#[warnings="-register-all"]
Inductive pyval : Type :=
| PyNone
| PyBool (b : bool)
| PyInt (z : Z)
| PyFloat (f : float)
| PyStr (s : string)
| PyList (items : list pyval)
| PyDict (entries : list (string * pyval)).

Abbreviation pydict := (dict pyval).

(** [bool(v)] *)
Definition truthy (v : pyval) : bool :=
  match v with
  | PyNone => false
  | PyBool b => b
  | PyInt z => negb (Z.eqb z 0)
  | PyFloat f => negb (PrimFloat.eqb f 0%float)
  | PyStr s => negb (String.eqb s "")
  | PyList l => match l with [] => false | _ => true end
  | PyDict d => match d with [] => false | _ => true end
  end.

(** [v is None] *)
Definition is_None (v : pyval) : bool :=
  match v with PyNone => true | _ => false end.

(** [isinstance(v, str)] and [isinstance(v, dict)] *)
Definition is_str (v : pyval) : bool :=
  match v with PyStr _ => true | _ => false end.

Definition is_dict (v : pyval) : bool :=
  match v with PyDict _ => true | _ => false end.

(** Lists and dicts are the unhashable values of the universe. *)
Definition hashable (v : pyval) : bool :=
  match v with PyList _ | PyDict _ => false | _ => true end.

(** [z == f] for an [int] and a [float]: Python compares the exact
    mathematical values. *)
Definition Z_float_eqb (z : Z) (f : float) : bool :=
  match Prim2SF f with
  | SpecFloat.S754_zero _ => Z.eqb z 0
  | SpecFloat.S754_finite s m e =>
      let mz := if s then Z.neg m else Z.pos m in
      if (0 <=? e)%Z then Z.eqb z (mz * 2 ^ e) else Z.eqb (z * 2 ^ (- e)) mz
  | _ => false
  end.

(** Numbers: [bool] is a subclass of [int]. *)
Definition as_number (v : pyval) : option (Z + float) :=
  match v with
  | PyBool b => Some (inl (Z.b2z b))
  | PyInt z => Some (inl z)
  | PyFloat f => Some (inr f)
  | _ => None
  end.

Definition num_eq (a b : pyval) : bool :=
  match as_number a, as_number b with
  | Some (inl x), Some (inl y) => Z.eqb x y
  | Some (inl x), Some (inr g) => Z_float_eqb x g
  | Some (inr f), Some (inl y) => Z_float_eqb y f
  | Some (inr f), Some (inr g) => PrimFloat.eqb f g
  | _, _ => false
  end.

(** [a == b] *)
Fixpoint py_eq (a b : pyval) {struct a} : bool :=
  match a, b with
  | PyNone, PyNone => true
  | PyStr s, PyStr s' => String.eqb s s'
  | PyList l, PyList l' =>
      (fix all2 (l l' : list pyval) {struct l} : bool :=
         match l, l' with
         | [], [] => true
         | x :: r, y :: r' => py_eq x y && all2 r r'
         | _, _ => false
         end) l l'
  | PyDict d, PyDict d' =>
      Nat.eqb (List.length d) (List.length d') &&
      (fix sub (d : list (string * pyval)) : bool :=
         match d with
         | [] => true
         | (k, v) :: r =>
             match Dict.get k d' with
             | Some v' => py_eq v v'
             | None => false
             end && sub r
         end) d
  | _, _ => num_eq a b
  end.

(** [sub in s] for two strings. *)
Fixpoint contains (sub s : string) : bool :=
  String.prefix sub s ||
  match s with
  | EmptyString => false
  | String _ r => contains sub r
  end.

(** [s.startswith(p)] and [s[n:]] *)
Definition startswith (p s : string) : bool := String.prefix p s.

Fixpoint drop (n : nat) (s : string) : string :=
  match n, s with
  | O, _ => s
  | S n', String _ r => drop n' r
  | S _, EmptyString => EmptyString
  end.

(** [l[-n:]] for [n > 0] *)
Definition last_n {A : Type} (n : nat) (l : list A) : list A :=
  skipn (List.length l - n) l.

(** [dataclasses.asdict] applied to a field value: lists and dicts are
    rebuilt element by element, everything else is copied. *)
Fixpoint asdict_inner (v : pyval) : pyval :=
  match v with
  | PyList l => PyList (map asdict_inner l)
  | PyDict d =>
      PyDict
        ((fix items (d : list (string * pyval)) : list (string * pyval) :=
            match d with
            | [] => []
            | (k, x) :: r => (k, asdict_inner x) :: items r
            end) d)
  | _ => v
  end.

(** ** Exceptions

    The exceptions the interpreter raises in the modelled code, and
    [Raised] for whatever a handler raises, carrying [str(e)]. *)

Inductive exn : Type :=
| UnexpectedKeyword (callee key : string)
| MissingArguments (callee : string) (names : list string)
| MultipleValues (callee key : string)
| NoAttribute (v : pyval) (attr : string)
| Unhashable (v : pyval)
| NotIterable (v : pyval)
| BadLeftOperand (v : pyval)
| NotAMapping (v : pyval)
| KeyError (key : string)
| Raised (text : string).

Definition result (A : Type) : Type := (exn + A)%type.

(** ** The Python runtime

    What the code takes from the interpreter and the standard library
    and that is not part of the package: case conversion, [repr], the
    text of built-in exceptions and the clock.  The [n]-th read of the
    clock (counted over [time.time()] and [datetime.utcnow()] alike)
    returns the value at index [n]. *)

Class PyRuntime : Type := {
  str_lower : string -> string;
  py_repr : pyval -> string;
  builtin_message : exn -> string;
  time_time : nat -> float;
  utcnow_isoformat : nat -> string;
  utcnow_timestamp : nat -> Z
}.

Section Formatting.
Context {rt : PyRuntime}.

(** [str(v)], as an f-string formats a value *)
Definition py_str (v : pyval) : string :=
  match v with PyStr s => s | _ => py_repr v end.

(** [str(e)] *)
Definition exn_str (e : exn) : string :=
  match e with Raised text => text | _ => builtin_message e end.
End Formatting.

(** ** Objects *)

(** [acp.ACPMessage]: a dataclass does not check the annotated types, so
    every field holds an arbitrary value. *)
Record ACPMessage : Type := mkACPMessage {
  from_id : pyval;
  to_id : pyval;
  intent : pyval;
  message : pyval;
  language : pyval;
  context : pyval;
  timestamp : pyval;
  session_id : pyval
}.

(** [agent_registry.AgentMetadata] *)
Record AgentMetadata : Type := mkAgentMetadata {
  name : string;
  description : pyval;
  capabilities : pyval;
  intents : pyval;
  version : pyval;
  is_active : pyval;
  config : pyval
}.

(** A registered agent is any object.  The router looks at its truth
    value and at whether it has an [invoke] attribute; [invoke] maps the
    message text and the context to a text, or raises.  A handler is
    taken to be a function of these two arguments: it does not reach
    into the orchestrator's own objects. *)
Record Agent : Type := mkAgent {
  agent_bool : bool;
  agent_invoke : option (pyval -> pydict -> result string)
}.

(** Levels of the records sent to Python's [logging]. *)
Inductive level : Type := DEBUG | INFO | WARNING | ERROR.

(** The mutable objects of one orchestrator: [AgentRegistry._agents] and
    [._metadata], [AgentRouter._intent_mapping] and [._tool_chains],
    [MemoryManager._memory], [ReasoningLogger._logs], the records handed
    to [logging], and the number of clock reads made so far. *)
Record World : Type := mkWorld {
  _agents : dict Agent;
  _metadata : dict AgentMetadata;
  _intent_mapping : dict (list string);
  _tool_chains : dict (list (dict string));
  _memory : dict pydict;
  _logs : dict (list pyval);
  log_records : list (level * string);
  clock : nat
}.

Definition with_agents (x : dict Agent) (w : World) : World :=
  mkWorld x (_metadata w) (_intent_mapping w) (_tool_chains w) (_memory w)
    (_logs w) (log_records w) (clock w).

Definition with_metadata (x : dict AgentMetadata) (w : World) : World :=
  mkWorld (_agents w) x (_intent_mapping w) (_tool_chains w) (_memory w)
    (_logs w) (log_records w) (clock w).

Definition with_intent_mapping (x : dict (list string)) (w : World) : World :=
  mkWorld (_agents w) (_metadata w) x (_tool_chains w) (_memory w)
    (_logs w) (log_records w) (clock w).

Definition with_tool_chains (x : dict (list (dict string))) (w : World)
  : World :=
  mkWorld (_agents w) (_metadata w) (_intent_mapping w) x (_memory w)
    (_logs w) (log_records w) (clock w).

Definition with_memory (x : dict pydict) (w : World) : World :=
  mkWorld (_agents w) (_metadata w) (_intent_mapping w) (_tool_chains w) x
    (_logs w) (log_records w) (clock w).

Definition with_logs (x : dict (list pyval)) (w : World) : World :=
  mkWorld (_agents w) (_metadata w) (_intent_mapping w) (_tool_chains w)
    (_memory w) x (log_records w) (clock w).

Definition with_log_records (x : list (level * string)) (w : World) : World :=
  mkWorld (_agents w) (_metadata w) (_intent_mapping w) (_tool_chains w)
    (_memory w) (_logs w) x (clock w).

Definition with_clock (x : nat) (w : World) : World :=
  mkWorld (_agents w) (_metadata w) (_intent_mapping w) (_tool_chains w)
    (_memory w) (_logs w) (log_records w) x.

(** ** The monad of the package's methods

    A method is run from a world and ends either normally or with an
    exception; in both cases the mutations made up to that point stay. *)

Definition M (A : Type) : Type := World -> result A * World.

Definition ret {A : Type} (a : A) : M A := fun w => (inr a, w).

Definition bind {A B : Type} (c : M A) (k : A -> M B) : M B :=
  fun w =>
    match c w with
    | (inr a, w') => k a w'
    | (inl e, w') => (inl e, w')
    end.

Definition raise {A : Type} (e : exn) : M A := fun w => (inl e, w).

(** [try: c  except Exception as e: h e] *)
Definition try {A : Type} (c : M A) (h : exn -> M A) : M A :=
  fun w =>
    match c w with
    | (inr a, w') => (inr a, w')
    | (inl e, w') => h e w'
    end.

Definition lift {A : Type} (r : result A) : M A := fun w => (r, w).

Definition gets {A : Type} (f : World -> A) : M A := fun w => (inr (f w), w).

Definition modify (f : World -> World) : M unit := fun w => (inr tt, f w).

Declare Scope py_scope.
Delimit Scope py_scope with py.

Notation "x <- c ;; k" := (bind c (fun x => k))
  (at level 61, c at next level, right associativity) : py_scope.
Notation "c ;; k" := (bind c (fun _ => k))
  (at level 61, right associativity) : py_scope.

Local Open Scope py_scope.

(** [for x in l: acc = f acc x] with effects *)
Fixpoint foldM {A B : Type} (f : B -> A -> M B) (acc : B) (l : list A)
  : M B :=
  match l with
  | [] => ret acc
  | x :: r => acc' <- f acc x ;; foldM f acc' r
  end.

(** A list comprehension whose element expression may raise. *)
Fixpoint map_result {A B : Type} (f : A -> result B) (l : list A)
  : result (list B) :=
  match l with
  | [] => inr []
  | x :: r =>
      match f x with
      | inl e => inl e
      | inr y =>
          match map_result f r with
          | inl e => inl e
          | inr ys => inr (y :: ys)
          end
      end
  end.

Section Clock.
Context {rt : PyRuntime}.

(** One read of the clock. *)
Definition tick : M nat :=
  fun w => (inr (clock w), with_clock (S (clock w)) w).

(** [time.time()] *)
Definition now_time : M float := n <- tick ;; ret (time_time n).

(** [datetime.utcnow().isoformat()] *)
Definition now_isoformat : M string := n <- tick ;; ret (utcnow_isoformat n).

(** [f"session_{int(datetime.utcnow().timestamp())}"] *)
Definition now_session : M string :=
  n <- tick ;; ret ("session_" ++ py_str (PyInt (utcnow_timestamp n)))%string.

(** [self._logger.<lvl>(text)] *)
Definition logging (lvl : level) (text : string) : M unit :=
  modify (fun w => with_log_records (log_records w ++ [(lvl, text)]) w).
End Clock.

(** ** Calls with keyword arguments

    [callee( **kw)]: the keywords are matched against the parameters in
    the order of [kw]; a keyword that names a parameter the call has
    already bound ([self]) or that names no parameter raises
    [TypeError] at once.  Parameters without default that are left
    unbound are reported afterwards. *)

Fixpoint check_keywords (callee : string) (params bound : list string)
  (kw : pydict) : result unit :=
  match kw with
  | [] => inr tt
  | (k, _) :: r =>
      if existsb (String.eqb k) bound then inl (MultipleValues callee k)
      else if existsb (String.eqb k) params
           then check_keywords callee params bound r
           else inl (UnexpectedKeyword callee k)
  end.

Definition bind_keywords (callee : string) (params bound required : list string)
  (kw : pydict) : result unit :=
  match check_keywords callee params bound kw with
  | inl e => inl e
  | inr _ =>
      match filter (fun p => negb (Dict.mem p kw)) required with
      | [] => inr tt
      | missing => inl (MissingArguments callee missing)
      end
  end.

(** The value bound to parameter [k]: the keyword if given, else the
    default. *)
Definition arg (kw : pydict) (k : string) (default : pyval) : pyval :=
  match Dict.get k kw with Some v => v | None => default end.

(** A comprehension [[x for x in l if p x]] whose condition may raise. *)
Fixpoint filter_result {A : Type} (p : A -> result bool) (l : list A)
  : result (list A) :=
  match l with
  | [] => inr []
  | x :: r =>
      match p x with
      | inl e => inl e
      | inr b =>
          match filter_result p r with
          | inl e => inl e
          | inr xs => inr (if b then x :: xs else xs)
          end
      end
  end.

(** [x in c] *)
Definition py_in (x c : pyval) : result bool :=
  match c with
  | PyStr s =>
      match x with
      | PyStr sub => inr (contains sub s)
      | _ => inl (BadLeftOperand x)
      end
  | PyList l => inr (existsb (py_eq x) l)
  | PyDict d =>
      match x with
      | PyStr k => inr (Dict.mem k d)
      | _ => if hashable x then inr false else inl (Unhashable x)
      end
  | _ => inl (NotIterable c)
  end.

(** [d[x] if x in d else None] for a dict [d] of the package, whose keys
    are strings: the lookup hashes [x] first. *)
Definition lookup {V : Type} (x : pyval) (d : dict V) : result (option V) :=
  match x with
  | PyStr k => inr (Dict.get k d)
  | _ => if hashable x then inr None else inl (Unhashable x)
  end.

(** [x or default] *)
Definition or_else (x default : pyval) : pyval :=
  if truthy x then x else default.

(** [enumerate(l)] *)
Definition enumerate {A : Type} (l : list A) : list (nat * A) :=
  combine (seq 0 (List.length l)) l.

(** The line feed, and [sep.join(l)]. *)
Definition LF : string := String (ascii_of_nat 10) EmptyString.

Fixpoint join (sep : string) (l : list string) : string :=
  match l with
  | [] => EmptyString
  | [x] => x
  | x :: r => (x ++ sep ++ join sep r)%string
  end.

(** * acp.py *)

Module ACPMessage.
Section WithRuntime.
Context {rt : PyRuntime}.

Definition fields : list string :=
  ["from_id"; "to_id"; "intent"; "message";
   "language"; "context"; "timestamp"; "session_id"].

(** The parameters of the generated [__init__] that have no default. *)
Definition positional : list string :=
  ["from_id"; "to_id"; "intent"; "message"].

Definition set_context (v : pyval) (m : ACPMessage) : ACPMessage :=
  mkACPMessage (from_id m) (to_id m) (intent m) (message m) (language m)
    v (timestamp m) (session_id m).

Definition set_timestamp (v : pyval) (m : ACPMessage) : ACPMessage :=
  mkACPMessage (from_id m) (to_id m) (intent m) (message m) (language m)
    (context m) v (session_id m).

Definition set_session_id (v : pyval) (m : ACPMessage) : ACPMessage :=
  mkACPMessage (from_id m) (to_id m) (intent m) (message m) (language m)
    (context m) (timestamp m) v.

Definition __post_init__ (m : ACPMessage) : M ACPMessage :=
  let m := if is_None (context m) then set_context (PyDict []) m else m in
  m <- (if is_None (timestamp m)
        then t <- now_isoformat ;; ret (set_timestamp (PyStr t) m)
        else ret m) ;;
  if is_None (session_id m)
  then s <- now_session ;; ret (set_session_id (PyStr s) m)
  else ret m.

(** The constructor the dataclass generates, followed by
    [__post_init__]. *)
Definition __init__
  (from_id to_id intent message language context timestamp session_id : pyval)
  : M ACPMessage :=
  __post_init__
    (mkACPMessage from_id to_id intent message language context timestamp
       session_id).

(** [asdict(self)] *)
Definition to_dict (m : ACPMessage) : pydict :=
  [("from_id", asdict_inner (from_id m));
   ("to_id", asdict_inner (to_id m));
   ("intent", asdict_inner (intent m));
   ("message", asdict_inner (message m));
   ("language", asdict_inner (language m));
   ("context", asdict_inner (context m));
   ("timestamp", asdict_inner (timestamp m));
   ("session_id", asdict_inner (session_id m))].

(** [getattr(self, field)], [None] when [hasattr(self, field)] is
    false. *)
Definition getattr (m : ACPMessage) (field : string) : option pyval :=
  if String.eqb field "from_id" then Some (from_id m)
  else if String.eqb field "to_id" then Some (to_id m)
  else if String.eqb field "intent" then Some (intent m)
  else if String.eqb field "message" then Some (message m)
  else if String.eqb field "language" then Some (language m)
  else if String.eqb field "context" then Some (context m)
  else if String.eqb field "timestamp" then Some (timestamp m)
  else if String.eqb field "session_id" then Some (session_id m)
  else None.

Definition required_fields : list string :=
  ["from_id"; "to_id"; "intent"; "message"].

Definition is_valid (m : ACPMessage) : bool :=
  if existsb
       (fun field =>
          match getattr m field with
          | None => true
          | Some v => is_None v
          end)
       required_fields
  then false
  else if negb (is_str (language m))
          || match language m with
             | PyStr s => Nat.ltb (String.length s) 2
             | _ => false
             end
  then false
  else if negb (is_None (context m)) && negb (is_dict (context m))
  then false
  else true.

(** [cls( **data)] *)
Definition from_dict (data : pydict) : M ACPMessage :=
  lift (bind_keywords "ACPMessage.__init__" fields ["self"] positional data) ;;
  __init__
    (arg data "from_id" PyNone) (arg data "to_id" PyNone)
    (arg data "intent" PyNone) (arg data "message" PyNone)
    (arg data "language" (PyStr "en-US")) (arg data "context" PyNone)
    (arg data "timestamp" PyNone) (arg data "session_id" PyNone).

End WithRuntime.
End ACPMessage.

(** The two module-level constructors of [acp.py]. *)
Module acp.
Section WithRuntime.
Context {rt : PyRuntime}.

Definition create_user_message (user_id intent message language context : pyval)
  : M ACPMessage :=
  ACPMessage.__init__
    (PyStr ("user:" ++ py_str user_id)%string) (PyStr "agent:router")
    intent message language (or_else context (PyDict [])) PyNone PyNone.

Definition create_agent_message
  (from_agent to_agent intent message context : pyval) : M ACPMessage :=
  ACPMessage.__init__
    (PyStr ("agent:" ++ py_str from_agent)%string)
    (PyStr ("agent:" ++ py_str to_agent)%string)
    intent message (PyStr "en-US") (or_else context (PyDict [])) PyNone PyNone.

End WithRuntime.
End acp.

(** * agent_registry.py *)

Module AgentMetadata.

Definition fields : list string :=
  ["name"; "description"; "capabilities"; "intents"; "version";
   "is_active"; "config"].

Definition __post_init__ (m : AgentMetadata) : AgentMetadata :=
  mkAgentMetadata (name m) (description m)
    (if is_None (capabilities m) then PyList [] else capabilities m)
    (if is_None (intents m) then PyList [] else intents m)
    (version m) (is_active m)
    (if is_None (config m) then PyDict [] else config m).

(** [AgentMetadata(name=name, **kw)]: a [name] key in [kw] collides
    with the explicit keyword when the call is made. *)
Definition __init__ (name : string) (kw : pydict) : result AgentMetadata :=
  if Dict.mem "name" kw then inl (MultipleValues "AgentMetadata" "name")
  else
    match check_keywords "AgentMetadata.__init__" fields ["self"] kw with
    | inl e => inl e
    | inr _ =>
        inr (__post_init__
               (mkAgentMetadata name
                  (arg kw "description" (PyStr ""))
                  (arg kw "capabilities" PyNone)
                  (arg kw "intents" PyNone)
                  (arg kw "version" (PyStr "1.0.0"))
                  (arg kw "is_active" (PyBool true))
                  (arg kw "config" PyNone)))
    end.

End AgentMetadata.

Module AgentRegistry.
Section WithRuntime.
Context {rt : PyRuntime}.

Definition register (name : string) (agent : Agent) (metadata : option pydict)
  : M unit :=
  registered <- gets (fun w => Dict.mem name (_agents w)) ;;
  (if registered
   then logging WARNING
          ("Agent '" ++ name ++ "' already registered. Overwriting.")%string
   else ret tt) ;;
  modify (fun w => with_agents (Dict.set name agent (_agents w)) w) ;;
  agent_metadata <-
    lift (AgentMetadata.__init__ name
            (match metadata with Some d => d | None => [] end)) ;;
  modify (fun w => with_metadata (Dict.set name agent_metadata (_metadata w)) w) ;;
  logging INFO
    ("Registered agent '" ++ name ++ "' with capabilities: "
       ++ py_str (capabilities agent_metadata))%string.

Definition get (name : string) : M (option Agent) :=
  gets (fun w => Dict.get name (_agents w)).

Definition get_metadata (name : string) : M (option AgentMetadata) :=
  gets (fun w => Dict.get name (_metadata w)).

Definition list_all : M (list string) :=
  gets (fun w => Dict.keys (_agents w)).

Definition list_active : M (list string) :=
  gets (fun w =>
          map fst (filter (fun nm => truthy (is_active (snd nm))) (_metadata w))).

(** The condition [tags and tag in tags and metadata.is_active] of the
    two searches. *)
Definition has_tag (tag tags active : pyval) : result bool :=
  if truthy tags
  then match py_in tag tags with
       | inl e => inl e
       | inr found => inr (found && truthy active)
       end
  else inr false.

Definition list_by_capability (capability : pyval) : M (list string) :=
  md <- gets _metadata ;;
  l <- lift (filter_result
               (fun nm => has_tag capability (capabilities (snd nm))
                            (is_active (snd nm))) md) ;;
  ret (map fst l).

Definition list_by_intent (intent : pyval) : M (list string) :=
  md <- gets _metadata ;;
  l <- lift (filter_result
               (fun nm => has_tag intent (intents (snd nm))
                            (is_active (snd nm))) md) ;;
  ret (map fst l).

Definition unregister (name : string) : M bool :=
  registered <- gets (fun w => Dict.mem name (_agents w)) ;;
  if registered
  then modify (fun w => with_agents (Dict.del name (_agents w)) w) ;;
       present <- gets (fun w => Dict.mem name (_metadata w)) ;;
       (if present
        then modify (fun w => with_metadata (Dict.del name (_metadata w)) w)
        else raise (KeyError name)) ;;
       logging INFO ("Unregistered agent '" ++ name ++ "'")%string ;;
       ret true
  else ret false.

Definition is_registered (name : string) : M bool :=
  gets (fun w => Dict.mem name (_agents w)).

End WithRuntime.
End AgentRegistry.

(** * memory.py

    The manager with [_use_firestore = False]: sessions live in the
    dictionary [_memory] under the key ["user_<id>"]. *)

Module MemoryManager.
Section WithRuntime.
Context {rt : PyRuntime}.

Definition session_key (user_id : string) : string :=
  ("user_" ++ user_id)%string.

Definition get_session (user_id : string) : M pydict :=
  gets (fun w =>
          match Dict.get (session_key user_id) (_memory w) with
          | Some session => session
          | None => []
          end).

Definition save_session (user_id : string) (data : pydict) : M unit :=
  modify (fun w => with_memory (Dict.set (session_key user_id) data (_memory w)) w).

Definition add_conversation_message (user_id : string) (message : pydict)
  : M unit :=
  session <- get_session user_id ;;
  let session :=
    if negb (Dict.mem "conversation_history" session)
    then Dict.set "conversation_history" (PyList []) session
    else session in
  message <-
    (if negb (Dict.mem "timestamp" message)
     then t <- now_isoformat ;; ret (Dict.set "timestamp" (PyStr t) message)
     else ret message) ;;
  match Dict.get "conversation_history" session with
  | Some (PyList history) =>
      let history := history ++ [PyDict message] in
      let session := Dict.set "conversation_history" (PyList history) session in
      let session :=
        if Nat.ltb 100 (List.length history)
        then Dict.set "conversation_history" (PyList (last_n 100 history))
               session
        else session in
      t <- now_isoformat ;;
      let session := Dict.set "last_updated" (PyStr t) session in
      save_session user_id session
  | Some v => raise (NoAttribute v "append")
  | None => raise (KeyError "conversation_history")
  end.

Definition clear_conversation_history (user_id : string) : M unit :=
  session <- get_session user_id ;;
  let session := Dict.set "conversation_history" (PyList []) session in
  t <- now_isoformat ;;
  let session := Dict.set "last_updated" (PyStr t) session in
  save_session user_id session.

Definition delete_session (user_id : string) : M unit :=
  modify (fun w => with_memory (Dict.del (session_key user_id) (_memory w)) w).

(** [session.get("context", {}).get(key)] *)
Definition get_context (user_id key : string) : M pyval :=
  session <- get_session user_id ;;
  match arg session "context" (PyDict []) with
  | PyDict d => ret (arg d key PyNone)
  | v => raise (NoAttribute v "get")
  end.

(** The item assignment [session["context"][key] = value] raises
    [TypeError] when the stored context is not a dict; the exception is
    rendered as [NotAMapping]. *)
Definition set_context (user_id key : string) (value : pyval) : M unit :=
  session <- get_session user_id ;;
  let session :=
    if negb (Dict.mem "context" session)
    then Dict.set "context" (PyDict []) session
    else session in
  match Dict.get "context" session with
  | Some (PyDict d) =>
      let session :=
        Dict.set "context" (PyDict (Dict.set key value d)) session in
      t <- now_isoformat ;;
      let session := Dict.set "last_updated" (PyStr t) session in
      save_session user_id session
  | Some v => raise (NotAMapping v)
  | None => raise (KeyError "context")
  end.

(** [history[-limit:] if limit > 0 else history].  A list or a string is
    sliced; subscripting any other stored value raises, rendered as
    [NotIterable]. *)
Definition get_conversation_history (user_id : string) (limit : Z) : M pyval :=
  session <- get_session user_id ;;
  let history := arg session "conversation_history" (PyList []) in
  if (0 <? limit)%Z
  then
    match history with
    | PyList l => ret (PyList (last_n (Z.to_nat limit) l))
    | PyStr text =>
        ret (PyStr (drop (String.length text - Z.to_nat limit) text))
    | v => raise (NotIterable v)
    end
  else ret history.

Definition clear_context (user_id : string) : M unit :=
  session <- get_session user_id ;;
  let session := Dict.set "context" (PyDict []) session in
  t <- now_isoformat ;;
  let session := Dict.set "last_updated" (PyStr t) session in
  save_session user_id session.

End WithRuntime.
End MemoryManager.

(** * logger.py

    The logger with [_use_firestore = False]: entries are appended to
    the list [_logs[user_id]]. *)

Module ReasoningLogger.
Section WithRuntime.
Context {rt : PyRuntime}.

Definition log (user_id step : string) (details : pydict) (session_id : pyval)
  : M unit :=
  timestamp <- now_isoformat ;;
  session_id <-
    (if truthy session_id then ret session_id
     else s <- now_session ;; ret (PyStr s)) ;;
  let log_entry :=
    PyDict [("user_id", PyStr user_id);
            ("session_id", session_id);
            ("timestamp", PyStr timestamp);
            ("step", PyStr step);
            ("details", PyDict details)] in
  modify (fun w =>
            let entries :=
              match Dict.get user_id (_logs w) with
              | Some l => l
              | None => []
              end in
            with_logs (Dict.set user_id (entries ++ [log_entry]) (_logs w)) w).

Definition log_intent_analysis (user_id : string)
  (message detected_intent : pyval) (confidence : float)
  (alternatives session_id : pyval) : M unit :=
  log user_id "intent_analysis"
    [("message", message);
     ("detected_intent", detected_intent);
     ("confidence", PyFloat confidence);
     ("alternatives", if truthy alternatives then alternatives else PyList [])]
    session_id.

Definition log_agent_selection (user_id : string) (intent : pyval)
  (selected_agent : string) (available_agents : list string)
  (selection_reason : string) (session_id : pyval) : M unit :=
  log user_id "agent_selection"
    [("intent", intent);
     ("selected_agent", PyStr selected_agent);
     ("available_agents", PyList (map PyStr available_agents));
     ("selection_reason", PyStr selection_reason)]
    session_id.

Definition log_agent_invocation (user_id agent_name : string)
  (input_message : pyval) (context : pydict) (response : string)
  (execution_time : float) (session_id : pyval) : M unit :=
  log user_id "agent_invocation"
    [("agent_name", PyStr agent_name);
     ("input_message", input_message);
     ("context", PyDict context);
     ("response", PyStr response);
     ("execution_time", PyFloat execution_time)]
    session_id.

Definition log_error (user_id error_type error_message : string)
  (stack_trace : pyval) (context : pydict) (session_id : pyval) : M unit :=
  log user_id "error"
    [("error_type", PyStr error_type);
     ("error_message", PyStr error_message);
     ("stack_trace", stack_trace);
     ("context", PyDict context)]
    session_id.

End WithRuntime.
End ReasoningLogger.

(** * invoker.py *)

Module AgentInvoker.
Section WithRuntime.
Context {rt : PyRuntime}.

Definition _invoke_local_agent (agent_name : string) (message : pyval)
  (context : pydict) : M string :=
  logging INFO ("Invoking local agent: " ++ agent_name)%string ;;
  ret ("Local agent '" ++ agent_name ++ "' response: " ++ py_str message)%string.

(** [invoke] with the default [agent_type="local"], as the router calls
    it. *)
Definition invoke (agent_name : string) (message : pyval) (context : pydict)
  : M string :=
  try (_invoke_local_agent agent_name message context)
    (fun e =>
       logging ERROR
         ("Error invoking agent " ++ agent_name ++ ": " ++ exn_str e)%string ;;
       ret ("Error: Failed to invoke agent " ++ agent_name ++ ". "
              ++ exn_str e)%string).

(** [_invoke_vertex_agent] when the module was imported without the
    Vertex AI SDK ([VERTEX_AI_AVAILABLE = False]). *)
Definition _invoke_vertex_agent (agent_name : string) (message : pyval)
  (context : pydict) : M string :=
  raise (Raised "Vertex AI SDK not available").

(** [invoke] with an explicit [agent_type]. *)
Definition invoke_as (agent_name : string) (message : pyval) (context : pydict)
  (agent_type : string) : M string :=
  try (if String.eqb agent_type "vertex"
       then _invoke_vertex_agent agent_name message context
       else _invoke_local_agent agent_name message context)
    (fun e =>
       logging ERROR
         ("Error invoking agent " ++ agent_name ++ ": " ++ exn_str e)%string ;;
       ret ("Error: Failed to invoke agent " ++ agent_name ++ ". "
              ++ exn_str e)%string).

Definition invoke_with_fallback (agent_name : string) (message : pyval)
  (context : pydict) (fallback_agent : option string) : M string :=
  try (invoke agent_name message context)
    (fun e =>
       logging WARNING
         ("Primary agent " ++ agent_name ++ " failed: " ++ exn_str e)%string ;;
       answer <-
         match fallback_agent with
         | Some fallback =>
             if negb (String.eqb fallback "")
             then
               try (logging INFO ("Trying fallback agent: " ++ fallback)%string ;;
                    response <- invoke fallback message context ;;
                    ret (Some response))
                 (fun fallback_error =>
                    logging ERROR
                      ("Fallback agent " ++ fallback ++ " also failed: "
                         ++ exn_str fallback_error)%string ;;
                    ret None)
             else ret None
         | None => ret None
         end ;;
       match answer with
       | Some response => ret response
       | None =>
           ret ("Error: All agents failed. Original error: " ++ exn_str e)%string
       end).

(** One iteration of [batch_invoke]; a configuration is a dict with the
    keys [name] and [type]. *)
Definition batch_step (message : pyval) (context : pydict)
  (results : dict string) (agent_config : dict string) : M (dict string) :=
  match Dict.get "name" agent_config with
  | Some agent_name =>
      if String.eqb agent_name "" then ret results
      else
        let agent_type :=
          match Dict.get "type" agent_config with
          | Some t => t
          | None => "local"
          end in
        try (response <- invoke_as agent_name message context agent_type ;;
             ret (Dict.set agent_name response results))
          (fun e =>
             ret (Dict.set agent_name ("Error: " ++ exn_str e)%string results))
  | None => ret results
  end.

Definition batch_invoke (agents : list (dict string)) (message : pyval)
  (context : pydict) : M (dict string) :=
  foldM (batch_step message context) [] agents.

End WithRuntime.
End AgentInvoker.

(** * router.py *)

Module AgentRouter.
Section WithRuntime.
Context {rt : PyRuntime}.

(** The two tables as [__init__] fills them. *)
Definition default_intent_mapping : dict (list string) :=
  [("get_crop_advice", ["crop_advisor"]);
   ("get_weather", ["weather"]);
   ("pest_control", ["pest_assistant"]);
   ("soil_analysis", ["soil_analyzer"]);
   ("market_prices", ["market_agent"]);
   ("general_help", ["general_assistant"])].

Definition default_tool_chains : dict (list (dict string)) :=
  [("comprehensive_advice",
    [[("agent", "weather"); ("purpose", "get_weather_data")];
     [("agent", "crop_advisor"); ("purpose", "get_crop_recommendations")];
     [("agent", "pest_assistant"); ("purpose", "get_pest_advice")]])].

(** The literal [0.9] of [route]: the nearest double. *)
Definition confidence : float := 0x1.ccccccccccccdp-1%float.

Definition _create_error_response (error_message : string) : pydict :=
  [("success", PyBool false);
   ("error", PyStr error_message);
   ("response", PyStr ("Sorry, I encountered an error: " ++ error_message)%string);
   ("agent", PyNone)].

Definition _extract_user_id (from_id : pyval) : result string :=
  match from_id with
  | PyStr s => inr (if startswith "user:" s then drop 5 s else s)
  | v => inl (NoAttribute v "startswith")
  end.

(** [any(word in text for word in words)] *)
Definition any_word_in (text : string) (words : list string) : bool :=
  existsb (fun word => contains word text) words.

Definition _analyze_intent (m : ACPMessage) : result pyval :=
  if truthy (intent m) then inr (intent m)
  else
    match message m with
    | PyStr text =>
        let message_lower := str_lower text in
        if any_word_in message_lower ["crop"; "plant"; "grow"; "harvest"]
        then inr (PyStr "get_crop_advice")
        else if any_word_in message_lower
                  ["weather"; "rain"; "temperature"; "climate"]
        then inr (PyStr "get_weather")
        else if any_word_in message_lower
                  ["pest"; "disease"; "insect"; "treatment"]
        then inr (PyStr "pest_control")
        else if any_word_in message_lower ["soil"; "ph"; "nutrient"; "fertilizer"]
        then inr (PyStr "soil_analysis")
        else if any_word_in message_lower ["price"; "market"; "cost"; "sell"]
        then inr (PyStr "market_prices")
        else inr (PyStr "general_help")
    | v => inl (NoAttribute v "lower")
    end.

Definition _select_agents (intent context : pyval) : M (list string) :=
  let by_intent : M (list string) :=
    mapping <- gets _intent_mapping ;;
    mapped <- lift (lookup intent mapping) ;;
    match mapped with
    | Some agents =>
        registered <- gets _agents ;;
        let available_agents :=
          filter (fun agent => Dict.mem agent registered) agents in
        ret available_agents
    | None =>
        agents_by_intent <- AgentRegistry.list_by_intent intent ;;
        match agents_by_intent with
        | _ :: _ => ret agents_by_intent
        | [] =>
            general <- AgentRegistry.is_registered "general_assistant" ;;
            if general then ret ["general_assistant"] else ret []
        end
    end in
  match context with
  | PyDict ctx =>
      let chain_name := arg ctx "tool_chain" PyNone in
      if truthy chain_name
      then
        chains <- gets _tool_chains ;;
        chain <- lift (lookup chain_name chains) ;;
        match chain with
        | Some steps =>
            lift (map_result
                    (fun step =>
                       match Dict.get "agent" step with
                       | Some agent => inr agent
                       | None => inl (KeyError "agent")
                       end) steps)
        | None => by_intent
        end
      else by_intent
  | v => raise (NoAttribute v "get")
  end.

Definition _prepare_context (user_id : string) (message_context : pyval)
  : M pydict :=
  session <- MemoryManager.get_session user_id ;;
  let user_context := arg session "context" (PyDict []) in
  match user_context, message_context with
  | PyDict user_context, PyDict message_context =>
      let combined_context := Dict.merge user_context message_context in
      let combined_context :=
        Dict.set "user_id" (PyStr user_id) combined_context in
      t <- now_time ;;
      ret (Dict.set "timestamp" (PyFloat t) combined_context)
  | PyDict _, v => raise (NotAMapping v)
  | v, _ => raise (NotAMapping v)
  end.

Definition _invoke_single_agent (agent_name : string) (m : ACPMessage)
  (user_id : string) (session_id : pyval) : M pydict :=
  start_time <- now_time ;;
  try
    (agent <- AgentRegistry.get agent_name ;;
     match agent with
     | Some (mkAgent true invoke) =>
         context <- _prepare_context user_id (or_else (context m) (PyDict [])) ;;
         response <-
           match invoke with
           | Some invoke => lift (invoke (message m) context)
           | None => AgentInvoker.invoke agent_name (message m) context
           end ;;
         t <- now_time ;;
         let execution_time := PrimFloat.sub t start_time in
         ReasoningLogger.log_agent_invocation user_id agent_name (message m)
           context response execution_time session_id ;;
         ret [("success", PyBool true);
              ("agent", PyStr agent_name);
              ("response", PyStr response);
              ("context", PyDict context)]
     | _ =>
         ret (_create_error_response
                ("Agent " ++ agent_name ++ " not found")%string)
     end)
    (fun e =>
       t <- now_time ;;
       ReasoningLogger.log_error user_id "agent_invocation_error" (exn_str e)
         PyNone [("agent", PyStr agent_name)] session_id ;;
       ret (_create_error_response
              ("Agent " ++ agent_name ++ " failed: " ++ exn_str e)%string)).

Definition _combine_tool_chain_results (results : list pydict) : string :=
  match results with
  | [] => "No results from tool chain"
  | _ =>
      join (LF ++ LF)
        (map (fun result =>
                let agent := arg result "agent" (PyStr "unknown") in
                if Dict.mem "error" result
                then ("❌ " ++ py_str agent ++ ": "
                        ++ py_str (arg result "error" PyNone))%string
                else ("✅ " ++ py_str agent ++ ": "
                        ++ py_str (arg result "result" (PyStr "No response")))%string)
             results)
  end.

(** The state of the loop of [_execute_tool_chain]: the list
    [chain_results], the dict [context], and whether
    [context["previous_results"]] has been bound to [chain_results]. *)
Record chain_state : Type := mkChain {
  chain_results : list pydict;
  chain_context : pydict;
  chain_linked : bool
}.

Definition previous_results (results : list pydict) : pyval :=
  PyList (map PyDict results).

(** [if chain_results: context["previous_results"] = chain_results] *)
Definition link_previous_results (st : chain_state) : chain_state :=
  match chain_results st with
  | [] => st
  | results =>
      mkChain results
        (Dict.set "previous_results" (previous_results results)
           (chain_context st))
        true
  end.

(** One iteration.  Neither the assignment to [context] nor the logger
    raises, so what the [try] block has appended is never followed by
    the [except] branch. *)
Definition chain_step (m : ACPMessage) (user_id : string) (session_id : pyval)
  (st : chain_state) (step : nat * string) : M chain_state :=
  let '(i, agent_name) := step in
  let st := link_previous_results st in
  let context := chain_context st in
  try
    (registered <- AgentRegistry.is_registered agent_name ;;
     result <-
       (if registered
        then
          agent <- AgentRegistry.get agent_name ;;
          match agent with
          | Some (mkAgent true (Some invoke)) =>
              lift (invoke (message m) context)
          | _ => AgentInvoker.invoke agent_name (message m) context
          end
        else AgentInvoker.invoke agent_name (message m) context) ;;
     let entry :=
       [("agent", PyStr agent_name);
        ("step", PyInt (Z.of_nat i + 1));
        ("result", PyStr result)] in
     ReasoningLogger.log user_id "tool_chain_step" entry session_id ;;
     ret (mkChain (chain_results st ++ [entry]) context (chain_linked st)))
    (fun e =>
       ReasoningLogger.log_error user_id "tool_chain_error" (exn_str e) PyNone
         [("agent", PyStr agent_name); ("step", PyInt (Z.of_nat i + 1))]
         session_id ;;
       ret (mkChain
              (chain_results st
                 ++ [[("agent", PyStr agent_name);
                      ("step", PyInt (Z.of_nat i + 1));
                      ("error", PyStr (exn_str e))]])
              context (chain_linked st))).

(** [context["previous_results"]] and [chain_results] are one list
    object: once bound, the entry of [context] shows every later
    [append], also the last one. *)
Definition _execute_tool_chain (agents : list string) (m : ACPMessage)
  (user_id : string) (session_id : pyval) : M pydict :=
  context <- _prepare_context user_id (or_else (context m) (PyDict [])) ;;
  st <- foldM (chain_step m user_id session_id) (mkChain [] context false)
          (enumerate agents) ;;
  let chain_results := chain_results st in
  let context :=
    if chain_linked st
    then Dict.set "previous_results" (previous_results chain_results)
           (chain_context st)
    else chain_context st in
  let combined_response := _combine_tool_chain_results chain_results in
  ret [("success", PyBool true);
       ("tool_chain", PyBool true);
       ("agents", PyList (map PyStr agents));
       ("response", PyStr combined_response);
       ("step_results", PyList (map PyDict chain_results));
       ("context", PyDict context)].

(** The reasoning log keeps the very [response] object that the last
    three assignments annotate, so its [response_sent] entry shows the
    annotated envelope. *)
Definition route (acp_message : pydict) : M pydict :=
  start_time <- now_time ;;
  try
    (m <- ACPMessage.from_dict acp_message ;;
     if negb (ACPMessage.is_valid m)
     then ret (_create_error_response "Invalid ACP message format")
     else
       user_id <- lift (_extract_user_id (from_id m)) ;;
       let session_id := session_id m in
       ReasoningLogger.log user_id "message_received"
         [("message", PyDict (ACPMessage.to_dict m))] session_id ;;
       intent <- lift (_analyze_intent m) ;;
       ReasoningLogger.log_intent_analysis user_id (message m) intent
         confidence PyNone session_id ;;
       selected_agents <-
         _select_agents intent (or_else (context m) (PyDict [])) ;;
       match selected_agents with
       | [] =>
           ret (_create_error_response
                  ("No agent found for intent: " ++ py_str intent)%string)
       | first :: _ =>
           active <- AgentRegistry.list_active ;;
           ReasoningLogger.log_agent_selection user_id intent first active
             "Intent-based routing" (or_else session_id (PyStr "default")) ;;
           response <-
             (if Nat.ltb 1 (List.length selected_agents)
              then _execute_tool_chain selected_agents m user_id
                     (or_else session_id (PyStr "default"))
              else _invoke_single_agent first m user_id
                     (or_else session_id (PyStr "default"))) ;;
           t <- now_time ;;
           let execution_time := PrimFloat.sub t start_time in
           let response :=
             Dict.set "user_id" (PyStr user_id)
               (Dict.set "session_id" session_id
                  (Dict.set "execution_time" (PyFloat execution_time)
                     response)) in
           ReasoningLogger.log user_id "response_sent"
             [("response", PyDict response);
              ("execution_time", PyFloat execution_time)] session_id ;;
           ret response
       end)
    (fun e =>
       logging ERROR ("Error in routing: " ++ exn_str e)%string ;;
       ret (_create_error_response ("Routing error: " ++ exn_str e)%string)).

Definition add_intent_mapping (intent : string) (agents : list string)
  : M unit :=
  modify (fun w => with_intent_mapping (Dict.set intent agents (_intent_mapping w)) w) ;;
  logging INFO
    ("Added intent mapping: " ++ intent ++ " -> "
       ++ py_str (PyList (map PyStr agents)))%string.

Definition add_tool_chain (name : string) (steps : list (dict string))
  : M unit :=
  modify (fun w => with_tool_chains (Dict.set name steps (_tool_chains w)) w) ;;
  logging INFO
    ("Added tool chain: " ++ name ++ " with "
       ++ py_str (PyInt (Z.of_nat (List.length steps))) ++ " steps")%string.

End WithRuntime.
End AgentRouter.

(** * core.py *)

Module AgentOrchestrator.
Section WithRuntime.
Context {rt : PyRuntime}.

Definition _extract_user_id (from_id : pyval) : result string :=
  match from_id with
  | PyStr s => inr (if startswith "user:" s then drop 5 s else s)
  | v => inl (NoAttribute v "startswith")
  end.

Definition handle_message (acp_message : pydict) : M pydict :=
  try
    (m <- ACPMessage.from_dict acp_message ;;
     if negb (ACPMessage.is_valid m)
     then ret [("success", PyBool false);
               ("error", PyStr "Invalid ACP message format");
               ("response", PyStr "Please provide a valid message format.")]
     else
       response <- AgentRouter.route acp_message ;;
       user_id <- lift (_extract_user_id (from_id m)) ;;
       MemoryManager.add_conversation_message user_id
         [("message", PyDict (ACPMessage.to_dict m));
          ("response", PyDict response)] ;;
       ret response)
    (fun e =>
       logging ERROR ("Error handling message: " ++ exn_str e)%string ;;
       ret [("success", PyBool false);
            ("error", PyStr ("Orchestrator error: " ++ exn_str e)%string);
            ("response",
             PyStr "Sorry, I encountered an error processing your request.")]).

(** [session.get("context", {})] *)
Definition get_user_context (user_id : string) : M pyval :=
  session <- MemoryManager.get_session user_id ;;
  ret (arg session "context" (PyDict [])).

Definition create_user_message (user_id intent message language context : pyval)
  : M pydict :=
  acp_message <-
    acp.create_user_message user_id intent message language context ;;
  ret (ACPMessage.to_dict acp_message).

Definition handle_simple_message (user_id message context : pyval)
  : M pydict :=
  let acp_message :=
    [("from_id", PyStr ("user:" ++ py_str user_id)%string);
     ("to_id", PyStr "agent:router");
     ("intent", PyStr "");
     ("message", message);
     ("language", PyStr "en-US");
     ("context", or_else context (PyDict []))] in
  handle_message acp_message.

End WithRuntime.

(** A fresh orchestrator: nothing registered, the router's default
    tables, empty stores. *)
Definition initial : World :=
  mkWorld [] [] AgentRouter.default_intent_mapping
    AgentRouter.default_tool_chains [] [] [] 0.

End AgentOrchestrator.

(** * A runtime to run the model on

    ASCII case conversion, a [repr] for the scalar values, CPython's
    wording of the built-in exceptions, and a clock that advances by one
    unit per read. *)

Module Sample.

Definition lower_ascii (c : ascii) : ascii :=
  let n := nat_of_ascii c in
  if Nat.leb 65 n && Nat.leb n 90 then ascii_of_nat (n + 32) else c.

Fixpoint lower (s : string) : string :=
  match s with
  | EmptyString => EmptyString
  | String c r => String (lower_ascii c) (lower r)
  end.

Definition decimal (z : Z) : string := NilZero.string_of_int (Z.to_int z).

Definition type_name (v : pyval) : string :=
  match v with
  | PyNone => "NoneType"
  | PyBool _ => "bool"
  | PyInt _ => "int"
  | PyFloat _ => "float"
  | PyStr _ => "str"
  | PyList _ => "list"
  | PyDict _ => "dict"
  end.

Definition repr (v : pyval) : string :=
  match v with
  | PyNone => "None"
  | PyBool true => "True"
  | PyBool false => "False"
  | PyInt z => decimal z
  | PyStr s => ("'" ++ s ++ "'")%string
  | _ => ("<" ++ type_name v ++ ">")%string
  end.

Definition message_of (e : exn) : string :=
  match e with
  | UnexpectedKeyword callee key =>
      (callee ++ "() got an unexpected keyword argument '" ++ key ++ "'")%string
  | MissingArguments callee names =>
      (callee ++ "() missing required positional arguments: "
         ++ join ", " names)%string
  | MultipleValues callee key =>
      (callee ++ "() got multiple values for keyword argument '" ++ key ++ "'")%string
  | NoAttribute v attr =>
      ("'" ++ type_name v ++ "' object has no attribute '" ++ attr ++ "'")%string
  | Unhashable v => ("unhashable type: '" ++ type_name v ++ "'")%string
  | NotIterable v =>
      ("argument of type '" ++ type_name v ++ "' is not iterable")%string
  | BadLeftOperand v =>
      ("'in <string>' requires string as left operand, not "
         ++ type_name v)%string
  | NotAMapping v => ("'" ++ type_name v ++ "' object is not a mapping")%string
  | KeyError key => ("'" ++ key ++ "'")%string
  | Raised text => text
  end.

Definition runtime : PyRuntime := {|
  str_lower := lower;
  py_repr := repr;
  builtin_message := message_of;
  time_time := fun n => PrimFloat.of_uint63 (Uint63.of_Z (Z.of_nat n));
  utcnow_isoformat := fun n => ("2024-01-01T00:00:00." ++ decimal (Z.of_nat n))%string;
  utcnow_timestamp := fun n => (1704067200 + Z.of_nat n)%Z
|}.

(** An [invoke] method that answers [text], one that raises an
    exception with the given text, and the agent objects that have
    them. *)
Definition answer (text : string) : pyval -> pydict -> result string :=
  fun _ _ => inr text.

Definition fail (text : string) : pyval -> pydict -> result string :=
  fun _ _ => inl (Raised text).

Definition answering (text : string) : Agent :=
  mkAgent true (Some (answer text)).

Definition failing (text : string) : Agent :=
  mkAgent true (Some (fail text)).

(** The record a caller sends: the four positional fields only. *)
Definition request (from_id intent message : string) : pydict :=
  [("from_id", PyStr from_id);
   ("to_id", PyStr "agent:router");
   ("intent", PyStr intent);
   ("message", PyStr message)].

(** An orchestrator with a general assistant and nothing else. *)
Definition world : World :=
  with_agents [("general_assistant", answering "How can I help?")]
    AgentOrchestrator.initial.

(** An orchestrator with the three agents of the default chain, the
    second of which is out of order. *)
Definition farm : World :=
  with_agents
    [("weather", answering "Sunny, 31 degrees");
     ("crop_advisor", failing "crop model offline");
     ("pest_assistant", answering "No pest alert")]
    AgentOrchestrator.initial.

(** A request for the default chain. *)
Definition advice : pydict :=
  request "user:alice" "" "What should I do this week?"
    ++ [("context", PyDict [("tool_chain", PyStr "comprehensive_advice")])].

(** [advice] once constructed by [route], whose first clock read is its
    own [start_time]. *)
Definition advice_message : ACPMessage :=
  mkACPMessage (PyStr "user:alice") (PyStr "agent:router") (PyStr "")
    (PyStr "What should I do this week?") (PyStr "en-US")
    (PyDict [("tool_chain", PyStr "comprehensive_advice")])
    (PyStr "2024-01-01T00:00:00.1") (PyStr "session_1704067202").

(** A greeting, and the message [handle_message] constructs from it. *)
Definition greeting : pydict := request "user:alice" "general_help" "Hello".

Definition greeting_message : ACPMessage :=
  mkACPMessage (PyStr "user:alice") (PyStr "agent:router")
    (PyStr "general_help") (PyStr "Hello") (PyStr "en-US") (PyDict [])
    (PyStr "2024-01-01T00:00:00.0") (PyStr "session_1704067201").

End Sample.

(** * Vocabulary of the statements *)

(** What one routing call only reads: registry, routing tables and
    session store. *)
Definition configuration (w : World)
  : dict Agent * dict AgentMetadata * dict (list string)
    * dict (list (dict string)) * dict pydict :=
  (_agents w, _metadata w, _intent_mapping w, _tool_chains w, _memory w).

(** The value stored under [conversation_history] in the session of
    [user_id], if any. *)
Definition stored_history (w : World) (user_id : string) : option pyval :=
  match Dict.get (MemoryManager.session_key user_id) (_memory w) with
  | Some session => Dict.get "conversation_history" session
  | None => None
  end.

(** The session of [user_id] has no history yet, or a list. *)
Definition history_is (w : World) (user_id : string) (h : list pyval) : Prop :=
  stored_history w user_id = Some (PyList h)
  \/ (stored_history w user_id = None /\ h = []).

(** [e] is [m] as [add_conversation_message] stores it: with a
    [timestamp] added when it had none. *)
Definition stamped (m e : pydict) : Prop :=
  (Dict.mem "timestamp" m = true /\ e = m)
  \/ (Dict.mem "timestamp" m = false
      /\ exists t, e = Dict.set "timestamp" (PyStr t) m).

(** An envelope carries the key [k]. *)
Definition carries (k : string) (envelope : pydict) : Prop :=
  Dict.mem k envelope = true.

(** A computation that leaves the [configuration] as it found it. *)
Definition frames {A : Type} (c : M A) : Prop :=
  forall w, configuration (snd (c w)) = configuration w.

(** Every value a computation returns satisfies [P]. *)
Definition yields {A : Type} (P : A -> Prop) (c : M A) : Prop :=
  forall w a w', c w = (inr a, w') -> P a.

(** A computation that only reads the configuration: it returns the
    world it was run from, and its outcome depends on nothing else. *)
Definition reads {A : Type} (c : M A) : Prop :=
  forall w,
    snd (c w) = w
    /\ forall w', configuration w' = configuration w -> fst (c w') = fst (c w).

(** A computation that never raises. *)
Definition total {A : Type} (c : M A) : Prop :=
  forall w, exists a w', c w = (inr a, w').

Section Sequences.
Context {rt : PyRuntime}.

(** [for m in messages: add_conversation_message(user_id, m)] *)
Definition add_all (user_id : string) (messages : list pydict) : M unit :=
  foldM (fun _ m => MemoryManager.add_conversation_message user_id m) tt
    messages.
End Sequences.

(** The five keyword categories of the intent heuristic, in the order in
    which the specification lists them. *)
Definition categories : list (list string * string) :=
  [(["crop"; "plant"; "grow"; "harvest"], "get_crop_advice");
   (["weather"; "rain"; "temperature"; "climate"], "get_weather");
   (["pest"; "disease"; "insect"; "treatment"], "pest_control");
   (["soil"; "ph"; "nutrient"; "fertilizer"], "soil_analysis");
   (["price"; "market"; "cost"; "sell"], "market_prices")].

(** The resolved intent as the specification words it: the explicit
    intent when it is not empty, else the intent of the first category
    one of whose keywords occurs in the lower-cased text, else
    [general_help]. *)
Definition resolved_intent (lower : string -> string) (intent text : string)
  : string :=
  if negb (String.eqb intent "") then intent
  else
    match
      find (fun category =>
              existsb (fun keyword => contains keyword (lower text))
                (fst category))
        categories
    with
    | Some category => snd category
    | None => "general_help"
    end.

(** An envelope annotated by the last three assignments of [route]. *)
Definition annotated (envelope : pydict) : Prop :=
  carries "execution_time" envelope /\ carries "session_id" envelope
  /\ carries "user_id" envelope.

(** An envelope [route] returns from one of its three early exits. *)
Definition early_failure (envelope : pydict) : Prop :=
  exists text,
    envelope = AgentRouter._create_error_response text
    /\ (text = "Invalid ACP message format"
        \/ String.prefix "No agent found for intent: " text = true
        \/ String.prefix "Routing error: " text = true).

(** The exceptions that are instances of [TypeError]. *)
Definition is_TypeError (e : exn) : Prop :=
  match e with
  | UnexpectedKeyword _ _ | MissingArguments _ _ | MultipleValues _ _
  | Unhashable _ | NotIterable _ | BadLeftOperand _ | NotAMapping _ => True
  | NoAttribute _ _ | KeyError _ | Raised _ => False
  end.

(** The fields of [AgentMetadata] a caller of [register] may set. *)
Definition optional_fields : list string :=
  ["description"; "capabilities"; "intents"; "version"; "is_active"; "config"].

(** Every key of the metadata passed to [register] is one of them. *)
Definition declared_only (metadata : option pydict) : bool :=
  match metadata with
  | Some d =>
      forallb (fun k => existsb (String.eqb k) optional_fields) (Dict.keys d)
  | None => true
  end.

(** The caller's session holds no [context], or a dict. *)
Definition context_is_mapping (w : World) (user_id : string) : Prop :=
  match Dict.get (MemoryManager.session_key user_id) (_memory w) with
  | Some session =>
      match Dict.get "context" session with
      | Some v => is_dict v = true
      | None => True
      end
  | None => True
  end.

Section Dispatching.
Context {rt : PyRuntime}.

(** The entry a tool chain records for its step [i] (counted from 1) on
    the agent [a], from what the handler did: its text under [result],
    or the text of the exception it raised under [error]. *)
Definition step_outcome (a : string) (i : Z) (outcome : result string)
  : pydict :=
  match outcome with
  | inr r => [("agent", PyStr a); ("step", PyInt i); ("result", PyStr r)]
  | inl e =>
      [("agent", PyStr a); ("step", PyInt i); ("error", PyStr (exn_str e))]
  end.

(** [route] hands the message to a dispatch that returns: the record
    constructs a valid message with a textual sender (construction is
    the second thing [route] does, after reading the clock), an intent
    is resolved, and at least one agent is selected.  A single handler's
    dispatch always returns; a chain's returns when the sender's stored
    context can be merged. *)
Definition dispatched (acp_message : pydict) (w : World) : Prop :=
  exists m w0 sender intent first rest,
    ACPMessage.from_dict acp_message (with_clock (S (clock w)) w) = (inr m, w0)
    /\ ACPMessage.is_valid m = true
    /\ from_id m = PyStr sender
    /\ AgentRouter._analyze_intent m = inr intent
    /\ fst (AgentRouter._select_agents intent
              (or_else (context m) (PyDict [])) w)
       = inr (first :: rest)
    /\ (rest <> [] ->
        context_is_mapping w
          (if startswith "user:" sender then drop 5 sender else sender)).

End Dispatching.

(** * Vocabulary of the further properties *)

(** A dict as Python keeps it: no key twice. *)
Definition unique_keys {V : Type} (d : dict V) : Prop := NoDup (Dict.keys d).

(** The session [get_session] returns for [user_id]. *)
Definition session_of (w : World) (user_id : string) : pydict :=
  match Dict.get (MemoryManager.session_key user_id) (_memory w) with
  | Some session => session
  | None => []
  end.

(** What the session of [user_id] holds under [context], when it is a
    dict or absent. *)
Definition context_is (w : World) (user_id : string) (d : pydict) : Prop :=
  Dict.get "context" (session_of w user_id) = Some (PyDict d)
  \/ (Dict.get "context" (session_of w user_id) = None /\ d = []).

(** The reasoning log of [user_id], oldest entry first, and the step an
    entry is labelled with. *)
Definition logs_of (w : World) (user_id : string) : list pyval :=
  match Dict.get user_id (_logs w) with
  | Some entries => entries
  | None => []
  end.

Definition step_label (entry : pyval) : option pyval :=
  match entry with
  | PyDict d => Dict.get "step" d
  | _ => None
  end.

(** A computation that only appends to the reasoning logs. *)
Definition appends {A : Type} (c : M A) : Prop :=
  forall w user_id,
    exists more, logs_of (snd (c w)) user_id = logs_of w user_id ++ more.

(** A computation that leaves the observation [f] of the world as it
    found it, however it ends. *)
Definition keeps {A X : Type} (f : World -> X) (c : M A) : Prop :=
  forall w, f (snd (c w)) = f w.

(** Some run of [c] returns [a]. *)
Definition returns {A : Type} (c : M A) (a : A) : Prop :=
  exists w w', c w = (inr a, w').

(** Everything of the world but the records of the [logging] module. *)
Definition state (w : World) :=
  (configuration w, _logs w, clock w).

(** The step of a chain description, as [add_tool_chain] receives it. *)
Definition chain_link (agent purpose : string) : dict string :=
  [("agent", agent); ("purpose", purpose)].

(** What a tool chain reports for the step [i] (counted from 0) run on
    the agent [a]: the agent, the step number counted from 1, and
    either a result or an error. *)
Definition step_entry_for (i : nat) (a : string) (entry : pydict) : Prop :=
  Dict.get "agent" entry = Some (PyStr a)
  /\ Dict.get "step" entry = Some (PyInt (Z.of_nat i + 1))
  /\ Dict.mem "result" entry = negb (Dict.mem "error" entry).

(** The part of an envelope every caller can rely on: [success] is a
    boolean, false exactly when the envelope carries [error], and there
    is a [response]. *)
Definition answers (envelope : pydict) : Prop :=
  Dict.get "success" envelope = Some (PyBool (negb (Dict.mem "error" envelope)))
  /\ carries "response" envelope.

(** Further states and inputs to run the model on. *)
Module Scenario.

(** A registry that holds one handler together with its metadata. *)
Definition weather_metadata : AgentMetadata :=
  mkAgentMetadata "weather" (PyStr "Forecasts") (PyList [PyStr "forecast"])
    (PyList [PyStr "get_weather"]) (PyStr "1.0.0") (PyBool true) (PyDict []).

Definition station : World :=
  with_metadata [("weather", weather_metadata)]
    (with_agents [("weather", Sample.answering "Sunny, 31 degrees")]
       AgentOrchestrator.initial).

(** [Sample.world] with a session stored for alice. *)
Definition returning : World :=
  with_memory
    [(MemoryManager.session_key "alice",
      [("context", PyDict [("region", PyStr "north")]);
       ("conversation_history", PyList [PyStr "earlier"])])]
    Sample.world.

(** [Sample.world] with its general assistant out of order. *)
Definition broken : World :=
  with_agents [("general_assistant", Sample.failing "assistant offline")]
    AgentOrchestrator.initial.

(** What [route] returns for the greeting, and the state it leaves. *)
Definition reply : pydict :=
  match fst (AgentRouter.route (rt := Sample.runtime) Sample.greeting
               Sample.world) with
  | inr response => response
  | inl _ => []
  end.

Definition replied : World :=
  snd (AgentRouter.route (rt := Sample.runtime) Sample.greeting Sample.world).

(** The greeting once constructed by [route], whose first clock read
    is its own [start_time]. *)
Definition greeting_routed : ACPMessage :=
  mkACPMessage (PyStr "user:alice") (PyStr "agent:router")
    (PyStr "general_help") (PyStr "Hello") (PyStr "en-US") (PyDict [])
    (PyStr "2024-01-01T00:00:00.1") (PyStr "session_1704067202").

(** A greeting in a language of one letter, which [is_valid] rejects,
    and the message and the state its construction gives. *)
Definition mumble : pydict := Sample.greeting ++ [("language", PyStr "x")].

Definition mumble_message : ACPMessage :=
  mkACPMessage (PyStr "user:alice") (PyStr "agent:router")
    (PyStr "general_help") (PyStr "Hello") (PyStr "x") (PyDict [])
    (PyStr "2024-01-01T00:00:00.0") (PyStr "session_1704067201").

End Scenario.

(** * Runs of the monad *)

Section Runs.
Context {A B : Type}.

Lemma bind_returns (c : M A) (k : A -> M B) w a w' :
  c w = (inr a, w') -> bind c k w = k a w'.
Proof. unfold bind. intros ->. reflexivity. Qed.

Lemma bind_raises (c : M A) (k : A -> M B) w e w' :
  c w = (inl e, w') -> bind c k w = (inl e, w').
Proof. unfold bind. intros ->. reflexivity. Qed.

Lemma try_returns (c : M A) (h : exn -> M A) w a w' :
  c w = (inr a, w') -> try c h w = (inr a, w').
Proof. unfold try. intros ->. reflexivity. Qed.

Lemma try_raises (c : M A) (h : exn -> M A) w e w' :
  c w = (inl e, w') -> try c h w = h e w'.
Proof. unfold try. intros ->. reflexivity. Qed.

Lemma yields_ret (P : A -> Prop) (a : A) : P a -> yields P (ret a).
Proof. intros H w a' w' E. inversion E. subst. exact H. Qed.

Lemma yields_raise (P : A -> Prop) (e : exn) : yields P (raise e).
Proof. intros w a' w' E. inversion E. Qed.

Lemma yields_bind (P : B -> Prop) (c : M A) (k : A -> M B) :
  (forall a, yields P (k a)) -> yields P (bind c k).
Proof.
  intros H w b w' E. unfold bind in E.
  destruct (c w) as [[e | a] w1]; [inversion E |].
  exact (H a w1 b w' E).
Qed.

Lemma frames_ret (a : A) : frames (ret a).
Proof. intros w. reflexivity. Qed.

Lemma frames_raise (e : exn) : frames (@raise A e).
Proof. intros w. reflexivity. Qed.

Lemma frames_lift (r : result A) : frames (lift r).
Proof. intros w. reflexivity. Qed.

Lemma frames_gets (f : World -> A) : frames (gets f).
Proof. intros w. reflexivity. Qed.

Lemma frames_bind (c : M A) (k : A -> M B) :
  frames c -> (forall a, frames (k a)) -> frames (bind c k).
Proof.
  intros Hc Hk w. unfold bind. specialize (Hc w).
  destruct (c w) as [[e | a] w1]; simpl in *; [exact Hc |].
  rewrite (Hk a w1). exact Hc.
Qed.

Lemma frames_try (c : M A) (h : exn -> M A) :
  frames c -> (forall e, frames (h e)) -> frames (try c h).
Proof.
  intros Hc Hh w. unfold try. specialize (Hc w).
  destruct (c w) as [[e | a] w1]; simpl in *; [| exact Hc].
  rewrite (Hh e w1). exact Hc.
Qed.

Lemma frames_foldM (f : B -> A -> M B) (l : list A) :
  (forall b a, frames (f b a)) -> forall b, frames (foldM f b l).
Proof.
  intros Hf. induction l as [| x r IH]; intros b; simpl.
  - intros w. reflexivity.
  - unfold frames, bind. intros w. specialize (Hf b x w).
    destruct (f b x w) as [[e | b'] w1]; simpl in *; [exact Hf |].
    rewrite (IH b' w1). exact Hf.
Qed.

End Runs.

Lemma total_try {A : Type} (c : M A) (h : exn -> M A) :
  (forall e, total (h e)) -> total (try c h).
Proof.
  intros Hh w. unfold try.
  destruct (c w) as [[e | a] w1]; [apply Hh | exists a, w1; reflexivity].
Qed.

Lemma yields_try {A : Type} (P : A -> Prop) (c : M A) (h : exn -> M A) :
  yields P c -> (forall e, yields P (h e)) -> yields P (try c h).
Proof.
  intros Hc Hh w a w' E. unfold try in E.
  destruct (c w) as [[e | a0] w1] eqn:Ec.
  - exact (Hh e w1 a w' E).
  - inversion E. subst. exact (Hc w a w' Ec).
Qed.

Lemma total_bind {A B : Type} (c : M A) (k : A -> M B) :
  total c -> (forall a, total (k a)) -> total (bind c k).
Proof.
  intros Hc Hk w. destruct (Hc w) as (a & w1 & E).
  rewrite (bind_returns _ _ _ _ _ E). apply Hk.
Qed.

Lemma frames_modify (f : World -> World) :
  (forall w, configuration (f w) = configuration w) -> frames (modify f).
Proof. intros H w. apply H. Qed.

(** * Facts about the data *)

Section DictFacts.
Context {V : Type}.

Lemma get_set_same (k : string) (v : V) (d : dict V) :
  Dict.get k (Dict.set k v d) = Some v.
Proof.
  induction d as [| [k' v'] r IH]; simpl.
  - rewrite String.eqb_refl. reflexivity.
  - destruct (String.eqb k k') eqn:E; simpl.
    + rewrite String.eqb_refl. reflexivity.
    + rewrite E. exact IH.
Qed.

Lemma get_set_other (k k' : string) (v : V) (d : dict V) :
  k <> k' -> Dict.get k (Dict.set k' v d) = Dict.get k d.
Proof.
  intros N. induction d as [| [k0 v0] r IH]; simpl.
  - destruct (String.eqb_spec k k'); [contradiction | reflexivity].
  - destruct (String.eqb_spec k' k0) as [-> | N0]; simpl.
    + destruct (String.eqb_spec k k0); [contradiction | reflexivity].
    + destruct (String.eqb_spec k k0); [reflexivity | exact IH].
Qed.

Lemma mem_set_same (k : string) (v : V) (d : dict V) :
  Dict.mem k (Dict.set k v d) = true.
Proof. unfold Dict.mem. rewrite get_set_same. reflexivity. Qed.

Lemma mem_set_other (k k' : string) (v : V) (d : dict V) :
  Dict.mem k d = true -> Dict.mem k (Dict.set k' v d) = true.
Proof.
  intros H. destruct (String.eqb_spec k k') as [-> | N].
  - apply mem_set_same.
  - unfold Dict.mem in *. rewrite get_set_other by exact N. exact H.
Qed.

Lemma mem_In_keys (k : string) (d : dict V) :
  Dict.mem k d = true -> In k (Dict.keys d).
Proof.
  unfold Dict.mem. induction d as [| [k' v] r IH]; simpl; [discriminate |].
  destruct (String.eqb_spec k k') as [-> | _]; [left; reflexivity |].
  intros H. right. exact (IH H).
Qed.

End DictFacts.

Lemma prefix_app (p s : string) : String.prefix p (p ++ s) = true.
Proof.
  induction p as [| c p IH]; simpl.
  - destruct s; reflexivity.
  - destruct (Ascii.ascii_dec c c); [exact IH | contradiction].
Qed.

Lemma existsb_eqb_In (k : string) (l : list string) :
  existsb (String.eqb k) l = true <-> In k l.
Proof.
  rewrite existsb_exists. split.
  - intros (x & Hx & E). apply String.eqb_eq in E. subst. exact Hx.
  - intros H. exists k. split; [exact H | apply String.eqb_refl].
Qed.

Section LastN.
Context {A : Type}.

Lemma last_n_all (n : nat) (l : list A) : List.length l <= n -> last_n n l = l.
Proof.
  intros H. unfold last_n. replace (List.length l - n) with 0 by lia.
  reflexivity.
Qed.

Lemma last_n_length (n : nat) (l : list A) : List.length (last_n n l) <= n.
Proof. unfold last_n. rewrite length_skipn. lia. Qed.

(** Truncating before an append changes nothing after the next
    truncation. *)
Lemma last_n_absorb (n : nat) (l r : list A) :
  last_n n (last_n n l ++ r) = last_n n (l ++ r).
Proof.
  destruct (Nat.le_gt_cases (List.length l) n) as [H | H].
  - rewrite (last_n_all n l H). reflexivity.
  - unfold last_n. rewrite !length_app, length_skipn.
    replace (List.length l - (List.length l - n) + List.length r - n)
      with (List.length r) by lia.
    replace (List.length l + List.length r - n)
      with (List.length r + (List.length l - n)) by lia.
    rewrite <- skipn_skipn. f_equal.
    rewrite skipn_app.
    replace (List.length l - n - List.length l) with 0 by lia.
    reflexivity.
Qed.

Lemma last_n_suffix (n : nat) (l r : list A) :
  n <= List.length r -> last_n n (l ++ r) = last_n n r.
Proof.
  intros H. unfold last_n. rewrite length_app, skipn_app.
  replace (List.length l + List.length r - n - List.length l)
    with (List.length r - n) by lia.
  rewrite skipn_all2 by lia. reflexivity.
Qed.

End LastN.

(** [asdict] rebuilds a value equal to the one it copies. *)
Lemma asdict_inner_id : forall v, asdict_inner v = v.
Proof.
  fix IH 1. intros [| b | z | f | s | l | d]; simpl; try reflexivity.
  - f_equal. induction l as [| x r IHl]; simpl; [reflexivity |].
    rewrite (IH x), IHl. reflexivity.
  - f_equal. induction d as [| [k x] r IHd]; simpl; [reflexivity |].
    rewrite (IH x), IHd. reflexivity.
Qed.

(** ** Keyword binding *)

Lemma check_keywords_rejects callee params bound (kw : pydict) :
  (exists k, In k (Dict.keys kw) /\ ~ In k params) ->
  exists e, check_keywords callee params bound kw = inl e /\ is_TypeError e.
Proof.
  induction kw as [| [k v] r IH]; intros (k0 & Hin & Hout); simpl in *.
  - contradiction.
  - destruct (existsb (String.eqb k) bound).
    + eexists. split; [reflexivity | exact I].
    + destruct (existsb (String.eqb k) params) eqn:E.
      * apply IH. exists k0. split; [| exact Hout].
        destruct Hin as [-> | Hin]; [| exact Hin].
        apply existsb_eqb_In in E. contradiction.
      * eexists. split; [reflexivity | exact I].
Qed.

Lemma check_keywords_accepts callee params (kw : pydict) :
  (forall k, In k (Dict.keys kw) -> In k params) ->
  ~ In "self" params ->
  check_keywords callee params ["self"] kw = inr tt.
Proof.
  intros H Hself. induction kw as [| [k v] r IH]; simpl in *; [reflexivity |].
  assert (Hk : In k params) by (apply H; left; reflexivity).
  destruct (String.eqb_spec k "self") as [-> | _]; [contradiction |]. simpl.
  apply existsb_eqb_In in Hk. rewrite Hk. apply IH. intros k' Hk'. apply H.
  right. exact Hk'.
Qed.

Lemma metadata_init_accepts (name : string) (kw : pydict) :
  (forall k, In k (Dict.keys kw) -> In k optional_fields) ->
  AgentMetadata.__init__ name kw
  = inr (AgentMetadata.__post_init__
           (mkAgentMetadata name
              (arg kw "description" (PyStr ""))
              (arg kw "capabilities" PyNone)
              (arg kw "intents" PyNone)
              (arg kw "version" (PyStr "1.0.0"))
              (arg kw "is_active" (PyBool true))
              (arg kw "config" PyNone))).
Proof.
  intros H. unfold AgentMetadata.__init__.
  destruct (Dict.mem "name" kw) eqn:E.
  - apply mem_In_keys, H in E. simpl in E.
    repeat (destruct E as [E | E]; [discriminate E |]). contradiction.
  - rewrite check_keywords_accepts; [reflexivity | |].
    + intros k Hk. apply H in Hk. simpl in *. tauto.
    + simpl. intros F.
      repeat (destruct F as [F | F]; [discriminate F |]). contradiction.
Qed.

(** * What a routing call leaves untouched *)

Create HintDb frames.

Ltac frame :=
  repeat first
    [ apply frames_ret | apply frames_raise | apply frames_lift
    | apply frames_gets
    | solve [auto with frames]
    | apply frames_bind; [| intros ?]
    | apply frames_try; [| intros ?]
    | apply frames_foldM; intros ? ?
    | apply frames_modify; intros ?; reflexivity
    | match goal with
      | |- frames (match ?x with _ => _ end) => destruct x
      | |- frames (if ?x then _ else _) => destruct x
      end ].

Section Frames.
Context {rt : PyRuntime}.

Lemma frames_tick : frames tick.
Proof. intros w. reflexivity. Qed.
#[local] Hint Resolve frames_tick : frames.

Lemma frames_now_time : frames now_time.
Proof. unfold now_time. frame. Qed.

Lemma frames_now_isoformat : frames now_isoformat.
Proof. unfold now_isoformat. frame. Qed.

Lemma frames_now_session : frames now_session.
Proof. unfold now_session. frame. Qed.

Lemma frames_logging lvl text : frames (logging lvl text).
Proof. unfold logging. frame. Qed.
#[local] Hint Resolve frames_now_time frames_now_isoformat frames_now_session
  frames_logging : frames.

Lemma frames_log user_id step details session_id :
  frames (ReasoningLogger.log user_id step details session_id).
Proof. unfold ReasoningLogger.log. frame. Qed.
#[local] Hint Resolve frames_log : frames.

Lemma frames_invoke agent_name message context :
  frames (AgentInvoker.invoke agent_name message context).
Proof. unfold AgentInvoker.invoke, AgentInvoker._invoke_local_agent. frame. Qed.
#[local] Hint Resolve frames_invoke : frames.

Lemma frames_from_dict data : frames (ACPMessage.from_dict data).
Proof.
  unfold ACPMessage.from_dict, ACPMessage.__init__, ACPMessage.__post_init__.
  frame.
Qed.
#[local] Hint Resolve frames_from_dict : frames.

Lemma frames_select_agents intent context :
  frames (AgentRouter._select_agents intent context).
Proof.
  unfold AgentRouter._select_agents, AgentRegistry.list_by_intent,
    AgentRegistry.is_registered.
  frame.
Qed.

Lemma frames_prepare_context user_id message_context :
  frames (AgentRouter._prepare_context user_id message_context).
Proof.
  unfold AgentRouter._prepare_context, MemoryManager.get_session. frame.
Qed.
#[local] Hint Resolve frames_select_agents frames_prepare_context : frames.

Lemma frames_invoke_single_agent agent_name m user_id session_id :
  frames (AgentRouter._invoke_single_agent agent_name m user_id session_id).
Proof.
  unfold AgentRouter._invoke_single_agent, AgentRegistry.get,
    ReasoningLogger.log_agent_invocation, ReasoningLogger.log_error.
  frame.
Qed.

Lemma frames_chain_step m user_id session_id st step :
  frames (AgentRouter.chain_step m user_id session_id st step).
Proof.
  unfold AgentRouter.chain_step, AgentRegistry.get, AgentRegistry.is_registered,
    ReasoningLogger.log_error.
  destruct step as [i agent_name]. frame.
Qed.
#[local] Hint Resolve frames_invoke_single_agent frames_chain_step : frames.

Lemma frames_execute_tool_chain agents m user_id session_id :
  frames (AgentRouter._execute_tool_chain agents m user_id session_id).
Proof. unfold AgentRouter._execute_tool_chain. frame. Qed.
#[local] Hint Resolve frames_execute_tool_chain : frames.

Lemma frames_route acp_message : frames (AgentRouter.route acp_message).
Proof.
  unfold AgentRouter.route, AgentRegistry.list_active,
    ReasoningLogger.log_intent_analysis, ReasoningLogger.log_agent_selection.
  frame.
Qed.

Lemma total_now_time : total now_time.
Proof. intros w. eexists _, _. reflexivity. Qed.

Lemma total_logging lvl text : total (logging lvl text).
Proof. intros w. eexists _, _. reflexivity. Qed.

(** [route] never lets an exception escape. *)
Lemma route_total acp_message : total (AgentRouter.route acp_message).
Proof.
  unfold AgentRouter.route.
  apply total_bind; [apply total_now_time | intros start_time].
  apply total_try. intros e.
  apply total_bind; [apply total_logging | intros _].
  intros w. eexists _, _. reflexivity.
Qed.

End Frames.

Lemma configuration_memory w w' :
  configuration w' = configuration w -> _memory w' = _memory w.
Proof. unfold configuration. intros E. inversion E. reflexivity. Qed.

Lemma configuration_agents w w' :
  configuration w' = configuration w -> _agents w' = _agents w.
Proof. unfold configuration. intros E. inversion E. reflexivity. Qed.

(** * Facts about the operations *)

Section Operations.
Context {rt : PyRuntime}.

(** The constructor returns, keeps the five fields it is given and
    fills the other three. *)
Lemma init_fields f t i txt l c ts s w :
  exists m w',
    ACPMessage.__init__ f t i txt l c ts s w = (inr m, w')
    /\ from_id m = f /\ to_id m = t /\ intent m = i /\ message m = txt
    /\ language m = l
    /\ context m = (if is_None c then PyDict [] else c)
    /\ is_None (context m) = false
    /\ is_None (timestamp m) = false
    /\ is_None (session_id m) = false.
Proof.
  unfold ACPMessage.__init__, ACPMessage.__post_init__. simpl.
  destruct (is_None c) eqn:Ec; simpl;
    destruct (is_None ts) eqn:Ets; simpl;
    destruct (is_None s) eqn:Es;
    cbv [bind ret now_isoformat now_session tick]; simpl; rewrite ?Es;
    eexists _, _; (split; [reflexivity |]); simpl; rewrite ?Ec; auto 10.
Qed.

Lemma from_dict_context data w m w' :
  ACPMessage.from_dict data w = (inr m, w') -> is_None (context m) = false.
Proof.
  unfold ACPMessage.from_dict, bind, lift.
  destruct (bind_keywords _ _ _ _ data); [discriminate |].
  match goal with
  | |- ACPMessage.__init__ ?f ?t ?i ?x ?l ?c ?ts ?s ?w0 = _ -> _ =>
      destruct (init_fields f t i x l c ts s w0)
        as (m0 & w0' & -> & _ & _ & _ & _ & _ & _ & Hc & _)
  end.
  intros E. inversion E. subst. exact Hc.
Qed.

Lemma is_valid_iff m :
  is_None (context m) = false ->
  ACPMessage.is_valid m = true <->
  (from_id m <> PyNone /\ to_id m <> PyNone /\ intent m <> PyNone
   /\ message m <> PyNone
   /\ (exists s, language m = PyStr s /\ 2 <= String.length s)
   /\ (exists d, context m = PyDict d)).
Proof.
  intros Hc. unfold ACPMessage.is_valid. simpl. rewrite Hc. simpl.
  assert (N : forall v, is_None v = false <-> v <> PyNone).
  { intros v. destruct v; simpl; split; congruence. }
  rewrite <- !N.
  destruct (is_None (from_id m)); simpl; [intuition discriminate |].
  destruct (is_None (to_id m)); simpl; [intuition discriminate |].
  destruct (is_None (intent m)); simpl; [intuition discriminate |].
  destruct (is_None (message m)); simpl; [intuition discriminate |].
  split.
  - intros H. repeat (split; [reflexivity |]).
    destruct (language m) as [| | | | s | |]; simpl in H; try discriminate.
    destruct (Nat.ltb_spec (String.length s) 2); simpl in H; [discriminate |].
    split; [eauto |].
    destruct (context m); simpl in H; try discriminate. eauto.
  - intros (_ & _ & _ & _ & (s & -> & Hs) & (d & ->)). simpl.
    destruct (Nat.ltb_spec (String.length s) 2); [lia | reflexivity].
Qed.

Lemma from_dict_to_dict m w :
  is_None (context m) = false -> is_None (timestamp m) = false ->
  is_None (session_id m) = false ->
  ACPMessage.from_dict (ACPMessage.to_dict m) w = (inr m, w).
Proof.
  intros Hc Ht Hs. destruct m as [f t i txt l c ts s]. simpl in *.
  unfold ACPMessage.from_dict, ACPMessage.to_dict. simpl.
  rewrite !asdict_inner_id.
  unfold ACPMessage.__init__, ACPMessage.__post_init__, arg, bind, lift.
  simpl. rewrite Hc. simpl. rewrite Ht. simpl. rewrite Hs. reflexivity.
Qed.

(** One append: the stored history becomes the last 100 entries of the
    old history followed by the stamped message. *)
Lemma add_conversation_message_spec user_id message w h :
  history_is w user_id h ->
  exists e w',
    MemoryManager.add_conversation_message user_id message w = (inr tt, w')
    /\ stamped message e
    /\ stored_history w' user_id = Some (PyList (last_n 100 (h ++ [PyDict e]))).
Proof.
  intros Hh. unfold MemoryManager.add_conversation_message.
  unfold MemoryManager.get_session, stored_history in *.
  erewrite bind_returns by reflexivity.
  set (session := match Dict.get (MemoryManager.session_key user_id) (_memory w) with
                  | Some s => s | None => [] end).
  set (session1 := if negb (Dict.mem "conversation_history" session)
                   then Dict.set "conversation_history" (PyList []) session
                   else session).
  assert (Hs : Dict.get "conversation_history" session1 = Some (PyList h)).
  { subst session1 session. unfold history_is, stored_history in Hh.
    destruct (Dict.get (MemoryManager.session_key user_id) (_memory w))
      as [s |]; unfold Dict.mem.
    - destruct Hh as [Hh | [Hh ->]]; rewrite Hh; simpl; [exact Hh |].
      apply get_set_same.
    - destruct Hh as [Hh | [Hh ->]]; [discriminate | reflexivity]. }
  cbv zeta. fold session1. rewrite Hs.
  assert (T : forall l : list pyval,
             (if Nat.ltb 100 (List.length l)
              then Dict.set "conversation_history" (PyList (last_n 100 l))
                     (Dict.set "conversation_history" (PyList l) session1)
              else Dict.set "conversation_history" (PyList l) session1)
             = Dict.set "conversation_history" (PyList (last_n 100 l))
                 (Dict.set "conversation_history" (PyList l) session1)
             \/ (List.length l <= 100 /\
                 (if Nat.ltb 100 (List.length l)
                  then Dict.set "conversation_history" (PyList (last_n 100 l))
                         (Dict.set "conversation_history" (PyList l) session1)
                  else Dict.set "conversation_history" (PyList l) session1)
                 = Dict.set "conversation_history" (PyList l) session1)).
  { intros l. destruct (Nat.ltb_spec 100 (List.length l)); [left | right].
    - reflexivity.
    - split; [lia | reflexivity]. }
  destruct (Dict.mem "timestamp" message) eqn:Ets; simpl negb; cbv iota.
  - exists message. erewrite bind_returns by reflexivity.
    cbv [bind ret now_isoformat tick MemoryManager.save_session modify].
    simpl. eexists. split; [reflexivity |].
    split; [left; auto |]. unfold with_memory. simpl.
    rewrite get_set_same, get_set_other by discriminate.
    destruct (T (h ++ [PyDict message])) as [-> | [L ->]].
    + apply get_set_same.
    + rewrite get_set_same, last_n_all by exact L. reflexivity.
  - cbv [bind ret now_isoformat tick MemoryManager.save_session modify].
    simpl. eexists _, _. split; [reflexivity |].
    split; [right; eauto |]. unfold with_memory. simpl.
    rewrite get_set_same, get_set_other by discriminate.
    match goal with
    | |- context [h ++ [PyDict ?e]] =>
        destruct (T (h ++ [PyDict e])) as [-> | [L ->]]
    end.
    + apply get_set_same.
    + rewrite get_set_same, last_n_all by exact L. reflexivity.
Qed.

Lemma add_all_spec user_id messages :
  forall w h,
    history_is w user_id h ->
    exists es w',
      add_all user_id messages w = (inr tt, w')
      /\ Forall2 stamped messages es
      /\ history_is w' user_id
           (match messages with
            | [] => h
            | _ => last_n 100 (h ++ map PyDict es)
            end).
Proof.
  induction messages as [| m r IH]; intros w h Hh.
  - exists [], w. repeat split; [constructor | exact Hh].
  - destruct (add_conversation_message_spec user_id m w h Hh)
      as (e & w1 & Hrun & Hst & Hhist).
    destruct (IH w1 (last_n 100 (h ++ [PyDict e]))) as (es & w2 & Hr & Hf & H2).
    { left. exact Hhist. }
    exists (e :: es), w2. split; [| split].
    + unfold add_all in *. simpl.
      erewrite bind_returns by exact Hrun. exact Hr.
    + constructor; assumption.
    + destruct r as [| m' r'].
      * inversion Hf. subst. exact H2.
      * rewrite last_n_absorb, <- app_assoc in H2. exact H2.
Qed.


End Operations.

(** * Reading computations *)

Lemma bind_runs {A B : Type} (c : M A) (k : A -> M B) w a w1 r :
  c w = (inr a, w1) -> k a w1 = r -> bind c k w = r.
Proof. intros H <-. apply bind_returns. exact H. Qed.

Lemma reads_ret {A : Type} (a : A) : reads (ret a).
Proof. intros w. split; reflexivity. Qed.

Lemma reads_raise {A : Type} (e : exn) : reads (@raise A e).
Proof. intros w. split; reflexivity. Qed.

Lemma reads_lift {A : Type} (r : result A) : reads (lift r).
Proof. intros w. split; reflexivity. Qed.

Lemma reads_gets {A : Type} (f : World -> A) :
  (forall w w', configuration w' = configuration w -> f w' = f w) ->
  reads (gets f).
Proof.
  intros H w. split; [reflexivity |]. intros w' E. unfold gets. simpl.
  rewrite (H w w' E). reflexivity.
Qed.

Lemma reads_bind {A B : Type} (c : M A) (k : A -> M B) :
  reads c -> (forall a, reads (k a)) -> reads (bind c k).
Proof.
  intros Hc Hk w. destruct (Hc w) as [S1 F1]. split.
  - unfold bind. destruct (c w) as [[e | a] w1]; simpl in *; [exact S1 |].
    subst w1. apply Hk.
  - intros w' E. specialize (F1 w' E). destruct (Hc w') as [S1' _].
    unfold bind.
    destruct (c w) as [[e | a] w1]; destruct (c w') as [[e' | a'] w1'];
      simpl in *; try congruence.
    inversion F1. subst. apply (Hk a w). exact E.
Qed.

Ltac reading :=
  repeat first
    [ apply reads_ret | apply reads_raise | apply reads_lift
    | apply reads_bind; [| intros ?]
    | apply reads_gets; intros ? ? ?E;
      unfold configuration in *; inversion E; congruence
    | match goal with
      | |- reads (match ?x with _ => _ end) => destruct x
      | |- reads (if ?x then _ else _) => destruct x
      end ].

Section Dispatch.
Context {rt : PyRuntime}.

Lemma reads_select_agents intent context :
  reads (AgentRouter._select_agents intent context).
Proof.
  unfold AgentRouter._select_agents, AgentRegistry.list_by_intent,
    AgentRegistry.is_registered.
  reading.
Qed.

Lemma select_agents_runs intent context w w' agents :
  fst (AgentRouter._select_agents intent context w) = inr agents ->
  configuration w' = configuration w ->
  AgentRouter._select_agents intent context w' = (inr agents, w').
Proof.
  intros H E. destruct (reads_select_agents intent context w) as [_ F].
  destruct (reads_select_agents intent context w') as [S' _].
  specialize (F w' E).
  destruct (AgentRouter._select_agents intent context w') as [r w1].
  simpl in *. rewrite H in F. subst. reflexivity.
Qed.

(** A computation that returns and leaves the configuration alone. *)
Lemma runs {A : Type} (c : M A) :
  total c -> frames c ->
  forall w, exists a w', c w = (inr a, w') /\ configuration w' = configuration w.
Proof.
  intros T F w. destruct (T w) as (a & w' & E). exists a, w'.
  split; [exact E |]. specialize (F w). rewrite E in F. exact F.
Qed.

Lemma total_log user_id step details session_id :
  total (ReasoningLogger.log user_id step details session_id).
Proof.
  intros w. unfold ReasoningLogger.log.
  destruct (truthy session_id); eexists _, _; reflexivity.
Qed.

Lemma log_runs user_id step details session_id w :
  exists w',
    ReasoningLogger.log user_id step details session_id w = (inr tt, w')
    /\ configuration w' = configuration w.
Proof.
  destruct (runs _ (total_log user_id step details session_id)
              (frames_log user_id step details session_id) w)
    as ([] & w' & H). exists w'. exact H.
Qed.

Lemma or_else_dict d : or_else (PyDict d) (PyDict []) = PyDict d.
Proof. destruct d; reflexivity. Qed.

Lemma prepare_context_runs user_id d w :
  context_is_mapping w user_id ->
  exists c w',
    AgentRouter._prepare_context user_id (PyDict d) w = (inr c, w')
    /\ configuration w' = configuration w.
Proof.
  unfold context_is_mapping, AgentRouter._prepare_context,
    MemoryManager.get_session.
  intros H. cbv [bind gets].
  destruct (Dict.get (MemoryManager.session_key user_id) (_memory w))
    as [session |]; unfold arg.
  - destruct (Dict.get "context" session) as [v |].
    + destruct v; try discriminate H. eexists _, _. split; reflexivity.
    + eexists _, _. split; reflexivity.
  - eexists _, _. split; reflexivity.
Qed.


(** A step whose handler answers appends a result entry. *)
Lemma chain_step_returns m user_id session_id st i a h r w :
  let st' := AgentRouter.link_previous_results st in
  Dict.get a (_agents w) = Some (mkAgent true (Some h)) ->
  h (message m) (AgentRouter.chain_context st') = inr r ->
  exists w',
    AgentRouter.chain_step m user_id session_id st (i, a) w
    = (inr (AgentRouter.mkChain
              (AgentRouter.chain_results st'
                 ++ [[("agent", PyStr a);
                      ("step", PyInt (Z.of_nat i + 1));
                      ("result", PyStr r)]])
              (AgentRouter.chain_context st') (AgentRouter.chain_linked st')),
       w')
    /\ configuration w' = configuration w.
Proof.
  intros st' Ha Hh. unfold AgentRouter.chain_step. fold st'.
  destruct (log_runs user_id "tool_chain_step"
              [("agent", PyStr a); ("step", PyInt (Z.of_nat i + 1));
               ("result", PyStr r)] session_id w) as (w' & Hlog & C).
  exists w'. split; [| exact C].
  apply try_returns.
  unfold AgentRegistry.is_registered, AgentRegistry.get.
  eapply bind_runs; [reflexivity |]. cbv beta.
  unfold Dict.mem. rewrite Ha.
  eapply bind_runs.
  { eapply bind_runs; [reflexivity |]. cbv beta. rewrite Ha.
    unfold lift. rewrite Hh. reflexivity. }
  cbv beta.
  eapply bind_runs; [exact Hlog |]. reflexivity.
Qed.

(** A step whose handler raises appends an error entry and goes on. *)
Lemma chain_step_raises m user_id session_id st i a h e w :
  let st' := AgentRouter.link_previous_results st in
  Dict.get a (_agents w) = Some (mkAgent true (Some h)) ->
  h (message m) (AgentRouter.chain_context st') = inl e ->
  exists w',
    AgentRouter.chain_step m user_id session_id st (i, a) w
    = (inr (AgentRouter.mkChain
              (AgentRouter.chain_results st'
                 ++ [[("agent", PyStr a);
                      ("step", PyInt (Z.of_nat i + 1));
                      ("error", PyStr (exn_str e))]])
              (AgentRouter.chain_context st') (AgentRouter.chain_linked st')),
       w')
    /\ configuration w' = configuration w.
Proof.
  intros st' Ha Hh. unfold AgentRouter.chain_step. fold st'.
  unfold ReasoningLogger.log_error.
  destruct (log_runs user_id "error"
              [("error_type", PyStr "tool_chain_error");
               ("error_message", PyStr (exn_str e));
               ("stack_trace", PyNone);
               ("context",
                PyDict [("agent", PyStr a); ("step", PyInt (Z.of_nat i + 1))])]
              session_id w) as (w' & Hlog & C).
  exists w'. split; [| exact C].
  erewrite try_raises.
  2:{ unfold AgentRegistry.is_registered, AgentRegistry.get.
      eapply bind_runs; [reflexivity |]. cbv beta.
      unfold Dict.mem. rewrite Ha.
      eapply bind_raises.
      eapply bind_runs; [reflexivity |]. cbv beta. rewrite Ha.
      unfold lift. rewrite Hh. reflexivity. }
  eapply bind_runs; [exact Hlog |]. reflexivity.
Qed.

(** Whatever the handler does with the context it is given, the step
    appends the entry of that outcome. *)
Lemma chain_step_outcome m user_id session_id st i a h w :
  let st' := AgentRouter.link_previous_results st in
  Dict.get a (_agents w) = Some (mkAgent true (Some h)) ->
  exists w',
    AgentRouter.chain_step m user_id session_id st (i, a) w
    = (inr (AgentRouter.mkChain
              (AgentRouter.chain_results st'
                 ++ [step_outcome a (Z.of_nat i + 1)
                       (h (message m) (AgentRouter.chain_context st'))])
              (AgentRouter.chain_context st') (AgentRouter.chain_linked st')),
       w')
    /\ configuration w' = configuration w.
Proof.
  intros st' Ha.
  destruct (h (message m) (AgentRouter.chain_context st')) as [e | r] eqn:Hh.
  - exact (chain_step_raises m user_id session_id st i a h e w Ha Hh).
  - exact (chain_step_returns m user_id session_id st i a h r w Ha Hh).
Qed.

(** A direct mapping entry ends the selection, whatever it leaves. *)
Lemma direct_mapping_ends_selection intent agents ctx w :
  truthy (arg ctx "tool_chain" PyNone) = false ->
  Dict.get intent (_intent_mapping w) = Some agents ->
  AgentRouter._select_agents (PyStr intent) (PyDict ctx) w
  = (inr (filter (fun agent => Dict.mem agent (_agents w)) agents), w).
Proof.
  intros Hchain Hmap. unfold AgentRouter._select_agents. rewrite Hchain.
  cbv [bind gets lift lookup ret]. rewrite Hmap. reflexivity.
Qed.

End Dispatch.

(** * The properties of the specification *)

Section Properties.
Context {rt : PyRuntime}.

(** C2, as the code has it.  For every record that constructs a valid
    message with a textual [from_id], and whose caller's stored history
    is a list or absent, it is [AgentOrchestrator.handle_message], not
    [route], that persists the exchange: [route] returns its envelope
    with the session store exactly as it found it, and [handle_message]
    then appends the record of the message, that envelope and a
    timestamp to the caller's history, cut to its last 100 entries, and
    hands the same envelope back. *)
Theorem handle_message_persists_exchange (acp_message : pydict) (w w0 : World)
  (m : ACPMessage) (sender : string) (h : list pyval) :
  ACPMessage.from_dict acp_message w = (inr m, w0) ->
  ACPMessage.is_valid m = true ->
  from_id m = PyStr sender ->
  let user_id := if startswith "user:" sender then drop 5 sender else sender in
  history_is w user_id h ->
  exists response w1 t w2,
    AgentRouter.route acp_message w0 = (inr response, w1)
    /\ _memory w1 = _memory w
    /\ AgentOrchestrator.handle_message acp_message w = (inr response, w2)
    /\ stored_history w2 user_id
       = Some (PyList
                 (last_n 100
                    (h ++ [PyDict [("message", PyDict (ACPMessage.to_dict m));
                                   ("response", PyDict response);
                                   ("timestamp", PyStr t)]]))).
Proof.
  intros Hparse Hvalid Hfrom user_id Hh.
  destruct (route_total acp_message w0) as (response & w1 & Hroute).
  assert (C0 : configuration w0 = configuration w).
  { pose proof (frames_from_dict acp_message w) as F.
    rewrite Hparse in F. exact F. }
  assert (C1 : configuration w1 = configuration w).
  { pose proof (frames_route acp_message w0) as F.
    rewrite Hroute in F. simpl in F. congruence. }
  assert (Hh1 : history_is w1 user_id h).
  { unfold history_is, stored_history in *.
    rewrite (configuration_memory _ _ C1). exact Hh. }
  destruct (add_conversation_message_spec user_id
              [("message", PyDict (ACPMessage.to_dict m));
               ("response", PyDict response)] w1 h Hh1)
    as (e & w2 & Hadd & Hst & Hhist).
  destruct Hst as [[F _] | [_ [t ->]]]; [discriminate F |].
  exists response, w1, t, w2.
  split; [exact Hroute |]. split; [exact (configuration_memory _ _ C1) |].
  split; [| exact Hhist].
  unfold AgentOrchestrator.handle_message.
  apply try_returns.
  eapply bind_runs; [exact Hparse |]. cbv beta.
  rewrite Hvalid. simpl negb. cbv iota.
  eapply bind_runs; [exact Hroute |]. cbv beta.
  rewrite Hfrom. unfold AgentOrchestrator._extract_user_id.
  eapply bind_runs; [reflexivity |]. cbv beta.
  eapply bind_runs; [exact Hadd |]. reflexivity.
Qed.

(** C3.  When [route] selects three registered handlers, it runs all
    three, whatever each of them does with the context it is given, and
    returns an envelope with [success] and [tool_chain] both [True]
    whose [step_results] holds, in order, the entry of each handler's
    outcome: its result, or the error marker when it raised.  The first
    handler gets the context [_prepare_context] returns, the second the
    same context with the first entry under [previous_results], the
    third with the first two.  So when the second handler raises on the
    context it is given and the other two answer, the third is still
    invoked, with the first result and the second step's error marker
    under [previous_results], and [step_results] holds the first
    result, the error marker and the third result. *)
Theorem chain_survives_failing_step
  (acp_message : pydict) (w w0 : World) (m : ACPMessage) (sender : string)
  (intent : pyval) (a1 a2 a3 : string)
  (h1 h2 h3 : pyval -> pydict -> result string) :
  ACPMessage.from_dict acp_message (with_clock (S (clock w)) w) = (inr m, w0) ->
  ACPMessage.is_valid m = true ->
  from_id m = PyStr sender ->
  AgentRouter._analyze_intent m = inr intent ->
  fst (AgentRouter._select_agents intent (or_else (context m) (PyDict [])) w)
  = inr [a1; a2; a3] ->
  let user_id := if startswith "user:" sender then drop 5 sender else sender in
  context_is_mapping w user_id ->
  Dict.get a1 (_agents w) = Some (mkAgent true (Some h1)) ->
  Dict.get a2 (_agents w) = Some (mkAgent true (Some h2)) ->
  Dict.get a3 (_agents w) = Some (mkAgent true (Some h3)) ->
  exists response w' c1 wp wp',
    AgentRouter.route acp_message w = (inr response, w')
    /\ Dict.get "success" response = Some (PyBool true)
    /\ Dict.get "tool_chain" response = Some (PyBool true)
    /\ configuration wp = configuration w
    /\ AgentRouter._prepare_context user_id (context m) wp = (inr c1, wp')
    /\ let e1 := step_outcome a1 1 (h1 (message m) c1) in
       let c2 := Dict.set "previous_results" (PyList [PyDict e1]) c1 in
       let e2 := step_outcome a2 2 (h2 (message m) c2) in
       let c3 :=
         Dict.set "previous_results" (PyList [PyDict e1; PyDict e2]) c2 in
       let e3 := step_outcome a3 3 (h3 (message m) c3) in
       Dict.get "step_results" response
       = Some (PyList [PyDict e1; PyDict e2; PyDict e3]).
Proof.
  intros Hparse Hvalid Hfrom Hintent Hsel user_id Hctx Ha1 Ha2 Ha3.
  set (sid := or_else (session_id m) (PyStr "default")).
  assert (C0 : configuration w0 = configuration w).
  { pose proof (frames_from_dict acp_message (with_clock (S (clock w)) w)) as F.
    rewrite Hparse in F. exact F. }
  destruct (proj1 (is_valid_iff m (from_dict_context _ _ _ _ Hparse)) Hvalid)
    as (_ & _ & _ & _ & _ & (d & Hd)).
  (* the three log entries written before the dispatch *)
  destruct (log_runs user_id "message_received"
              [("message", PyDict (ACPMessage.to_dict m))] (session_id m) w0)
    as (wa & La & Ca).
  destruct (log_runs user_id "intent_analysis"
              [("message", message m); ("detected_intent", intent);
               ("confidence", PyFloat AgentRouter.confidence);
               ("alternatives", PyList [])] (session_id m) wa)
    as (wb & Lb & Cb).
  assert (Hselb :
            AgentRouter._select_agents intent
              (or_else (context m) (PyDict [])) wb
            = (inr [a1; a2; a3], wb)).
  { apply (select_agents_runs _ _ w); [exact Hsel | congruence]. }
  destruct (log_runs user_id "agent_selection"
              [("intent", intent); ("selected_agent", PyStr a1);
               ("available_agents",
                PyList
                  (map PyStr
                     (map fst
                        (filter (fun nm => truthy (is_active (snd nm)))
                           (_metadata wb)))));
               ("selection_reason", PyStr "Intent-based routing")] sid wb)
    as (wc & Lc & Cc).
  (* the three steps of the chain *)
  destruct (prepare_context_runs user_id d wc) as (c0 & wd & Pd & Cd).
  { unfold context_is_mapping in *.
    rewrite (configuration_memory w wc) by congruence. exact Hctx. }
  set (st0 := AgentRouter.mkChain [] c0 false).
  destruct (chain_step_outcome m user_id sid st0 0 a1 h1 wd)
    as (we & S1 & Ce);
    [rewrite (configuration_agents w wd) by congruence; exact Ha1 |].
  match type of S1 with _ = (inr ?st, _) => set (st1 := st) in * end.
  destruct (chain_step_outcome m user_id sid st1 1 a2 h2 we)
    as (wf & S2 & Cf);
    [rewrite (configuration_agents w we) by congruence; exact Ha2 |].
  match type of S2 with _ = (inr ?st, _) => set (st2 := st) in * end.
  destruct (chain_step_outcome m user_id sid st2 2 a3 h3 wf)
    as (wg & S3 & Cg);
    [rewrite (configuration_agents w wf) by congruence; exact Ha3 |].
  match type of S3 with _ = (inr ?st, _) => set (st3 := st) in * end.
  destruct (total_now_time wg) as (t & wh & Th).
  evar (final : pydict).
  destruct (log_runs user_id "response_sent"
              [("response", PyDict final);
               ("execution_time",
                PyFloat (PrimFloat.sub t (time_time (clock w))))]
              (session_id m) wh) as (wi & Li & Ci).
  exists final, wi, c0, wc, wd.
  split; [| split; [| split; [| split; [congruence | split]]]].
  - unfold AgentRouter.route.
    eapply bind_runs; [reflexivity |]. cbv beta.
    apply try_returns.
    eapply bind_runs; [exact Hparse |]. cbv beta.
    rewrite Hvalid. simpl negb. cbv iota.
    rewrite Hfrom. unfold AgentRouter._extract_user_id. fold user_id.
    eapply bind_runs; [reflexivity |]. cbv beta.
    eapply bind_runs; [exact La |]. cbv beta.
    rewrite Hintent.
    eapply bind_runs; [reflexivity |]. cbv beta.
    eapply bind_runs; [exact Lb |]. cbv beta.
    eapply bind_runs; [exact Hselb |]. cbv beta iota.
    unfold AgentRegistry.list_active.
    eapply bind_runs; [reflexivity |]. cbv beta.
    fold sid.
    eapply bind_runs; [exact Lc |]. cbv beta.
    eapply bind_runs.
    { simpl Nat.ltb. cbv iota.
      unfold AgentRouter._execute_tool_chain.
      rewrite Hd, or_else_dict.
      eapply bind_runs; [exact Pd |]. cbv beta.
      eapply bind_runs.
      { unfold enumerate. simpl combine. simpl foldM. fold st0.
        eapply bind_runs; [exact S1 |]. cbv beta.
        eapply bind_runs; [exact S2 |]. cbv beta.
        eapply bind_runs; [exact S3 |]. reflexivity. }
      reflexivity. }
    cbv beta.
    eapply bind_runs; [exact Th |]. cbv beta.
    eapply bind_runs; [subst final; exact Li |]. reflexivity.
  - subst final. reflexivity.
  - subst final. reflexivity.
  - rewrite Hd. exact Pd.
  - subst final. reflexivity.
Qed.

(** C4.  For every message whose [intent] and [message] are strings,
    [_analyze_intent] returns the intent the specification describes:
    the explicit intent when it is not empty, else the intent of the
    first category (crop, weather, pest, soil, price) one of whose
    keywords occurs in the lower-cased text, else [general_help]. *)
Theorem analyze_intent_follows_spec f t i txt l c ts s :
  AgentRouter._analyze_intent (mkACPMessage f t (PyStr i) (PyStr txt) l c ts s)
  = inr (PyStr (resolved_intent str_lower i txt)).
Proof.
  unfold AgentRouter._analyze_intent, resolved_intent. simpl.
  destruct (negb (String.eqb i "")); [reflexivity |].
  unfold AgentRouter.any_word_in, categories.
  generalize (str_lower txt). intros x.
  cbn [find fst snd existsb].
  repeat match goal with
         | |- context [if ?b then _ else _] => destruct b
         end; reflexivity.
Qed.

(** C5.  The constructor always returns a message, and for the message
    it returns [is_valid] is true exactly when [from_id], [to_id],
    [intent] and [message] are not [None] (an empty [intent] is not
    [None]), [language] is a string of at least two characters and
    [context] is a dict.  [is_valid] is a function of the message and
    yields a boolean only. *)
Theorem is_valid_characterised f t i txt l c ts s w :
  match ACPMessage.__init__ f t i txt l c ts s w with
  | (inr m, _) =>
      ACPMessage.is_valid m = true <->
      (from_id m <> PyNone /\ to_id m <> PyNone /\ intent m <> PyNone
       /\ message m <> PyNone
       /\ (exists s, language m = PyStr s /\ 2 <= String.length s)
       /\ (exists d, context m = PyDict d))
  | (inl _, _) => False
  end.
Proof.
  destruct (init_fields f t i txt l c ts s w)
    as (m & w' & -> & _ & _ & _ & _ & _ & _ & Hc & _).
  apply is_valid_iff. exact Hc.
Qed.

(** C7, as the code has it.  When every key of the metadata is one of
    [description], [capabilities], [intents], [version], [is_active],
    [config] (or no metadata is given), [register] returns normally,
    leaves [name] mapped to the given agent and to the metadata built
    from the mapping, whatever was registered under [name] before, and
    sends [logging] a warning if [name] was registered, then an info
    record, and nothing else. *)
Theorem register_upserts_declared_metadata
  (name : string) (agent : Agent) (metadata : option pydict) (w : World) :
  declared_only metadata = true ->
  exists w' info,
    AgentRegistry.register name agent metadata w = (inr tt, w')
    /\ Dict.get name (_agents w') = Some agent
    /\ (let kw := match metadata with Some d => d | None => [] end in
        Dict.get name (_metadata w')
        = Some (AgentMetadata.__post_init__
                  (mkAgentMetadata name
                     (arg kw "description" (PyStr ""))
                     (arg kw "capabilities" PyNone)
                     (arg kw "intents" PyNone)
                     (arg kw "version" (PyStr "1.0.0"))
                     (arg kw "is_active" (PyBool true))
                     (arg kw "config" PyNone))))
    /\ log_records w'
       = log_records w
           ++ (if Dict.mem name (_agents w)
               then [(WARNING,
                      ("Agent '" ++ name
                         ++ "' already registered. Overwriting.")%string)]
               else [])
           ++ [(INFO, info)].
Proof.
  intros H.
  set (kw := match metadata with Some d => d | None => [] end).
  assert (Hkw : forall k, In k (Dict.keys kw) -> In k optional_fields).
  { subst kw. destruct metadata as [d |]; [| simpl; contradiction].
    unfold declared_only in H. rewrite forallb_forall in H.
    intros k Hk. apply existsb_eqb_In, H. exact Hk. }
  unfold AgentRegistry.register. fold kw.
  rewrite (metadata_init_accepts name kw Hkw).
  cbv [bind gets modify lift logging ret].
  destruct (Dict.mem name (_agents w)); simpl;
    eexists _, _; (split; [reflexivity |]); simpl;
    rewrite !get_set_same; repeat split;
    rewrite <- ?app_assoc; reflexivity.
Qed.

(** C8.  When the caller's stored history is a list [h] (or absent,
    [h] empty), one [add_conversation_message] returns and leaves the
    last 100 entries of [h] followed by the stamped message, at most 100
    of them; and 105 appends in a row leave exactly the last 100 of the
    105 stamped messages, in the order of their arrival. *)
Theorem history_keeps_last_100 (user_id : string) (w : World) (h : list pyval) :
  history_is w user_id h ->
  (forall message,
     exists e w',
       MemoryManager.add_conversation_message user_id message w = (inr tt, w')
       /\ stamped message e
       /\ stored_history w' user_id
          = Some (PyList (last_n 100 (h ++ [PyDict e])))
       /\ List.length (last_n 100 (h ++ [PyDict e])) <= 100)
  /\ (forall messages,
        List.length messages = 105 ->
        exists es w',
          add_all user_id messages w = (inr tt, w')
          /\ Forall2 stamped messages es
          /\ stored_history w' user_id
             = Some (PyList (map PyDict (skipn 5 es)))
          /\ List.length (skipn 5 es) = 100).
Proof.
  intros Hh. split.
  - intros message.
    destruct (add_conversation_message_spec user_id message w h Hh)
      as (e & w' & H1 & H2 & H3).
    exists e, w'. repeat split; try assumption. apply last_n_length.
  - intros messages L.
    destruct (add_all_spec user_id messages w h Hh) as (es & w' & H1 & H2 & H3).
    exists es, w'. split; [exact H1 |]. split; [exact H2 |].
    assert (Les : List.length es = 105).
    { rewrite <- L. symmetry. eapply Forall2_length. exact H2. }
    destruct messages as [| m r]; [discriminate L |].
    assert (Lm : List.length (map PyDict es) = 105)
      by (rewrite length_map; exact Les).
    rewrite last_n_suffix in H3 by lia.
    unfold last_n in H3. rewrite Lm in H3. simpl Nat.sub in H3.
    rewrite <- skipn_map.
    split; [| rewrite length_skipn; lia].
    destruct H3 as [H3 | [_ H3]]; [exact H3 |].
    apply (f_equal (@List.length pyval)) in H3.
    rewrite length_skipn, Lm in H3. simpl in H3. lia.
Qed.

(** C9.  For every message the constructor returns, whatever fields it
    was given and whichever of [context], [timestamp], [session_id] it
    filled in, [from_dict (to_dict m)] returns [m] again, at any later
    time and without reading the clock. *)
Theorem from_dict_inverts_to_dict f t i txt l c ts s w w2 :
  match ACPMessage.__init__ f t i txt l c ts s w with
  | (inr m, _) =>
      ACPMessage.from_dict (ACPMessage.to_dict m) w2 = (inr m, w2)
  | (inl _, _) => False
  end.
Proof.
  destruct (init_fields f t i txt l c ts s w)
    as (m & w' & -> & _ & _ & _ & _ & _ & _ & Hc & Ht & Hs).
  apply from_dict_to_dict; assumption.
Qed.

(** C10.  When the record passed to [route] has a key that is not one
    of the eight fields, the construction of the message raises a
    [TypeError] (so [is_valid] is never called), and [route] returns a
    failure envelope whose [success] is [False] and whose [error] is
    ["Routing error: "] followed by the text of the exception, not the
    invalid-message text. *)
Theorem unknown_key_is_routing_error (acp_message : pydict) (w : World) :
  (exists k, In k (Dict.keys acp_message) /\ ~ In k ACPMessage.fields) ->
  exists e w1 response w',
    ACPMessage.from_dict acp_message w1 = (inl e, w1)
    /\ is_TypeError e
    /\ AgentRouter.route acp_message w = (inr response, w')
    /\ Dict.get "success" response = Some (PyBool false)
    /\ Dict.get "error" response
       = Some (PyStr ("Routing error: " ++ exn_str e)%string)
    /\ ("Routing error: " ++ exn_str e)%string <> "Invalid ACP message format".
Proof.
  intros H.
  destruct (check_keywords_rejects "ACPMessage.__init__" ACPMessage.fields
              ["self"] acp_message H) as (e & He & Te).
  assert (F : forall w1, ACPMessage.from_dict acp_message w1 = (inl e, w1)).
  { intros w1. unfold ACPMessage.from_dict, bind_keywords, bind, lift.
    rewrite He. reflexivity. }
  exists e, (with_clock (S (clock w)) w).
  eexists _, _. split; [apply F |]. split; [exact Te |]. split.
  - unfold AgentRouter.route.
    erewrite bind_returns by reflexivity.
    erewrite try_raises.
    2:{ erewrite bind_raises by apply F. reflexivity. }
    reflexivity.
  - simpl. repeat split. intros E. discriminate E.
Qed.

End Properties.

(** * The properties on the sample runtime *)

(** C1, on the code.  With only [general_assistant] registered and the
    default tables, in which [get_weather] is mapped to the unregistered
    [weather], a message with the explicit intent [get_weather] is not
    handed to the general assistant: [route] returns the failure
    envelope for an intent without agent, the same envelope it returns
    when nothing at all is registered. *)
Theorem unregistered_mapping_hides_general_assistant :
  Dict.mem "general_assistant" (_agents Sample.world) = true
  /\ Dict.get "get_weather" (_intent_mapping Sample.world) = Some ["weather"]
  /\ Dict.mem "weather" (_agents Sample.world) = false
  /\ fst (AgentRouter.route (rt := Sample.runtime)
            (Sample.request "user:alice" "get_weather" "Will it rain?")
            Sample.world)
     = inr (AgentRouter._create_error_response
              "No agent found for intent: get_weather")
  /\ fst (AgentRouter.route (rt := Sample.runtime)
            (Sample.request "user:alice" "get_weather" "Will it rain?")
            AgentOrchestrator.initial)
     = inr (AgentRouter._create_error_response
              "No agent found for intent: get_weather").
Proof. repeat split; vm_compute; reflexivity. Qed.

(** C2 fails for [route]: a valid greeting is dispatched to the general
    assistant and answered, and the session store is still empty when
    [route] returns. *)
Lemma route_alone_persists_nothing :
  exists response w',
    AgentRouter.route (rt := Sample.runtime) Sample.greeting Sample.world
    = (inr response, w')
    /\ Dict.get "success" response = Some (PyBool true)
    /\ Dict.get "response" response = Some (PyStr "How can I help?")
    /\ stored_history w' "alice" = None
    /\ _memory w' = [].
Proof.
  eexists _, _. split; [vm_compute; reflexivity |]. repeat split.
Qed.

Lemma handle_message_persists_exchange_witness :
  exists response w1 t w2,
    AgentRouter.route (rt := Sample.runtime) Sample.greeting
      (with_clock 2 Sample.world) = (inr response, w1)
    /\ _memory w1 = _memory Sample.world
    /\ AgentOrchestrator.handle_message (rt := Sample.runtime) Sample.greeting
         Sample.world = (inr response, w2)
    /\ stored_history w2 "alice"
       = Some (PyList
                 (last_n 100
                    ([] ++ [PyDict
                              [("message",
                                PyDict (ACPMessage.to_dict Sample.greeting_message));
                               ("response", PyDict response);
                               ("timestamp", PyStr t)]]))).
Proof.
  refine (handle_message_persists_exchange (rt := Sample.runtime)
            Sample.greeting Sample.world (with_clock 2 Sample.world)
            Sample.greeting_message "user:alice" [] _ _ _ _).
  - reflexivity.
  - reflexivity.
  - reflexivity.
  - right. split; reflexivity.
Defined.

Lemma chain_survives_failing_step_witness :
  exists response w' c1 wp wp',
    AgentRouter.route (rt := Sample.runtime) Sample.advice Sample.farm
    = (inr response, w')
    /\ Dict.get "success" response = Some (PyBool true)
    /\ Dict.get "tool_chain" response = Some (PyBool true)
    /\ configuration wp = configuration Sample.farm
    /\ AgentRouter._prepare_context (rt := Sample.runtime) "alice"
         (context Sample.advice_message) wp = (inr c1, wp')
    /\ Dict.get "step_results" response
       = Some (PyList
                 [PyDict [("agent", PyStr "weather"); ("step", PyInt 1);
                          ("result", PyStr "Sunny, 31 degrees")];
                  PyDict [("agent", PyStr "crop_advisor"); ("step", PyInt 2);
                          ("error", PyStr "crop model offline")];
                  PyDict [("agent", PyStr "pest_assistant"); ("step", PyInt 3);
                          ("result", PyStr "No pest alert")]]).
Proof.
  refine (chain_survives_failing_step (rt := Sample.runtime)
            Sample.advice Sample.farm (with_clock 3 Sample.farm)
            Sample.advice_message "user:alice" (PyStr "general_help")
            "weather" "crop_advisor" "pest_assistant"
            (Sample.answer "Sunny, 31 degrees")
            (Sample.fail "crop model offline")
            (Sample.answer "No pest alert")
            _ _ _ _ _ _ _ _ _).
  - reflexivity.
  - reflexivity.
  - reflexivity.
  - reflexivity.
  - reflexivity.
  - exact I.
  - reflexivity.
  - reflexivity.
  - reflexivity.
Defined.

(** C6 fails for the early exits: the envelope [route] returns for a
    message whose [language] has a single character has the four keys
    of [_create_error_response] and none of [execution_time],
    [session_id], [user_id]. *)
Lemma invalid_message_envelope_is_bare :
  exists response w',
    AgentRouter.route (rt := Sample.runtime)
      (Sample.greeting ++ [("language", PyStr "x")]) Sample.world
    = (inr response, w')
    /\ response = AgentRouter._create_error_response "Invalid ACP message format"
    /\ Dict.mem "execution_time" response = false
    /\ Dict.mem "session_id" response = false
    /\ Dict.mem "user_id" response = false.
Proof.
  eexists _, _. split; [vm_compute; reflexivity |]. repeat split.
Qed.

(** C7 fails for a metadata mapping with a key that [AgentMetadata]
    does not declare: [register] raises [TypeError], after it has
    stored the agent. *)
Lemma register_rejects_undeclared_key :
  exists w',
    AgentRegistry.register (rt := Sample.runtime) "weather"
      (Sample.answering "Sunny, 31 degrees") (Some [("priority", PyInt 1)])
      AgentOrchestrator.initial
    = (inl (UnexpectedKeyword "AgentMetadata.__init__" "priority"), w')
    /\ Dict.mem "weather" (_agents w') = true
    /\ Dict.mem "weather" (_metadata w') = false.
Proof.
  eexists. split; [vm_compute; reflexivity |]. split; reflexivity.
Qed.

Lemma register_upserts_declared_metadata_witness :
  exists w' info,
    AgentRegistry.register (rt := Sample.runtime) "weather"
      (Sample.answering "Sunny, 31 degrees")
      (Some [("intents", PyList [PyStr "get_weather"])]) Sample.farm
    = (inr tt, w')
    /\ Dict.get "weather" (_agents w')
       = Some (Sample.answering "Sunny, 31 degrees")
    /\ (let kw := [("intents", PyList [PyStr "get_weather"])] in
        Dict.get "weather" (_metadata w')
        = Some (AgentMetadata.__post_init__
                  (mkAgentMetadata "weather"
                     (arg kw "description" (PyStr ""))
                     (arg kw "capabilities" PyNone)
                     (arg kw "intents" PyNone)
                     (arg kw "version" (PyStr "1.0.0"))
                     (arg kw "is_active" (PyBool true))
                     (arg kw "config" PyNone))))
    /\ log_records w'
       = log_records Sample.farm
           ++ (if Dict.mem "weather" (_agents Sample.farm)
               then [(WARNING,
                      ("Agent '" ++ "weather"
                         ++ "' already registered. Overwriting.")%string)]
               else [])
           ++ [(INFO, info)].
Proof.
  refine (register_upserts_declared_metadata (rt := Sample.runtime) "weather"
            (Sample.answering "Sunny, 31 degrees")
            (Some [("intents", PyList [PyStr "get_weather"])]) Sample.farm _).
  reflexivity.
Defined.

Lemma history_keeps_last_100_witness :
  (forall message,
     exists e w',
       MemoryManager.add_conversation_message (rt := Sample.runtime) "alice"
         message Sample.world = (inr tt, w')
       /\ stamped message e
       /\ stored_history w' "alice"
          = Some (PyList (last_n 100 ([] ++ [PyDict e])))
       /\ List.length (last_n 100 ([] ++ [PyDict e])) <= 100)
  /\ (forall messages,
        List.length messages = 105 ->
        exists es w',
          add_all (rt := Sample.runtime) "alice" messages Sample.world
          = (inr tt, w')
          /\ Forall2 stamped messages es
          /\ stored_history w' "alice"
             = Some (PyList (map PyDict (skipn 5 es)))
          /\ List.length (skipn 5 es) = 100).
Proof.
  refine (history_keeps_last_100 (rt := Sample.runtime) "alice" Sample.world
            [] _).
  right. split; reflexivity.
Defined.

Lemma unknown_key_is_routing_error_witness :
  exists e w1 response w',
    ACPMessage.from_dict (rt := Sample.runtime)
      (Sample.greeting ++ [("priority", PyInt 1)]) w1 = (inl e, w1)
    /\ is_TypeError e
    /\ AgentRouter.route (rt := Sample.runtime)
         (Sample.greeting ++ [("priority", PyInt 1)]) Sample.world
       = (inr response, w')
    /\ Dict.get "success" response = Some (PyBool false)
    /\ Dict.get "error" response
       = Some (PyStr ("Routing error: " ++ exn_str (rt := Sample.runtime) e)%string)
    /\ ("Routing error: " ++ exn_str (rt := Sample.runtime) e)%string
       <> "Invalid ACP message format".
Proof.
  refine (unknown_key_is_routing_error (rt := Sample.runtime)
            (Sample.greeting ++ [("priority", PyInt 1)]) Sample.world _).
  exists "priority". split.
  - simpl. tauto.
  - simpl. intros H.
    repeat (destruct H as [H | H]; [discriminate H |]). exact H.
Defined.

(** * Further properties of the code *)

(** ** More facts about the data *)

Section MoreDictFacts.
Context {V : Type}.

Lemma get_None_not_In (k : string) (d : dict V) :
  ~ In k (Dict.keys d) -> Dict.get k d = None.
Proof.
  induction d as [| [k' v] r IH]; simpl; [reflexivity |].
  intros H. destruct (String.eqb_spec k k') as [-> | N].
  - exfalso. apply H. left. reflexivity.
  - apply IH. intros F. apply H. right. exact F.
Qed.

Lemma get_del_same (k : string) (d : dict V) :
  unique_keys d -> Dict.get k (Dict.del k d) = None.
Proof.
  unfold unique_keys. induction d as [| [k' v] r IH]; simpl; [reflexivity |].
  intros U. inversion U as [| ? ? Hn Hr]. subst.
  destruct (String.eqb_spec k k') as [-> | N].
  - apply get_None_not_In. exact Hn.
  - simpl. destruct (String.eqb_spec k k'); [contradiction |]. apply IH. exact Hr.
Qed.

Lemma get_del_other (k k' : string) (d : dict V) :
  k <> k' -> Dict.get k (Dict.del k' d) = Dict.get k d.
Proof.
  intros N. induction d as [| [k0 v] r IH]; simpl; [reflexivity |].
  destruct (String.eqb_spec k' k0) as [-> | N0].
  - destruct (String.eqb_spec k k0); [contradiction | reflexivity].
  - simpl. destruct (String.eqb_spec k k0); [reflexivity | exact IH].
Qed.

Lemma keys_set_In (k k' : string) (v : V) (d : dict V) :
  In k (Dict.keys (Dict.set k' v d)) -> k = k' \/ In k (Dict.keys d).
Proof.
  induction d as [| [k0 v0] r IH]; simpl.
  - intros [<- | []]. left. reflexivity.
  - destruct (String.eqb_spec k' k0) as [-> | N0]; simpl.
    + intros [<- | H]; [left; reflexivity | right; right; exact H].
    + intros [<- | H]; [right; left; reflexivity |].
      destruct (IH H) as [-> | H']; [left; reflexivity | right; right; exact H'].
Qed.

Lemma unique_keys_set (k : string) (v : V) (d : dict V) :
  unique_keys d -> unique_keys (Dict.set k v d).
Proof.
  unfold unique_keys. induction d as [| [k0 v0] r IH]; simpl.
  - intros _. constructor; [intros [] | constructor].
  - intros U. inversion U as [| ? ? Hn Hr]. subst.
    destruct (String.eqb_spec k k0) as [-> | N0]; simpl.
    + constructor; assumption.
    + constructor; [| apply IH; exact Hr].
      intros F. apply keys_set_In in F. destruct F as [-> | F]; contradiction.
Qed.

(** [{**d, **d'}]: the entries of [d'] win. *)
Lemma get_merge (k : string) (d d' : dict V) :
  unique_keys d' ->
  Dict.get k (Dict.merge d d')
  = match Dict.get k d' with Some v => Some v | None => Dict.get k d end.
Proof.
  unfold Dict.merge, unique_keys. revert d.
  induction d' as [| [k1 v1] r IH]; intros d U; simpl; [reflexivity |].
  inversion U as [| ? ? Hn Hr]. subst. rewrite (IH _ Hr).
  destruct (String.eqb_spec k k1) as [-> | N].
  - rewrite (get_None_not_In _ _ Hn). apply get_set_same.
  - destruct (Dict.get k r); [reflexivity |]. apply get_set_other. exact N.
Qed.

Lemma set_set_same (k : string) (v v' : V) (d : dict V) :
  Dict.set k v (Dict.set k v' d) = Dict.set k v d.
Proof.
  induction d as [| [k0 v0] r IH]; simpl.
  - rewrite String.eqb_refl. reflexivity.
  - destruct (String.eqb k k0) eqn:E; simpl.
    + rewrite String.eqb_refl. reflexivity.
    + rewrite E, IH. reflexivity.
Qed.

Lemma In_keys_mem (k : string) (d : dict V) :
  In k (Dict.keys d) -> Dict.mem k d = true.
Proof.
  intros H. unfold Dict.mem.
  destruct (Dict.get k d) eqn:E; [reflexivity |].
  exfalso. induction d as [| [k0 v0] r IH]; [contradiction |].
  cbn [Dict.get] in E. cbn [Dict.keys map fst] in H.
  destruct (String.eqb_spec k k0) as [-> | N]; [discriminate |].
  destruct H as [<- | H]; [contradiction | exact (IH H E)].
Qed.

End MoreDictFacts.

Lemma session_key_injective u u' :
  MemoryManager.session_key u = MemoryManager.session_key u' -> u = u'.
Proof. unfold MemoryManager.session_key. simpl. intros E. inversion E. reflexivity. Qed.

Lemma last_n_one {A : Type} (l : list A) (x : A) : last_n 1 (l ++ [x]) = [x].
Proof.
  rewrite last_n_suffix by (simpl; lia). reflexivity.
Qed.

Lemma last_n_last_n {A : Type} (n k : nat) (l : list A) :
  n <= k -> last_n n (last_n k l) = last_n n l.
Proof.
  intros H. unfold last_n. rewrite length_skipn, skipn_skipn. f_equal. lia.
Qed.

Lemma filter_result_sound {A : Type} (p : A -> result bool) (l xs : list A) :
  filter_result p l = inr xs ->
  forall x, In x xs -> In x l /\ p x = inr true.
Proof.
  revert xs. induction l as [| a r IH]; simpl; intros xs H x Hx.
  - inversion H. subst. contradiction.
  - destruct (p a) as [e | b] eqn:Pa; [discriminate |].
    destruct (filter_result p r) as [e | ys]; [discriminate |].
    inversion H. subst. destruct b.
    + destruct Hx as [<- | Hx]; [split; [left; reflexivity | exact Pa] |].
      destruct (IH ys eq_refl x Hx). split; [right |]; assumption.
    + destruct (IH ys eq_refl x Hx). split; [right |]; assumption.
Qed.

Lemma filter_result_set {V : Type} (p : string * V -> result bool)
  (k : string) (v : V) (d : dict V) (xs : list (string * V)) :
  filter_result p d = inr xs ->
  p (k, v) = inr true ->
  exists xs',
    filter_result p (Dict.set k v d) = inr xs'
    /\ In (k, v) xs'
    /\ forall x, fst x <> k -> (In x xs' <-> In x xs).
Proof.
  intros H Pk. revert xs H.
  induction d as [| [k0 v0] r IH]; simpl; intros xs H.
  - rewrite Pk. inversion H. subst. eexists. split; [reflexivity |].
    split; [left; reflexivity |].
    intros x N. split; [| contradiction].
    intros [<- | []]. apply N. reflexivity.
  - destruct (p (k0, v0)) as [e | b0] eqn:P0; [discriminate |].
    destruct (filter_result p r) as [e | ys] eqn:Fr; [discriminate |].
    inversion H. subst. clear H.
    destruct (String.eqb_spec k k0) as [-> | N0]; simpl.
    + rewrite Pk, Fr. eexists. split; [reflexivity |].
      split; [left; reflexivity |].
      intros x N. split.
      * intros [<- | Hx]; [exfalso; apply N; reflexivity |].
        destruct b0; [right |]; exact Hx.
      * intros Hx. right. destruct b0; [| exact Hx].
        destruct Hx as [<- | Hx]; [exfalso; apply N; reflexivity | exact Hx].
    + destruct (IH ys eq_refl) as (ys' & F' & Hin & Hiff).
      rewrite P0, F'. eexists. split; [reflexivity |]. split.
      * destruct b0; [right |]; exact Hin.
      * intros x N. specialize (Hiff x N). destruct b0; simpl; tauto.
Qed.

(** ** What a computation leaves alone *)

Create HintDb keeps.

Section Keeps.
Context {X : Type} (f : World -> X).

Lemma keeps_ret {A : Type} (a : A) : keeps f (ret a).
Proof. intros w. reflexivity. Qed.

Lemma keeps_raise {A : Type} (e : exn) : keeps f (@raise A e).
Proof. intros w. reflexivity. Qed.

Lemma keeps_lift {A : Type} (r : result A) : keeps f (lift r).
Proof. intros w. reflexivity. Qed.

Lemma keeps_gets {A : Type} (g : World -> A) : keeps f (gets g).
Proof. intros w. reflexivity. Qed.

Lemma keeps_modify (g : World -> World) :
  (forall w, f (g w) = f w) -> keeps f (modify g).
Proof. intros H w. apply H. Qed.

Lemma keeps_bind {A B : Type} (c : M A) (k : A -> M B) :
  keeps f c -> (forall a, keeps f (k a)) -> keeps f (bind c k).
Proof.
  intros Hc Hk w. unfold bind. specialize (Hc w).
  destruct (c w) as [[e | a] w1]; simpl in *; [exact Hc |].
  rewrite (Hk a w1). exact Hc.
Qed.

Lemma keeps_try {A : Type} (c : M A) (h : exn -> M A) :
  keeps f c -> (forall e, keeps f (h e)) -> keeps f (try c h).
Proof.
  intros Hc Hh w. unfold try. specialize (Hc w).
  destruct (c w) as [[e | a] w1]; simpl in *; [| exact Hc].
  rewrite (Hh e w1). exact Hc.
Qed.

Lemma keeps_foldM {A B : Type} (g : B -> A -> M B) (l : list A) :
  (forall b a, keeps f (g b a)) -> forall b, keeps f (foldM g b l).
Proof.
  intros Hg. induction l as [| x r IH]; intros b; simpl.
  - intros w. reflexivity.
  - apply keeps_bind; [apply Hg | exact IH].
Qed.

End Keeps.

Ltac keeping :=
  repeat first
    [ apply keeps_ret | apply keeps_raise | apply keeps_lift | apply keeps_gets
    | solve [auto with keeps]
    | apply keeps_bind; [| intros ?]
    | apply keeps_try; [| intros ?]
    | apply keeps_foldM; intros ? ?
    | apply keeps_modify; intros ?; reflexivity
    | match goal with
      | |- keeps _ (match ?x with _ => _ end) => destruct x
      | |- keeps _ (if ?x then _ else _) => destruct x
      end ].

(** ** What a computation appends to the reasoning logs *)

Create HintDb appends.

Section AppendOnly.
Context {A B : Type}.

Lemma appends_keeps (c : M A) : keeps _logs c -> appends c.
Proof.
  intros K w u. exists []. unfold logs_of. rewrite (K w), app_nil_r.
  reflexivity.
Qed.

Lemma appends_bind (c : M A) (k : A -> M B) :
  appends c -> (forall a, appends (k a)) -> appends (bind c k).
Proof.
  intros Hc Hk w u. unfold bind. destruct (Hc w u) as (m1 & E1).
  destruct (c w) as [[e | a] w1]; simpl in *; [exists m1; exact E1 |].
  destruct (Hk a w1 u) as (m2 & E2). exists (m1 ++ m2).
  rewrite E2, E1, app_assoc. reflexivity.
Qed.

Lemma appends_try (c : M A) (h : exn -> M A) :
  appends c -> (forall e, appends (h e)) -> appends (try c h).
Proof.
  intros Hc Hh w u. unfold try. destruct (Hc w u) as (m1 & E1).
  destruct (c w) as [[e | a] w1]; simpl in *; [| exists m1; exact E1].
  destruct (Hh e w1 u) as (m2 & E2). exists (m1 ++ m2).
  rewrite E2, E1, app_assoc. reflexivity.
Qed.

End AppendOnly.

Lemma appends_foldM {A B : Type} (f : B -> A -> M B) (l : list A) :
  (forall b a, appends (f b a)) -> forall b, appends (foldM f b l).
Proof.
  intros Hf. induction l as [| x r IH]; intros b; simpl.
  - intros w u. exists []. rewrite app_nil_r. reflexivity.
  - apply appends_bind; [apply Hf | exact IH].
Qed.

Ltac appending :=
  repeat first
    [ solve [auto with appends]
    | apply appends_keeps; solve [keeping]
    | apply appends_bind; [| intros ?]
    | apply appends_try; [| intros ?]
    | apply appends_foldM; intros ? ?
    | match goal with
      | |- appends (match ?x with _ => _ end) => destruct x
      | |- appends (if ?x then _ else _) => destruct x
      end ].

Lemma yields_bind_returns {A B : Type} (P : B -> Prop) (c : M A) (k : A -> M B) :
  (forall a, returns c a -> yields P (k a)) -> yields P (bind c k).
Proof.
  intros H w b w' E. unfold bind in E.
  destruct (c w) as [[e | a] w1] eqn:Ec; [inversion E |].
  refine (H a _ w1 b w' E). exists w, w1. exact Ec.
Qed.

Lemma returns_lift {A : Type} (r : result A) (a : A) :
  returns (lift r) a -> r = inr a.
Proof. intros (w & w' & E). unfold lift in E. inversion E. reflexivity. Qed.

Section MoreRuns.
Context {A B : Type}.

Lemma try_bind (c : M A) (k : A -> M B) (h : exn -> M B) w :
  try (bind c k) h w
  = match c w with
    | (inl e, w1) => h e w1
    | (inr a, w1) => try (k a) h w1
    end.
Proof. unfold try, bind. destruct (c w) as [[e | a] w1]; reflexivity. Qed.

End MoreRuns.

(** ** memory.py *)

Section Memory.
Context {rt : PyRuntime}.

Lemma session_of_set_other u u' data w :
  u' <> u ->
  session_of (with_memory (Dict.set (MemoryManager.session_key u) data (_memory w)) w) u'
  = session_of w u'.
Proof.
  intros N. unfold session_of. simpl.
  rewrite get_set_other; [reflexivity |].
  intros E. apply N. exact (session_key_injective _ _ E).
Qed.

Lemma session_of_del_other u u' w :
  u' <> u ->
  session_of (with_memory (Dict.del (MemoryManager.session_key u) (_memory w)) w) u'
  = session_of w u'.
Proof.
  intros N. unfold session_of. simpl.
  rewrite get_del_other; [reflexivity |].
  intros E. apply N. exact (session_key_injective _ _ E).
Qed.

Lemma keeps_save_session u u' data :
  u' <> u -> keeps (fun w => session_of w u') (MemoryManager.save_session u data).
Proof.
  intros N. unfold MemoryManager.save_session. apply keeps_modify.
  intros w. apply session_of_set_other. exact N.
Qed.

(** X1.  Sessions are kept per caller: whatever a mutator called for [u]
    does, and however it ends, the session of another caller is as it
    was. *)
Theorem sessions_are_isolated (u u' : string) :
  u' <> u ->
  (forall key value w,
     session_of (snd (MemoryManager.set_context u key value w)) u'
     = session_of w u')
  /\ (forall message w,
        session_of (snd (MemoryManager.add_conversation_message u message w)) u'
        = session_of w u')
  /\ (forall w, session_of (snd (MemoryManager.clear_context u w)) u'
                = session_of w u')
  /\ (forall w,
        session_of (snd (MemoryManager.clear_conversation_history u w)) u'
        = session_of w u')
  /\ (forall w, session_of (snd (MemoryManager.delete_session u w)) u'
                = session_of w u').
Proof.
  intros N.
  pose proof (keeps_save_session u u') as S.
  assert (T : keeps (fun w => session_of w u') now_isoformat).
  { intros w. reflexivity. }
  split; [| split; [| split; [| split]]].
  - intros key value.
    change (keeps (fun w => session_of w u')
              (MemoryManager.set_context u key value)).
    unfold MemoryManager.set_context, MemoryManager.get_session.
    apply keeps_bind; [apply keeps_gets | intros session].
    cbv zeta.
    destruct (Dict.get "context" _) as [[] |];
      try apply keeps_raise.
    apply keeps_bind; [exact T | intros t]. apply S. exact N.
  - intros msg.
    change (keeps (fun w => session_of w u')
              (MemoryManager.add_conversation_message u msg)).
    unfold MemoryManager.add_conversation_message, MemoryManager.get_session.
    apply keeps_bind; [apply keeps_gets | intros session].
    cbv zeta.
    apply keeps_bind.
    { destruct (negb _); [| apply keeps_ret].
      apply keeps_bind; [exact T | intros t; apply keeps_ret]. }
    intros message'.
    destruct (Dict.get "conversation_history" _) as [[] |];
      try apply keeps_raise.
    apply keeps_bind; [exact T | intros t]. apply S. exact N.
  - change (keeps (fun w => session_of w u') (MemoryManager.clear_context u)).
    unfold MemoryManager.clear_context, MemoryManager.get_session.
    apply keeps_bind; [apply keeps_gets | intros session].
    apply keeps_bind; [exact T | intros t]. apply S. exact N.
  - change (keeps (fun w => session_of w u')
              (MemoryManager.clear_conversation_history u)).
    unfold MemoryManager.clear_conversation_history, MemoryManager.get_session.
    apply keeps_bind; [apply keeps_gets | intros session].
    apply keeps_bind; [exact T | intros t]. apply S. exact N.
  - intros w. unfold MemoryManager.delete_session, modify. simpl.
    apply session_of_del_other. exact N.
Qed.

Lemma get_context_spec (u key : string) (w : World) (d : pydict) :
  context_is w u d ->
  MemoryManager.get_context u key w = (inr (arg d key PyNone), w).
Proof.
  unfold context_is, session_of, MemoryManager.get_context,
    MemoryManager.get_session, bind, gets, arg.
  intros [H | [H ->]]; rewrite H; reflexivity.
Qed.

Lemma set_context_spec (u key : string) (value : pyval) (w : World)
  (d : pydict) :
  context_is w u d ->
  exists t,
    MemoryManager.set_context u key value w
    = (inr tt,
       with_memory
         (Dict.set (MemoryManager.session_key u)
            (Dict.set "last_updated" (PyStr t)
               (Dict.set "context" (PyDict (Dict.set key value d))
                  (session_of w u)))
            (_memory w))
         (with_clock (S (clock w)) w)).
Proof.
  unfold context_is, MemoryManager.set_context, MemoryManager.get_session.
  intros Hc. exists (utcnow_isoformat (clock w)).
  cbv [bind gets]. fold (session_of w u).
  set (session := session_of w u) in *. unfold Dict.mem.
  destruct Hc as [Hc | [Hc ->]]; rewrite Hc; cbn [negb]; cbv zeta.
  - rewrite Hc. reflexivity.
  - rewrite get_set_same.
    cbv [now_isoformat tick bind ret MemoryManager.save_session modify].
    rewrite set_set_same. reflexivity.
Qed.

(** X2.  What [set_context] stores, [get_context] reads back: after
    [set_context(user_id, key, value)] the same key reads [value], every
    other key reads what it read before, and the conversation history
    is untouched. *)
Theorem set_context_then_get (u key : string) (value : pyval) (w : World)
  (d : pydict) :
  context_is w u d ->
  exists w',
    MemoryManager.set_context u key value w = (inr tt, w')
    /\ MemoryManager.get_context u key w' = (inr value, w')
    /\ (forall key',
          key' <> key ->
          MemoryManager.get_context u key' w'
          = (fst (MemoryManager.get_context u key' w), w'))
    /\ stored_history w' u = stored_history w u.
Proof.
  intros Hc. destruct (set_context_spec u key value w d Hc) as (t & Hset).
  eexists. split; [exact Hset |].
  match type of Hset with _ = (_, ?x) => set (w' := x) in * end.
  assert (Hc' : context_is w' u (Dict.set key value d)).
  { left. unfold session_of, w'. simpl. rewrite get_set_same.
    rewrite get_set_other by discriminate. apply get_set_same. }
  split; [| split].
  - rewrite (get_context_spec u key w' _ Hc'). unfold arg.
    rewrite get_set_same. reflexivity.
  - intros key' N.
    rewrite (get_context_spec u key' w' _ Hc'), (get_context_spec u key' w d Hc).
    unfold arg. rewrite get_set_other by exact N. reflexivity.
  - unfold stored_history, w'. simpl. rewrite get_set_same.
    rewrite !get_set_other by discriminate.
    unfold session_of.
    destruct (Dict.get (MemoryManager.session_key u) (_memory w)); reflexivity.
Qed.

Lemma get_conversation_history_spec u limit w h :
  history_is w u h ->
  MemoryManager.get_conversation_history u limit w
  = (inr (PyList (if (0 <? limit)%Z then last_n (Z.to_nat limit) h else h)), w).
Proof.
  unfold history_is, stored_history, MemoryManager.get_conversation_history,
    MemoryManager.get_session, bind, gets, arg.
  intros H.
  destruct (Dict.get (MemoryManager.session_key u) (_memory w)) as [session |].
  - destruct H as [H | [H ->]]; rewrite H; destruct (0 <? limit)%Z; reflexivity.
  - destruct H as [H | [_ ->]]; [discriminate H |].
    destruct (0 <? limit)%Z; reflexivity.
Qed.

(** X3.  Reading the history back: the most recent [limit] entries, oldest
    first, and all of them for a limit of zero or less; the entry just
    appended is the one a limit of 1 returns. *)
Theorem history_reads_most_recent (u : string) (w : World) (h : list pyval) :
  history_is w u h ->
  (forall limit,
     MemoryManager.get_conversation_history u limit w
     = (inr (PyList (if (0 <? limit)%Z then last_n (Z.to_nat limit) h else h)),
        w))
  /\ (forall message,
        exists e w',
          MemoryManager.add_conversation_message u message w = (inr tt, w')
          /\ stamped message e
          /\ MemoryManager.get_conversation_history u 1 w'
             = (inr (PyList [PyDict e]), w')).
Proof.
  intros Hh. split.
  - intros limit. exact (get_conversation_history_spec u limit w h Hh).
  - intros message.
    destruct (add_conversation_message_spec u message w h Hh)
      as (e & w' & Hadd & Hst & Hhist).
    exists e, w'. split; [exact Hadd |]. split; [exact Hst |].
    rewrite (get_conversation_history_spec u 1 w' _ (or_introl Hhist)).
    simpl. rewrite last_n_last_n by lia. rewrite last_n_one. reflexivity.
Qed.

(** X4.  Clearing one half of a session leaves the other half alone. *)
Theorem clearing_is_selective (u : string) (w : World) :
  (exists w',
     MemoryManager.clear_conversation_history u w = (inr tt, w')
     /\ stored_history w' u = Some (PyList [])
     /\ Dict.get "context" (session_of w' u)
        = Dict.get "context" (session_of w u))
  /\ (exists w',
        MemoryManager.clear_context u w = (inr tt, w')
        /\ Dict.get "context" (session_of w' u) = Some (PyDict [])
        /\ stored_history w' u = stored_history w u).
Proof.
  split.
  - eexists. split.
    { unfold MemoryManager.clear_conversation_history,
        MemoryManager.get_session, MemoryManager.save_session.
      cbv [bind gets modify ret now_isoformat tick]. reflexivity. }
    unfold stored_history, session_of. simpl.
    rewrite !get_set_same. rewrite !(get_set_other "conversation_history")
      by discriminate.
    rewrite get_set_same. split; [reflexivity |].
    rewrite !get_set_other by discriminate. reflexivity.
  - eexists. split.
    { unfold MemoryManager.clear_context,
        MemoryManager.get_session, MemoryManager.save_session.
      cbv [bind gets modify ret now_isoformat tick]. reflexivity. }
    unfold stored_history, session_of. simpl.
    rewrite !get_set_same. rewrite !(get_set_other "context") by discriminate.
    rewrite get_set_same. split; [reflexivity |].
    rewrite !get_set_other by discriminate.
    destruct (Dict.get (MemoryManager.session_key u) (_memory w)); reflexivity.
Qed.

(** X5.  Deleting a session makes the caller unknown again: the next read
    sees an empty session, every context key reads [None], and the next
    append starts a history of one. *)
Theorem delete_session_forgets (u : string) (w : World) :
  unique_keys (_memory w) ->
  exists w',
    MemoryManager.delete_session u w = (inr tt, w')
    /\ MemoryManager.get_session u w' = (inr [], w')
    /\ (forall key, MemoryManager.get_context u key w' = (inr PyNone, w'))
    /\ forall message,
         exists e w'',
           MemoryManager.add_conversation_message u message w' = (inr tt, w'')
           /\ stamped message e
           /\ stored_history w'' u = Some (PyList [PyDict e]).
Proof.
  intros U. eexists. split; [reflexivity |].
  assert (G : Dict.get (MemoryManager.session_key u)
                (Dict.del (MemoryManager.session_key u) (_memory w)) = None)
    by (apply get_del_same; exact U).
  split; [| split].
  - unfold MemoryManager.get_session, gets. simpl. rewrite G. reflexivity.
  - intros key.
    unfold MemoryManager.get_context, MemoryManager.get_session, bind, gets.
    simpl. rewrite G. reflexivity.
  - intros message.
    match goal with
    | |- context [MemoryManager.add_conversation_message u message ?x] =>
        destruct (add_conversation_message_spec u message x [])
          as (e & w'' & H1 & H2 & H3)
    end.
    { right. unfold stored_history. simpl. rewrite G. split; reflexivity. }
    exists e, w''. split; [exact H1 |]. split; [exact H2 |].
    rewrite H3. reflexivity.
Qed.

End Memory.

(** ** agent_registry.py *)

Section Registry.
Context {rt : PyRuntime}.

(** X6.  The names the two searches return are names [list_active]
    returns. *)
Theorem searches_return_active_handlers (tag : pyval) (w : World) :
  match fst (AgentRegistry.list_active w) with
  | inr active =>
      match fst (AgentRegistry.list_by_intent tag w) with
      | inr found => incl found active
      | inl _ => True
      end
      /\ match fst (AgentRegistry.list_by_capability tag w) with
         | inr found => incl found active
         | inl _ => True
         end
  | inl _ => False
  end.
Proof.
  unfold AgentRegistry.list_active, AgentRegistry.list_by_intent,
    AgentRegistry.list_by_capability, bind, gets, lift, ret. simpl.
  assert (K : forall field,
            match filter_result
                    (fun nm : string * AgentMetadata =>
                       AgentRegistry.has_tag tag (field (snd nm))
                         (is_active (snd nm))) (_metadata w) with
            | inl _ => True
            | inr l =>
                incl (map fst l)
                  (map fst (filter (fun nm => truthy (is_active (snd nm)))
                              (_metadata w)))
            end).
  { intros field.
    destruct (filter_result _ (_metadata w)) as [e | l] eqn:F; [exact I |].
    intros n Hn. apply in_map_iff in Hn. destruct Hn as (nm & <- & Hnm).
    destruct (filter_result_sound _ _ _ F nm Hnm) as [Hin Hp].
    apply in_map. apply filter_In. split; [exact Hin |].
    unfold AgentRegistry.has_tag in Hp.
    destruct (truthy (field (snd nm))); [| discriminate].
    destruct (py_in tag (field (snd nm))) as [e | b]; [discriminate |].
    injection Hp as Hb. apply andb_true_iff in Hb. apply Hb. }
  split.
  - specialize (K intents).
    destruct (filter_result _ (_metadata w)); simpl; [exact I | exact K].
  - specialize (K capabilities).
    destruct (filter_result _ (_metadata w)); simpl; [exact I | exact K].
Qed.

(** X7.  [unregister] leaves no trace of the name: for a registry that
    holds metadata for exactly the names it holds agents for, it
    answers whether the name was registered, the name then has neither
    agent nor metadata, and every other name keeps both. *)
Theorem unregister_removes_one_name (name : string) (w : World) :
  unique_keys (_agents w) -> unique_keys (_metadata w) ->
  Dict.mem name (_metadata w) = Dict.mem name (_agents w) ->
  exists w',
    AgentRegistry.unregister name w = (inr (Dict.mem name (_agents w)), w')
    /\ Dict.get name (_agents w') = None
    /\ Dict.get name (_metadata w') = None
    /\ forall other,
         other <> name ->
         Dict.get other (_agents w') = Dict.get other (_agents w)
         /\ Dict.get other (_metadata w') = Dict.get other (_metadata w).
Proof.
  intros Ua Um Hm. unfold AgentRegistry.unregister. cbv [bind gets].
  destruct (Dict.mem name (_agents w)) eqn:Ha.
  - cbv [modify logging bind gets ret]. simpl. rewrite Hm.
    eexists. split; [reflexivity |]. simpl.
    split; [apply get_del_same; exact Ua |].
    split; [apply get_del_same; exact Um |].
    intros other N. split; apply get_del_other; exact N.
  - exists w. split; [reflexivity |]. unfold Dict.mem in Ha, Hm.
    destruct (Dict.get name (_agents w)); [discriminate Ha |].
    destruct (Dict.get name (_metadata w)); [discriminate Hm |].
    repeat split.
Qed.

(** X8.  A [register] call whose metadata has an undeclared key raises
    [TypeError] with the agent already stored: the name is registered
    without metadata, and [unregister] of that name then removes the
    agent and raises [KeyError]. *)
Theorem failed_register_leaves_half_a_record
  (name : string) (agent : Agent) (metadata : pydict) (w : World) :
  (exists k, In k (Dict.keys metadata) /\ ~ In k optional_fields) ->
  Dict.mem name (_metadata w) = false ->
  unique_keys (_agents w) ->
  exists e w1 w2,
    AgentRegistry.register name agent (Some metadata) w = (inl e, w1)
    /\ is_TypeError e
    /\ Dict.get name (_agents w1) = Some agent
    /\ Dict.get name (_metadata w1) = None
    /\ AgentRegistry.unregister name w1 = (inl (KeyError name), w2)
    /\ Dict.get name (_agents w2) = None.
Proof.
  intros (k & Hin & Hout) Hm Ua.
  assert (Hinit : exists e, AgentMetadata.__init__ name metadata = inl e
                          /\ is_TypeError e).
  { unfold AgentMetadata.__init__.
    destruct (Dict.mem "name" metadata) eqn:En.
    - eexists. split; [reflexivity | exact I].
    - destruct (check_keywords_rejects "AgentMetadata.__init__"
                  AgentMetadata.fields ["self"] metadata) as (e & He & Te).
      + exists k. split; [exact Hin |]. intros F. simpl in F.
        destruct F as [<- | F].
        * rewrite (In_keys_mem _ _ Hin) in En. discriminate En.
        * apply Hout. simpl. exact F.
      + exists e. rewrite He. split; [reflexivity | exact Te]. }
  destruct Hinit as (e & He & Te).
  assert (R : exists w1,
             AgentRegistry.register name agent (Some metadata) w = (inl e, w1)
             /\ _agents w1 = Dict.set name agent (_agents w)
             /\ _metadata w1 = _metadata w).
  { unfold AgentRegistry.register. rewrite He.
    cbv [bind gets modify lift logging ret].
    destruct (Dict.mem name (_agents w)); eexists; repeat split. }
  destruct R as (w1 & R1 & Ra & Rm).
  exists e, w1. eexists. split; [exact R1 |]. split; [exact Te |].
  split; [rewrite Ra; apply get_set_same |].
  assert (Hm' : Dict.get name (_metadata w1) = None).
  { rewrite Rm. unfold Dict.mem in Hm.
    destruct (Dict.get name (_metadata w)); [discriminate | reflexivity]. }
  split; [exact Hm' |].
  unfold AgentRegistry.unregister. cbv [bind gets].
  rewrite Ra, mem_set_same.
  cbv [modify bind gets raise]. unfold Dict.mem.
  change (_metadata (with_agents (Dict.del name (_agents w1)) w1))
    with (_metadata w1).
  rewrite Hm'. split; [reflexivity |]. simpl.
  apply get_del_same. rewrite Ra. apply unique_keys_set. exact Ua.
Qed.

(** X9.  A handler registered with an intent tag is found by the search on
    that tag and, for an intent the routing table does not map,
    selected by the router, beside the handlers the search found
    before. *)
Theorem registered_intent_is_selected
  (name : string) (agent : Agent) (metadata : pydict) (tags : list pyval)
  (intent : string) (ctx : pydict) (found : list string) (w : World) :
  declared_only (Some metadata) = true ->
  Dict.get "intents" metadata = Some (PyList tags) ->
  existsb (py_eq (PyStr intent)) tags = true ->
  truthy (arg metadata "is_active" (PyBool true)) = true ->
  fst (AgentRegistry.list_by_intent (PyStr intent) w) = inr found ->
  Dict.get intent (_intent_mapping w) = None ->
  truthy (arg ctx "tool_chain" PyNone) = false ->
  exists w1 selected,
    AgentRegistry.register name agent (Some metadata) w = (inr tt, w1)
    /\ AgentRegistry.list_by_intent (PyStr intent) w1 = (inr selected, w1)
    /\ AgentRouter._select_agents (PyStr intent) (PyDict ctx) w1
       = (inr selected, w1)
    /\ In name selected
    /\ forall other, other <> name -> (In other selected <-> In other found).
Proof.
  intros Hdecl Hint Htag Hact Hfound Hmap Hchain.
  assert (Hkw : forall k, In k (Dict.keys metadata) -> In k optional_fields).
  { unfold declared_only in Hdecl. rewrite forallb_forall in Hdecl.
    intros k Hk. apply existsb_eqb_In, Hdecl. exact Hk. }
  set (md := AgentMetadata.__post_init__
               (mkAgentMetadata name
                  (arg metadata "description" (PyStr ""))
                  (arg metadata "capabilities" PyNone)
                  (arg metadata "intents" PyNone)
                  (arg metadata "version" (PyStr "1.0.0"))
                  (arg metadata "is_active" (PyBool true))
                  (arg metadata "config" PyNone))).
  assert (R : exists w1,
             AgentRegistry.register name agent (Some metadata) w = (inr tt, w1)
             /\ _metadata w1 = Dict.set name md (_metadata w)
             /\ _intent_mapping w1 = _intent_mapping w).
  { unfold AgentRegistry.register.
    rewrite (metadata_init_accepts name metadata Hkw). fold md.
    cbv [bind gets modify lift logging ret].
    destruct (Dict.mem name (_agents w)); eexists; repeat split. }
  destruct R as (w1 & R1 & Rm & Ri).
  set (p := fun nm : string * AgentMetadata =>
              AgentRegistry.has_tag (PyStr intent) (intents (snd nm))
                (is_active (snd nm))).
  assert (Pmd : p (name, md) = inr true).
  { assert (Ht : truthy (PyList tags) = true)
      by (destruct tags; [discriminate Htag | reflexivity]).
    unfold p, md, AgentRegistry.has_tag, AgentMetadata.__post_init__, arg.
    cbn [snd intents is_active]. rewrite Hint. cbn [is_None].
    rewrite Ht. unfold py_in. rewrite Htag.
    unfold arg in Hact. rewrite Hact. reflexivity. }
  unfold AgentRegistry.list_by_intent in Hfound.
  cbv [bind gets lift ret] in Hfound. fold p in Hfound.
  destruct (filter_result p (_metadata w)) as [e | xs] eqn:F;
    [discriminate Hfound |].
  simpl in Hfound. injection Hfound as <-.
  destruct (filter_result_set p name md (_metadata w) xs F Pmd)
    as (xs' & F' & Hin & Hiff).
  assert (L : AgentRegistry.list_by_intent (PyStr intent) w1
              = (inr (map fst xs'), w1)).
  { unfold AgentRegistry.list_by_intent. cbv [bind gets lift ret].
    fold p. rewrite Rm, F'. reflexivity. }
  exists w1, (map fst xs'). split; [exact R1 |]. split; [exact L |].
  split; [| split].
  - unfold AgentRouter._select_agents. rewrite Hchain. cbv zeta.
    eapply bind_runs; [reflexivity |]. cbv beta.
    rewrite Ri. unfold lookup. rewrite Hmap.
    eapply bind_runs; [reflexivity |]. cbv beta iota.
    eapply bind_runs; [exact L |].
    destruct xs' as [| x0 r0]; [contradiction | reflexivity].
  - apply (in_map fst) in Hin. exact Hin.
  - intros other N. rewrite !in_map_iff. split.
    + intros ((n & m0) & <- & Hx). exists (n, m0). split; [reflexivity |].
      apply Hiff; [exact N | exact Hx].
    + intros ((n & m0) & <- & Hx). exists (n, m0). split; [reflexivity |].
      apply Hiff; [exact N | exact Hx].
Qed.

End Registry.

(** ** logger.py *)

Section Logs.
Context {rt : PyRuntime}.

Lemma keeps_logs_tick : keeps _logs tick.
Proof. intros w. reflexivity. Qed.

Lemma keeps_logs_now_time : keeps _logs now_time.
Proof. intros w. reflexivity. Qed.

Lemma keeps_logs_now_isoformat : keeps _logs now_isoformat.
Proof. intros w. reflexivity. Qed.

Lemma keeps_logs_now_session : keeps _logs now_session.
Proof. intros w. reflexivity. Qed.

Lemma keeps_logs_logging lvl text : keeps _logs (logging lvl text).
Proof. intros w. reflexivity. Qed.

#[local] Hint Resolve keeps_logs_tick keeps_logs_now_time
  keeps_logs_now_isoformat keeps_logs_now_session keeps_logs_logging : keeps.

Lemma keeps_logs_from_dict data : keeps _logs (ACPMessage.from_dict data).
Proof.
  unfold ACPMessage.from_dict, ACPMessage.__init__, ACPMessage.__post_init__.
  keeping.
Qed.

Lemma keeps_logs_invoke a m c : keeps _logs (AgentInvoker.invoke a m c).
Proof. unfold AgentInvoker.invoke, AgentInvoker._invoke_local_agent. keeping. Qed.

Lemma keeps_logs_select i c : keeps _logs (AgentRouter._select_agents i c).
Proof.
  unfold AgentRouter._select_agents, AgentRegistry.list_by_intent,
    AgentRegistry.is_registered.
  keeping.
Qed.

Lemma keeps_logs_prepare u c : keeps _logs (AgentRouter._prepare_context u c).
Proof.
  unfold AgentRouter._prepare_context, MemoryManager.get_session. keeping.
Qed.

Lemma keeps_logs_add u m :
  keeps _logs (MemoryManager.add_conversation_message u m).
Proof.
  unfold MemoryManager.add_conversation_message, MemoryManager.get_session,
    MemoryManager.save_session.
  keeping.
Qed.

#[local] Hint Resolve keeps_logs_from_dict keeps_logs_invoke keeps_logs_select
  keeps_logs_prepare keeps_logs_add : keeps.

(** One call of [log]: one more entry at the end of the caller's list,
    labelled with the step; nothing else is touched. *)
Lemma log_appends user_id step details session_id w :
  exists entry w',
    ReasoningLogger.log user_id step details session_id w = (inr tt, w')
    /\ configuration w' = configuration w
    /\ logs_of w' user_id = logs_of w user_id ++ [entry]
    /\ step_label entry = Some (PyStr step)
    /\ forall other, other <> user_id -> logs_of w' other = logs_of w other.
Proof.
  unfold ReasoningLogger.log.
  destruct (truthy session_id);
    cbv [bind ret modify now_isoformat now_session tick];
    eexists _, _; (split; [reflexivity |]); (split; [reflexivity |]);
    unfold logs_of; simpl; (split; [rewrite get_set_same; reflexivity |]);
    (split; [reflexivity |]);
    intros other N; rewrite get_set_other by exact N; reflexivity.
Qed.

Lemma appends_log user_id step details session_id :
  appends (ReasoningLogger.log user_id step details session_id).
Proof.
  intros w u.
  destruct (log_appends user_id step details session_id w)
    as (entry & w' & E & _ & Hu & _ & Ho).
  rewrite E. simpl. destruct (String.eqb_spec u user_id) as [-> | N].
  - exists [entry]. exact Hu.
  - exists []. rewrite app_nil_r. apply Ho. exact N.
Qed.
#[local] Hint Resolve appends_log : appends.

Lemma appends_route acp_message : appends (AgentRouter.route acp_message).
Proof.
  unfold AgentRouter.route, AgentRouter._invoke_single_agent,
    AgentRouter._execute_tool_chain, AgentRouter.chain_step,
    AgentRegistry.list_active, AgentRegistry.get, AgentRegistry.is_registered,
    ReasoningLogger.log_intent_analysis, ReasoningLogger.log_agent_selection,
    ReasoningLogger.log_agent_invocation, ReasoningLogger.log_error.
  appending.
Qed.

(** X10.  The reasoning log only grows: whatever [route] or [handle_message]
    is given, every caller's entries are still there afterwards, in
    place and unchanged, followed by the new ones. *)
Theorem reasoning_log_only_grows (acp_message : pydict) (w : World)
  (user_id : string) :
  (exists more,
     logs_of (snd (AgentRouter.route acp_message w)) user_id
     = logs_of w user_id ++ more)
  /\ (exists more,
        logs_of (snd (AgentOrchestrator.handle_message acp_message w)) user_id
        = logs_of w user_id ++ more).
Proof.
  split; [apply appends_route |].
  revert w user_id. change (appends (AgentOrchestrator.handle_message acp_message)).
  pose proof appends_route.
  unfold AgentOrchestrator.handle_message.
  appending.
Qed.

End Logs.

(** ** invoker.py *)

Section Invoker.
Context {rt : PyRuntime}.

Lemma invoke_as_runs a m c ty w :
  exists w',
    AgentInvoker.invoke_as a m c ty w
    = (inr (if String.eqb ty "vertex"
            then "Error: Failed to invoke agent " ++ a
                   ++ ". Vertex AI SDK not available"
            else "Local agent '" ++ a ++ "' response: " ++ py_str m)%string,
       w')
    /\ state w' = state w.
Proof.
  unfold AgentInvoker.invoke_as. destruct (String.eqb ty "vertex");
    eexists; split; reflexivity.
Qed.

(** X11.  [invoke] turns every failure into an answer, so the fallback of
    [invoke_with_fallback] is never tried: whatever fallback agent is
    named, the call is the plain [invoke] of the primary agent, and it
    returns the local answer. *)
Theorem fallback_is_never_used (agent_name : string) (message : pyval)
  (context : pydict) (fallback_agent : option string) (w : World) :
  AgentInvoker.invoke_with_fallback agent_name message context fallback_agent w
  = AgentInvoker.invoke agent_name message context w
  /\ fst (AgentInvoker.invoke agent_name message context w)
     = inr ("Local agent '" ++ agent_name ++ "' response: "
              ++ py_str message)%string.
Proof. split; reflexivity. Qed.

Lemma batch_step_runs m c results cfg w :
  exists w',
    AgentInvoker.batch_step m c results cfg w
    = (inr match Dict.get "name" cfg with
           | Some n =>
               if String.eqb n "" then results
               else
                 Dict.set n
                   (if String.eqb
                         match Dict.get "type" cfg with
                         | Some t => t
                         | None => "local"
                         end "vertex"
                    then "Error: Failed to invoke agent " ++ n
                           ++ ". Vertex AI SDK not available"
                    else "Local agent '" ++ n ++ "' response: " ++ py_str m)%string
                   results
           | None => results
           end, w')
    /\ state w' = state w.
Proof.
  unfold AgentInvoker.batch_step.
  destruct (Dict.get "name" cfg) as [n |]; [| exists w; split; reflexivity].
  destruct (String.eqb n ""); [exists w; split; reflexivity |].
  match goal with
  | |- context [AgentInvoker.invoke_as n m c ?ty] =>
      destruct (invoke_as_runs n m c ty w) as (w' & E & S)
  end.
  exists w'. split; [| exact S].
  apply try_returns. eapply bind_runs; [exact E |]. reflexivity.
Qed.

Lemma batch_fold m c agents : forall results w,
  exists out w',
    foldM (AgentInvoker.batch_step m c) results agents w = (inr out, w')
    /\ state w' = state w
    /\ forall n,
         Dict.mem n out = true <->
         (Dict.mem n results = true
          \/ (n <> "" /\ exists cfg, In cfg agents /\ Dict.get "name" cfg = Some n)).
Proof.
  induction agents as [| cfg r IH]; intros results w; simpl.
  - exists results, w. split; [reflexivity |]. split; [reflexivity |].
    intros n. split; [auto |]. intros [H | (_ & cfg & [] & _)]. exact H.
  - destruct (batch_step_runs m c results cfg w) as (w1 & E & S1).
    match type of E with _ = (inr ?x, _) => set (mid := x) in * end.
    destruct (IH mid w1) as (out & w' & F & S & K).
    exists out, w'. split; [eapply bind_runs; [exact E | exact F] |].
    split; [congruence |].
    intros n. rewrite K. subst mid. split.
    + intros [H | (N & cfg' & I & G)].
      * destruct (Dict.get "name" cfg) as [n0 |] eqn:G0; [| auto].
        destruct (String.eqb_spec n0 "") as [-> | N0]; [auto |].
        destruct (String.eqb_spec n n0) as [-> | Nn].
        -- right. split; [exact N0 |]. exists cfg. auto.
        -- unfold Dict.mem in H. rewrite get_set_other in H by exact Nn. auto.
      * right. split; [exact N |]. exists cfg'. auto.
    + intros [H | (N & cfg' & [<- | I] & G)].
      * left. destruct (Dict.get "name" cfg) as [n0 |]; [| exact H].
        destruct (String.eqb n0 ""); [exact H |].
        destruct (String.eqb_spec n n0) as [-> | Nn];
          [apply mem_set_same | apply mem_set_other; exact H].
      * left. rewrite G. destruct (String.eqb_spec n "") as [-> | _];
          [contradiction |]. apply mem_set_same.
      * right. split; [exact N |]. exists cfg'. auto.
Qed.

(** X12.  [batch_invoke] never raises, not even for the [vertex] agents it
    cannot reach; it answers for exactly the non-empty names of the
    configurations it was given, and touches nothing but the records of
    the [logging] module. *)
Theorem batch_invoke_answers_every_name (agents : list (dict string))
  (message : pyval) (context : pydict) (w : World) :
  exists results w',
    AgentInvoker.batch_invoke agents message context w = (inr results, w')
    /\ state w' = state w
    /\ forall name,
         Dict.mem name results = true <->
         (name <> ""
          /\ exists agent_config,
               In agent_config agents
               /\ Dict.get "name" agent_config = Some name).
Proof.
  destruct (batch_fold message context agents [] w) as (out & w' & F & S & K).
  exists out, w'. split; [exact F |]. split; [exact S |].
  intros n. rewrite K. split; [intros [H | H]; [discriminate H | exact H] | auto].
Qed.

End Invoker.

(** ** router.py *)

Section Router.
Context {rt : PyRuntime}.

(** X13.  The handler's context is the stored context overlaid by the
    message's own, with [user_id] and [timestamp] set by the router
    whatever the two contexts say. *)
Theorem prepare_context_overlays (u : string) (mc uc : pydict) (w : World) :
  context_is w u uc ->
  unique_keys mc ->
  exists c t w',
    AgentRouter._prepare_context u (PyDict mc) w = (inr c, w')
    /\ configuration w' = configuration w
    /\ Dict.get "user_id" c = Some (PyStr u)
    /\ Dict.get "timestamp" c = Some (PyFloat t)
    /\ forall k,
         k <> "user_id" -> k <> "timestamp" ->
         Dict.get k c
         = match Dict.get k mc with
           | Some v => Some v
           | None => Dict.get k uc
           end.
Proof.
  intros Hc Um. unfold AgentRouter._prepare_context, MemoryManager.get_session.
  cbv [bind gets]. fold (session_of w u). unfold arg.
  assert (E : match Dict.get "context" (session_of w u) with
              | Some v => v
              | None => PyDict []
              end = PyDict uc).
  { destruct Hc as [-> | [-> ->]]; reflexivity. }
  rewrite E. cbv [now_time tick bind ret].
  eexists _, _, _. split; [reflexivity |]. split; [reflexivity |].
  split; [| split].
  - rewrite get_set_other by discriminate. apply get_set_same.
  - apply get_set_same.
  - intros k N1 N2. rewrite !get_set_other by assumption.
    apply get_merge. exact Um.
Qed.

(** X14.  [route] changes neither the registry, nor the routing tables, nor
    the session store. *)
Theorem route_only_reads_configuration (acp_message : pydict) (w : World) :
  let w' := snd (AgentRouter.route acp_message w) in
  _agents w' = _agents w /\ _metadata w' = _metadata w
  /\ _intent_mapping w' = _intent_mapping w
  /\ _tool_chains w' = _tool_chains w /\ _memory w' = _memory w.
Proof.
  pose proof (frames_route acp_message w) as F. unfold configuration in F.
  inversion F. repeat split.
Qed.

Lemma init_session f t i txt l c ts s w m w' :
  ACPMessage.__init__ f t i txt l c ts s w = (inr m, w') ->
  from_id m = f /\ (is_None s = false -> session_id m = s).
Proof.
  unfold ACPMessage.__init__, ACPMessage.__post_init__. simpl.
  destruct (is_None c); simpl; destruct (is_None ts); simpl;
    destruct (is_None s) eqn:Es;
    cbv [bind ret now_isoformat now_session tick]; simpl; rewrite ?Es;
    intros E; inversion E; subst; simpl; split; congruence.
Qed.

Lemma from_dict_fields data m :
  returns (ACPMessage.from_dict data) m ->
  from_id m = arg data "from_id" PyNone
  /\ (is_None (arg data "session_id" PyNone) = false ->
      session_id m = arg data "session_id" PyNone).
Proof.
  intros (w & w' & E). unfold ACPMessage.from_dict, bind, lift in E.
  destruct (bind_keywords _ _ _ _ data); [discriminate |].
  exact (init_session _ _ _ _ _ _ _ _ _ _ _ E).
Qed.

(** X15.  An envelope that carries [user_id] echoes the caller: its [user_id]
    is the sender's [from_id] without the ["user:"] prefix, and a
    [session_id] the caller supplied comes back unchanged. *)
Theorem envelope_echoes_caller (acp_message response : pydict) (w w' : World) :
  AgentRouter.route acp_message w = (inr response, w') ->
  carries "user_id" response ->
  exists sender,
    Dict.get "from_id" acp_message = Some (PyStr sender)
    /\ Dict.get "user_id" response
       = Some (PyStr (if startswith "user:" sender then drop 5 sender
                      else sender))
    /\ forall s,
         Dict.get "session_id" acp_message = Some s -> s <> PyNone ->
         Dict.get "session_id" response = Some s.
Proof.
  intros Hroute Hcar.
  assert (Y : yields
            (fun r =>
               early_failure r
               \/ exists m uid,
                    returns (ACPMessage.from_dict acp_message) m
                    /\ AgentRouter._extract_user_id (from_id m) = inr uid
                    /\ Dict.get "user_id" r = Some (PyStr uid)
                    /\ Dict.get "session_id" r = Some (session_id m))
            (AgentRouter.route acp_message)).
  { unfold AgentRouter.route.
    apply yields_bind; intros start_time.
    apply yields_try.
    - apply yields_bind_returns; intros m Hm.
      destruct (negb (ACPMessage.is_valid m)).
      + apply yields_ret. left. eexists. split; [reflexivity | auto].
      + apply yields_bind_returns; intros user_id Hu.
        apply returns_lift in Hu.
        apply yields_bind; intros _.
        apply yields_bind; intros intent.
        apply yields_bind; intros _.
        apply yields_bind; intros selected_agents.
        destruct selected_agents as [| first rest].
        * apply yields_ret. left. eexists. split; [reflexivity |].
          right. left. apply prefix_app.
        * apply yields_bind; intros active.
          apply yields_bind; intros _.
          apply yields_bind; intros resp.
          apply yields_bind; intros t.
          apply yields_bind; intros _.
          apply yields_ret. right. exists m, user_id.
          split; [exact Hm |]. split; [exact Hu |].
          split; [apply get_set_same |].
          rewrite get_set_other by discriminate. apply get_set_same.
    - intros e. apply yields_bind; intros _.
      apply yields_ret. left. eexists. split; [reflexivity |].
      right. right. apply prefix_app. }
  destruct (Y w response w' Hroute) as [(text & -> & _) | (m & uid & Hm & Hu & H1 & H2)].
  - discriminate Hcar.
  - destruct (from_dict_fields acp_message m Hm) as [Hf Hs].
    unfold AgentRouter._extract_user_id in Hu.
    destruct (from_id m) as [| | | | sender | |] eqn:Ef; try discriminate Hu.
    injection Hu as <-. exists sender.
    split; [| split; [exact H1 |]].
    + unfold arg in Hf. destruct (Dict.get "from_id" acp_message) as [v |];
        [congruence | discriminate Hf].
    + intros s Hs1 Hs2. rewrite H2. f_equal.
      unfold arg in Hs. rewrite Hs1 in Hs. apply Hs.
      destruct s; try reflexivity. contradiction.
Qed.

(** X16.  A chain added at run time takes effect at the next selection: a
    context that asks for it by name selects its agents, step by step,
    whatever the intent and whatever is registered. *)
Theorem added_chain_is_selected (name : string)
  (steps : list (string * string)) (intent : pyval) (ctx : pydict)
  (w : World) :
  name <> "" ->
  Dict.get "tool_chain" ctx = Some (PyStr name) ->
  exists w1,
    AgentRouter.add_tool_chain name
      (map (fun s => chain_link (fst s) (snd s)) steps) w = (inr tt, w1)
    /\ AgentRouter._select_agents intent (PyDict ctx) w1
       = (inr (map fst steps), w1).
Proof.
  intros Hn Hc.
  eexists. split; [reflexivity |].
  unfold AgentRouter._select_agents, arg. rewrite Hc.
  assert (T : truthy (PyStr name) = true).
  { simpl. destruct (String.eqb_spec name ""); [contradiction | reflexivity]. }
  rewrite T. cbv zeta.
  eapply bind_runs; [reflexivity |]. cbv beta.
  eapply bind_runs.
  { unfold lookup, lift. simpl. rewrite get_set_same. reflexivity. }
  cbv beta iota. unfold lift. f_equal.
  induction steps as [| [a p] r IH]; simpl; [reflexivity |].
  rewrite IH. reflexivity.
Qed.

(** X17.  A mapping added at run time replaces the search of the registry:
    for a context that asks for no chain, the intent then selects the
    registered names of the mapping, in the mapping's order, and no
    other handler -- none at all if none of them is registered. *)
Theorem added_mapping_is_selected (intent : string) (agents : list string)
  (ctx : pydict) (w : World) :
  truthy (arg ctx "tool_chain" PyNone) = false ->
  exists w1,
    AgentRouter.add_intent_mapping intent agents w = (inr tt, w1)
    /\ AgentRouter._select_agents (PyStr intent) (PyDict ctx) w1
       = (inr (filter (fun a => Dict.mem a (_agents w)) agents), w1).
Proof.
  intros Hc.
  eexists. split; [reflexivity |].
  eapply eq_trans;
    [ apply (direct_mapping_ends_selection intent agents ctx);
      [exact Hc | simpl; apply get_set_same]
    | reflexivity ].
Qed.

Lemma link_keeps_results st :
  AgentRouter.chain_results (AgentRouter.link_previous_results st)
  = AgentRouter.chain_results st.
Proof.
  unfold AgentRouter.link_previous_results.
  destruct (AgentRouter.chain_results st) eqn:E; [exact E | reflexivity].
Qed.

(** Whatever the handler does, a step ends with one more entry. *)
Lemma chain_step_runs m user_id session_id st i a w :
  let st' := AgentRouter.link_previous_results st in
  exists entry w',
    AgentRouter.chain_step m user_id session_id st (i, a) w
    = (inr (AgentRouter.mkChain
              (AgentRouter.chain_results st ++ [entry])
              (AgentRouter.chain_context st') (AgentRouter.chain_linked st')),
       w')
    /\ configuration w' = configuration w
    /\ step_entry_for i a entry.
Proof.
  intros st'.
  pose proof (frames_chain_step m user_id session_id st (i, a) w) as F.
  unfold AgentRouter.chain_step in *. fold st' in F |- *.
  rewrite <- (link_keeps_results st). fold st'.
  rewrite try_bind in F |- *.
  change (AgentRegistry.is_registered a w)
    with (@inr exn bool (Dict.mem a (_agents w)), w) in F |- *.
  cbv beta iota in F |- *.
  rewrite try_bind in F |- *.
  match goal with
  | |- context [match ?call w with _ => _ end] =>
      destruct (call w) as [[e | r] w1]
  end.
  - unfold ReasoningLogger.log_error in *.
    match goal with
    | |- context [ReasoningLogger.log ?u ?s ?d ?sid] =>
        destruct (log_runs u s d sid w1) as (w2 & L & _)
    end.
    eexists _, w2. split; [| split].
    + eapply bind_runs; [exact L |]. reflexivity.
    + erewrite bind_runs in F; [| exact L | reflexivity]. exact F.
    + repeat split.
  - match goal with
    | |- context [ReasoningLogger.log ?u ?s ?d ?sid] =>
        destruct (log_runs u s d sid w1) as (w2 & L & _)
    end.
    eexists _, w2. split; [| split].
    + apply try_returns. eapply bind_runs; [exact L |]. reflexivity.
    + erewrite try_returns in F;
        [| eapply bind_runs; [exact L | reflexivity]]. exact F.
    + repeat split.
Qed.

Lemma chain_fold m user_id session_id agents : forall k st w,
  exists entries stf w',
    foldM (AgentRouter.chain_step m user_id session_id) st
      (combine (seq k (List.length agents)) agents) w
    = (inr stf, w')
    /\ configuration w' = configuration w
    /\ AgentRouter.chain_results stf = AgentRouter.chain_results st ++ entries
    /\ Forall2 (fun step entry => step_entry_for (fst step) (snd step) entry)
         (combine (seq k (List.length agents)) agents) entries.
Proof.
  induction agents as [| a r IH]; intros k st w; simpl.
  - exists [], st, w. rewrite app_nil_r. repeat split. constructor.
  - destruct (chain_step_runs m user_id session_id st k a w)
      as (entry & w1 & E & C1 & P).
    match type of E with _ = (inr ?x, _) => set (st1 := x) in * end.
    destruct (IH (S k) st1 w1) as (entries & stf & w' & F & C & R & Q).
    exists (entry :: entries), stf, w'.
    split; [eapply bind_runs; [exact E | exact F] |].
    split; [congruence |]. split.
    + rewrite R. subst st1. simpl. rewrite <- app_assoc. reflexivity.
    + constructor; [exact P | exact Q].
Qed.

(** X18.  A tool chain always runs to its end: once the caller's context is
    prepared, [_execute_tool_chain] returns a successful envelope that
    names the agents it was given and reports one step for each of
    them, in order, numbered from 1, each with a result or an error --
    whether the agents are registered or not, and whatever their
    handlers do. *)
Theorem tool_chain_reports_every_step (agents : list string) (m : ACPMessage)
  (user_id : string) (session_id : pyval) (d : pydict) (w : World) :
  context_is_mapping w user_id ->
  context m = PyDict d ->
  exists response entries w',
    AgentRouter._execute_tool_chain agents m user_id session_id w
    = (inr response, w')
    /\ configuration w' = configuration w
    /\ Dict.get "success" response = Some (PyBool true)
    /\ Dict.get "agents" response = Some (PyList (map PyStr agents))
    /\ Dict.get "step_results" response = Some (PyList (map PyDict entries))
    /\ Forall2 (fun step entry => step_entry_for (fst step) (snd step) entry)
         (enumerate agents) entries.
Proof.
  intros Hctx Hd.
  destruct (prepare_context_runs user_id d w Hctx) as (c0 & w0 & P & C0).
  destruct (chain_fold m user_id session_id agents 0
              (AgentRouter.mkChain [] c0 false) w0)
    as (entries & stf & w' & F & C & R & Q).
  simpl in R. eexists _, entries, w'. split; [| split; [congruence |]].
  - unfold AgentRouter._execute_tool_chain. rewrite Hd, or_else_dict.
    eapply bind_runs; [exact P |]. cbv beta.
    eapply bind_runs; [exact F |]. cbv beta zeta. reflexivity.
  - rewrite R. repeat split. exact Q.
Qed.

Lemma answers_error text : answers (AgentRouter._create_error_response text).
Proof. split; reflexivity. Qed.

Lemma answers_set k v envelope :
  k <> "success" -> k <> "error" -> k <> "response" ->
  answers envelope -> answers (Dict.set k v envelope).
Proof.
  intros N1 N2 N3 [S R]. unfold answers, carries, Dict.mem in *.
  rewrite !get_set_other by (apply not_eq_sym; assumption).
  split; [exact S | exact R].
Qed.

Lemma yields_invoke_single_agent a m u sid :
  yields answers (AgentRouter._invoke_single_agent a m u sid).
Proof.
  unfold AgentRouter._invoke_single_agent.
  apply yields_bind; intros start_time.
  apply yields_try.
  - apply yields_bind; intros [[[] invoke] |];
      try (apply yields_ret; apply answers_error).
    apply yields_bind; intros c.
    apply yields_bind; intros response.
    apply yields_bind; intros t.
    apply yields_bind; intros _.
    apply yields_ret. split; reflexivity.
  - intros e. apply yields_bind; intros t.
    apply yields_bind; intros _.
    apply yields_ret. apply answers_error.
Qed.

Lemma yields_execute_tool_chain agents m u sid :
  yields answers (AgentRouter._execute_tool_chain agents m u sid).
Proof.
  unfold AgentRouter._execute_tool_chain.
  apply yields_bind; intros c.
  apply yields_bind; intros st.
  apply yields_ret. split; reflexivity.
Qed.

Lemma yields_route acp_message :
  yields answers (AgentRouter.route acp_message).
Proof.
  unfold AgentRouter.route.
  apply yields_bind; intros start_time.
  apply yields_try.
  - apply yields_bind; intros m.
    destruct (negb (ACPMessage.is_valid m));
      [apply yields_ret; apply answers_error |].
    apply yields_bind; intros user_id.
    apply yields_bind; intros _.
    apply yields_bind; intros intent.
    apply yields_bind; intros _.
    apply yields_bind; intros selected_agents.
    destruct selected_agents as [| first rest];
      [apply yields_ret; apply answers_error |].
    apply yields_bind; intros active.
    apply yields_bind; intros _.
    apply yields_bind_returns; intros response Hr.
    apply yields_bind; intros t.
    apply yields_bind; intros _.
    apply yields_ret.
    do 3 (apply answers_set; try discriminate).
    destruct Hr as (w & w' & Hr).
    destruct (Nat.ltb 1 (List.length (first :: rest))).
    + exact (yields_execute_tool_chain _ _ _ _ _ _ _ Hr).
    + exact (yields_invoke_single_agent _ _ _ _ _ _ _ Hr).
  - intros e. apply yields_bind; intros _.
    apply yields_ret. apply answers_error.
Qed.

Lemma prepare_context_user_id u mc :
  yields (fun c => Dict.get "user_id" c = Some (PyStr u))
    (AgentRouter._prepare_context u mc).
Proof.
  unfold AgentRouter._prepare_context.
  apply yields_bind; intros session.
  destruct (arg session "context" (PyDict [])); try apply yields_raise.
  destruct mc; try apply yields_raise.
  apply yields_bind; intros t. apply yields_ret.
  rewrite get_set_other by discriminate. apply get_set_same.
Qed.

Lemma logs_of_eq w w' u : _logs w' = _logs w -> logs_of w' u = logs_of w u.
Proof. unfold logs_of. intros ->. reflexivity. Qed.

(** The dispatch to one registered handler: the envelope reports the
    handler's answer or its failure, and the reasoning log gets one
    entry, an invocation or an error. *)
Lemma invoke_single_runs a m u sid d h w :
  Dict.get a (_agents w) = Some (mkAgent true (Some h)) ->
  context_is_mapping w u ->
  context m = PyDict d ->
  exists c response entry w',
    AgentRouter._invoke_single_agent a m u sid w = (inr response, w')
    /\ configuration w' = configuration w
    /\ logs_of w' u = logs_of w u ++ [entry]
    /\ Dict.get "user_id" c = Some (PyStr u)
    /\ match h (message m) c with
       | inr r =>
           response = [("success", PyBool true); ("agent", PyStr a);
                       ("response", PyStr r); ("context", PyDict c)]
           /\ step_label entry = Some (PyStr "agent_invocation")
       | inl e =>
           response
           = AgentRouter._create_error_response
               ("Agent " ++ a ++ " failed: " ++ exn_str e)
           /\ step_label entry = Some (PyStr "error")
       end.
Proof.
  intros Ha Hctx Hd.
  set (w1 := with_clock (S (clock w)) w).
  destruct (prepare_context_runs u d w1 Hctx) as (c & w2 & P & C2).
  assert (L2 : _logs w2 = _logs w).
  { pose proof (keeps_logs_prepare u (PyDict d) w1) as K.
    rewrite P in K. exact K. }
  pose proof (prepare_context_user_id u (PyDict d) w1 c w2 P) as Hu.
  exists c.
  destruct (h (message m) c) as [e | r] eqn:Hh.
  - set (w3 := with_clock (S (clock w2)) w2).
    destruct (log_appends u "error"
                [("error_type", PyStr "agent_invocation_error");
                 ("error_message", PyStr (exn_str e));
                 ("stack_trace", PyNone);
                 ("context", PyDict [("agent", PyStr a)])] sid w3)
      as (entry & w4 & L & C4 & A4 & S4 & _).
    eexists _, entry, w4. split; [| split; [| split; [| split; [exact Hu |]]]].
    + unfold AgentRouter._invoke_single_agent.
      eapply bind_runs; [reflexivity |]. cbv beta. fold w1.
      erewrite try_raises.
      2:{ unfold AgentRegistry.get.
          eapply bind_runs; [reflexivity |]. cbv beta.
          change (_agents w1) with (_agents w). rewrite Ha.
          rewrite Hd, or_else_dict.
          eapply bind_runs; [exact P |]. cbv beta.
          apply bind_raises. unfold lift. rewrite Hh. reflexivity. }
      eapply bind_runs; [reflexivity |]. cbv beta. fold w3.
      unfold ReasoningLogger.log_error.
      eapply bind_runs; [exact L |]. reflexivity.
    + rewrite C4. exact C2.
    + rewrite A4. f_equal. apply logs_of_eq. exact L2.
    + split; [reflexivity | exact S4].
  - set (w3 := with_clock (S (clock w2)) w2).
    destruct (log_appends u "agent_invocation"
                [("agent_name", PyStr a);
                 ("input_message", message m);
                 ("context", PyDict c);
                 ("response", PyStr r);
                 ("execution_time",
                  PyFloat (PrimFloat.sub (time_time (clock w2))
                             (time_time (clock w))))] sid w3)
      as (entry & w4 & L & C4 & A4 & S4 & _).
    eexists _, entry, w4. split; [| split; [| split; [| split; [exact Hu |]]]].
    + unfold AgentRouter._invoke_single_agent.
      eapply bind_runs; [reflexivity |]. cbv beta. fold w1.
      apply try_returns. unfold AgentRegistry.get.
      eapply bind_runs; [reflexivity |]. cbv beta.
      change (_agents w1) with (_agents w). rewrite Ha.
      rewrite Hd, or_else_dict.
      eapply bind_runs; [exact P |]. cbv beta.
      eapply bind_runs; [unfold lift; rewrite Hh; reflexivity |]. cbv beta.
      eapply bind_runs; [reflexivity |]. cbv beta. fold w3.
      unfold ReasoningLogger.log_agent_invocation.
      eapply bind_runs; [exact L |]. reflexivity.
    + rewrite C4. exact C2.
    + rewrite A4. f_equal. apply logs_of_eq. exact L2.
    + split; [reflexivity | exact S4].
Qed.

(** X19.  A message routed to one registered handler leaves a five-entry
    trace in the sender's reasoning log -- received, intent analysis,
    agent selection, then the invocation or the error, then the
    response -- and its envelope reports what the handler did: its
    answer under [response] with [success] true, or [success] false
    with the failure named under [error].  The handler sees a context
    that carries the sender's [user_id]. *)
Theorem single_dispatch_is_traced
  (acp_message : pydict) (w w0 : World) (m : ACPMessage) (sender : string)
  (intent : pyval) (a : string) (h : pyval -> pydict -> result string) :
  ACPMessage.from_dict acp_message (with_clock (S (clock w)) w) = (inr m, w0) ->
  ACPMessage.is_valid m = true ->
  from_id m = PyStr sender ->
  AgentRouter._analyze_intent m = inr intent ->
  fst (AgentRouter._select_agents intent (or_else (context m) (PyDict [])) w)
  = inr [a] ->
  let user_id := if startswith "user:" sender then drop 5 sender else sender in
  context_is_mapping w user_id ->
  Dict.get a (_agents w) = Some (mkAgent true (Some h)) ->
  exists c response more w',
    AgentRouter.route acp_message w = (inr response, w')
    /\ logs_of w' user_id = logs_of w user_id ++ more
    /\ Dict.get "user_id" c = Some (PyStr user_id)
    /\ match h (message m) c with
       | inr r =>
           Dict.get "success" response = Some (PyBool true)
           /\ Dict.get "agent" response = Some (PyStr a)
           /\ Dict.get "response" response = Some (PyStr r)
           /\ map step_label more
              = map (fun s => Some (PyStr s))
                  ["message_received"; "intent_analysis"; "agent_selection";
                   "agent_invocation"; "response_sent"]
       | inl e =>
           Dict.get "success" response = Some (PyBool false)
           /\ Dict.get "error" response
              = Some (PyStr ("Agent " ++ a ++ " failed: " ++ exn_str e))
           /\ map step_label more
              = map (fun s => Some (PyStr s))
                  ["message_received"; "intent_analysis"; "agent_selection";
                   "error"; "response_sent"]
       end.
Proof.
  intros Hparse Hvalid Hfrom Hintent Hsel user_id Hctx Ha.
  set (sid := or_else (session_id m) (PyStr "default")).
  assert (C0 : configuration w0 = configuration w).
  { pose proof (frames_from_dict acp_message (with_clock (S (clock w)) w)) as F.
    rewrite Hparse in F. exact F. }
  assert (L0 : logs_of w0 user_id = logs_of w user_id).
  { apply logs_of_eq.
    pose proof (keeps_logs_from_dict acp_message (with_clock (S (clock w)) w))
      as K.
    rewrite Hparse in K. exact K. }
  destruct (proj1 (is_valid_iff m (from_dict_context _ _ _ _ Hparse)) Hvalid)
    as (_ & _ & _ & _ & _ & (d & Hd)).
  destruct (log_appends user_id "message_received"
              [("message", PyDict (ACPMessage.to_dict m))] (session_id m) w0)
    as (ea & wa & La & Ca & Aa & Sa & _).
  destruct (log_appends user_id "intent_analysis"
              [("message", message m); ("detected_intent", intent);
               ("confidence", PyFloat AgentRouter.confidence);
               ("alternatives", PyList [])] (session_id m) wa)
    as (eb & wb & Lb & Cb & Ab & Sb & _).
  assert (Hselb :
            AgentRouter._select_agents intent
              (or_else (context m) (PyDict [])) wb
            = (inr [a], wb)).
  { apply (select_agents_runs _ _ w); [exact Hsel | congruence]. }
  destruct (log_appends user_id "agent_selection"
              [("intent", intent); ("selected_agent", PyStr a);
               ("available_agents",
                PyList
                  (map PyStr
                     (map fst
                        (filter (fun nm => truthy (is_active (snd nm)))
                           (_metadata wb)))));
               ("selection_reason", PyStr "Intent-based routing")] sid wb)
    as (ec & wc & Lc & Cc & Ac & Sc & _).
  destruct (invoke_single_runs a m user_id sid d h wc)
    as (c & inner & ed & wd & Hd' & Cd & Ad & Hu & Hout);
    [ rewrite (configuration_agents w wc) by congruence; exact Ha
    | unfold context_is_mapping in *;
      rewrite (configuration_memory w wc) by congruence; exact Hctx
    | exact Hd |].
  set (we := with_clock (S (clock wd)) wd).
  evar (final : pydict).
  destruct (log_appends user_id "response_sent"
              [("response", PyDict final);
               ("execution_time",
                PyFloat (PrimFloat.sub (time_time (clock wd))
                           (time_time (clock w))))]
              (session_id m) we) as (ef & wf & Lf & Cf & Af & Sf & _).
  exists c, final, [ea; eb; ec; ed; ef], wf.
  split; [| split; [| split; [exact Hu |]]].
  - unfold AgentRouter.route.
    eapply bind_runs; [reflexivity |]. cbv beta.
    apply try_returns.
    eapply bind_runs; [exact Hparse |]. cbv beta.
    rewrite Hvalid. cbn [negb]. cbv iota.
    rewrite Hfrom. unfold AgentRouter._extract_user_id. fold user_id.
    eapply bind_runs; [reflexivity |]. cbv beta.
    eapply bind_runs; [exact La |]. cbv beta.
    rewrite Hintent.
    eapply bind_runs; [reflexivity |]. cbv beta.
    eapply bind_runs; [exact Lb |]. cbv beta.
    eapply bind_runs; [exact Hselb |]. cbv beta iota.
    unfold AgentRegistry.list_active.
    eapply bind_runs; [reflexivity |]. cbv beta.
    fold sid.
    eapply bind_runs; [exact Lc |]. cbv beta.
    eapply bind_runs; [simpl Nat.ltb; cbv iota; exact Hd' |]. cbv beta.
    eapply bind_runs; [reflexivity |]. cbv beta. fold we.
    eapply bind_runs; [subst final; exact Lf |]. reflexivity.
  - rewrite Af.
    change (logs_of we user_id) with (logs_of wd user_id).
    rewrite Ad, Ac, Ab, Aa, L0, <- !app_assoc. reflexivity.
  - subst final. simpl map. rewrite Sa, Sb, Sc, Sf.
    destruct (h (message m) c) as [e | r]; destruct Hout as [-> ->];
      repeat split.
Qed.

End Router.

(** ** The envelopes of [route] *)

Section Cases.
Context {A B : Type}.

(** Reasoning on the outcome of a computation, one call at a time. *)
Lemma bind_cases (P : result B * World -> Prop) (c : M A) (k : A -> M B) w :
  (forall e w1, c w = (inl e, w1) -> P (inl e, w1)) ->
  (forall a w1, c w = (inr a, w1) -> P (k a w1)) ->
  P (bind c k w).
Proof.
  intros He Ha. unfold bind. destruct (c w) as [[e | a] w1]; [apply He | apply Ha];
    reflexivity.
Qed.

Lemma try_cases (P : result A * World -> Prop) (c : M A) (h : exn -> M A) w :
  match c w with
  | (inl e, w1) => P (h e w1)
  | (inr a, w1) => P (inr a, w1)
  end ->
  P (try c h w).
Proof. unfold try. destruct (c w) as [[e | a] w1]; intros H; exact H. Qed.

Lemma lift_cases (P : result B * World -> Prop) (r : result A)
  (k : A -> M B) w :
  (forall e, r = inl e -> P (inl e, w)) ->
  (forall a, r = inr a -> P (k a w)) ->
  P (bind (lift r) k w).
Proof.
  intros He Ha. unfold bind, lift. destruct r as [e | a]; [apply He | apply Ha];
    reflexivity.
Qed.

End Cases.

Section Envelope.
Context {rt : PyRuntime}.

Lemma select_agents_at intent context w w' :
  configuration w' = configuration w ->
  AgentRouter._select_agents intent context w'
  = (fst (AgentRouter._select_agents intent context w), w').
Proof.
  intros E. destruct (reads_select_agents intent context w) as [_ F].
  destruct (reads_select_agents intent context w') as [S' _].
  specialize (F w' E).
  destruct (AgentRouter._select_agents intent context w') as [r w1].
  simpl in *. subst. reflexivity.
Qed.

Lemma extract_user_id_inv v user_id :
  AgentRouter._extract_user_id v = inr user_id ->
  exists sender,
    v = PyStr sender
    /\ user_id = if startswith "user:" sender then drop 5 sender else sender.
Proof.
  destruct v; try discriminate. unfold AgentRouter._extract_user_id.
  intros H. eexists. split; [reflexivity | congruence].
Qed.

Lemma invoke_single_total agent_name m user_id session_id :
  total (AgentRouter._invoke_single_agent agent_name m user_id session_id).
Proof.
  unfold AgentRouter._invoke_single_agent.
  apply total_bind; [apply total_now_time | intros start_time].
  apply total_try. intros e.
  apply total_bind; [apply total_now_time | intros t].
  apply total_bind; [apply total_log | intros _].
  intros w. eexists _, _. reflexivity.
Qed.

Lemma prepare_context_mapping user_id message_context w c w' :
  AgentRouter._prepare_context user_id message_context w = (inr c, w') ->
  context_is_mapping w user_id.
Proof.
  unfold AgentRouter._prepare_context, MemoryManager.get_session,
    context_is_mapping, bind, gets, arg.
  destruct (Dict.get (MemoryManager.session_key user_id) (_memory w))
    as [session |]; [| intros _; exact I].
  destruct (Dict.get "context" session) as [v |]; [| intros _; exact I].
  destruct v; try discriminate. intros _. reflexivity.
Qed.

Lemma execute_tool_chain_mapping agents m user_id session_id w response w' :
  AgentRouter._execute_tool_chain agents m user_id session_id w
  = (inr response, w') ->
  context_is_mapping w user_id.
Proof.
  unfold AgentRouter._execute_tool_chain. intros H.
  unfold bind at 1 in H.
  destruct (AgentRouter._prepare_context user_id
              (or_else (context m) (PyDict [])) w) as [[e | c] w1] eqn:P;
    [discriminate H |].
  exact (prepare_context_mapping _ _ _ _ _ P).
Qed.

Lemma execute_tool_chain_returns agents m user_id session_id d w :
  context_is_mapping w user_id ->
  context m = PyDict d ->
  exists response w',
    AgentRouter._execute_tool_chain agents m user_id session_id w
    = (inr response, w').
Proof.
  intros Hctx Hd.
  destruct (prepare_context_runs user_id d w Hctx) as (c0 & w0 & P & _).
  destruct (chain_fold m user_id session_id agents 0
              (AgentRouter.mkChain [] c0 false) w0)
    as (entries & stf & w' & F & _).
  eexists _, w'. unfold AgentRouter._execute_tool_chain.
  rewrite Hd, or_else_dict.
  eapply bind_runs; [exact P |]. cbv beta.
  eapply bind_runs; [exact F |]. reflexivity.
Qed.

Lemma annotated_set_all user_id session_id execution_time response :
  annotated
    (Dict.set "user_id" user_id
       (Dict.set "session_id" session_id
          (Dict.set "execution_time" execution_time response))).
Proof.
  unfold annotated, carries. repeat split.
  - apply mem_set_other, mem_set_other, mem_set_same.
  - apply mem_set_other, mem_set_same.
  - apply mem_set_same.
Qed.

Lemma bind_log {B : Type} (P : result B * World -> Prop) user_id step details
  session_id (k : unit -> M B) w :
  (forall w1, configuration w1 = configuration w -> P (k tt w1)) ->
  P (bind (ReasoningLogger.log user_id step details session_id) k w).
Proof.
  intros H. destruct (log_runs user_id step details session_id w)
    as (w1 & E & C). unfold bind. rewrite E. exact (H w1 C).
Qed.

(** C6, as the code has it.  [route] always returns an envelope.  When
    the message is handed to a dispatch that returns -- a valid message
    with a textual sender, a resolved intent and at least one selected
    agent; a single handler, whether it answers, fails or is missing, or
    a chain -- the envelope carries [execution_time], [session_id] and
    [user_id].  In every other case the envelope is the bare four-key
    failure envelope of one of the three early exits: invalid message,
    no agent for the intent, routing exception. *)
Theorem route_envelope_shape (acp_message : pydict) (w : World) :
  exists response w',
    AgentRouter.route acp_message w = (inr response, w')
    /\ ((dispatched acp_message w /\ annotated response)
        \/ (~ dispatched acp_message w /\ early_failure response)).
Proof.
  pose (Q := fun x : result pydict * World =>
               exists response w',
                 x = (inr response, w')
                 /\ ((dispatched acp_message w /\ annotated response)
                     \/ (~ dispatched acp_message w
                         /\ early_failure response))).
  assert (Hinvalid : forall w2,
            ~ dispatched acp_message w ->
            Q (inr (AgentRouter._create_error_response
                      "Invalid ACP message format"), w2)).
  { intros w2 N. eexists _, _. split; [reflexivity |]. right.
    split; [exact N |]. eexists. split; [reflexivity | auto]. }
  assert (Hnone : forall intent w2,
            ~ dispatched acp_message w ->
            Q (inr (AgentRouter._create_error_response
                      ("No agent found for intent: " ++ py_str intent)), w2)).
  { intros intent w2 N. eexists _, _. split; [reflexivity |]. right.
    split; [exact N |]. eexists. split; [reflexivity |].
    right. left. apply prefix_app. }
  assert (Hraised : forall e w2,
            ~ dispatched acp_message w ->
            Q ((logging ERROR ("Error in routing: " ++ exn_str e) ;;
                ret (AgentRouter._create_error_response
                       ("Routing error: " ++ exn_str e))) w2)).
  { intros e w2 N. eexists _, _. split; [reflexivity |]. right.
    split; [exact N |]. eexists. split; [reflexivity |].
    right. right. apply prefix_app. }
  change (Q (AgentRouter.route acp_message w)).
  unfold AgentRouter.route.
  apply (bind_cases Q); [intros e w1 H; discriminate H |].
  intros start_time w1 Hnow. injection Hnow as <- <-.
  apply try_cases.
  pose (R := fun x : result pydict * World =>
               match x with
               | (inl e, w2) =>
                   Q ((logging ERROR ("Error in routing: " ++ exn_str e) ;;
                       ret (AgentRouter._create_error_response
                              ("Routing error: " ++ exn_str e))) w2)
               | (inr a, w2) => Q (inr a, w2)
               end).
  match goal with |- match ?x with _ => _ end => change (R x) end.
  (* construction *)
  apply (bind_cases R).
  { intros e w0 Hparse. apply Hraised.
    intros (m' & w0' & s' & i' & f' & r' & Hp & _).
    rewrite Hparse in Hp. discriminate Hp. }
  intros m w0 Hparse. cbv beta.
  assert (C0 : configuration w0 = configuration w).
  { pose proof (frames_from_dict acp_message (with_clock (S (clock w)) w)) as F.
    rewrite Hparse in F. exact F. }
  destruct (ACPMessage.is_valid m) eqn:Hvalid; cbn [negb]; cbv iota.
  2:{ apply Hinvalid.
      intros (m' & w0' & s' & i' & f' & r' & Hp & Hv & _).
      rewrite Hparse in Hp. injection Hp as <- <-. congruence. }
  destruct (proj1 (is_valid_iff m (from_dict_context _ _ _ _ Hparse)) Hvalid)
    as (_ & _ & _ & _ & _ & (d & Hd)).
  (* the sender *)
  apply (lift_cases R).
  { intros e Hu. apply Hraised.
    intros (m' & w0' & s' & i' & f' & r' & Hp & _ & Hf & _).
    rewrite Hparse in Hp. injection Hp as <- <-.
    rewrite Hf in Hu. discriminate Hu. }
  intros user_id Hu.
  destruct (extract_user_id_inv _ _ Hu) as (sender & Hfrom & Euser).
  apply bind_log. intros wa Ca. rewrite C0 in Ca.
  (* the intent *)
  apply (lift_cases R).
  { intros e Hi. apply Hraised.
    intros (m' & w0' & s' & i' & f' & r' & Hp & _ & _ & Hi' & _).
    rewrite Hparse in Hp. injection Hp as <- <-.
    rewrite Hi' in Hi. discriminate Hi. }
  intros resolved Hintent.
  unfold ReasoningLogger.log_intent_analysis.
  apply bind_log. intros wb Cb. rewrite Ca in Cb.
  (* the selection *)
  apply (bind_cases R).
  { intros e w2 H.
    rewrite (select_agents_at resolved (or_else (context m) (PyDict [])) w wb Cb)
      in H.
    injection H as Hsel <-. apply Hraised.
    intros (m' & w0' & s' & i' & f' & r' & Hp & _ & _ & Hi' & Hs & _).
    rewrite Hparse in Hp. injection Hp as <- <-.
    rewrite Hintent in Hi'. injection Hi' as <-.
    rewrite Hsel in Hs. discriminate Hs. }
  intros selected w2 H.
  rewrite (select_agents_at resolved (or_else (context m) (PyDict [])) w wb Cb)
    in H.
  injection H as Hsel <-. cbv beta.
  destruct selected as [| first rest].
  { apply Hnone.
    intros (m' & w0' & s' & i' & f' & r' & Hp & _ & _ & Hi' & Hs & _).
    rewrite Hparse in Hp. injection Hp as <- <-.
    rewrite Hintent in Hi'. injection Hi' as <-.
    rewrite Hsel in Hs. discriminate Hs. }
  unfold AgentRegistry.list_active.
  apply (bind_cases R); [intros e w2 H; discriminate H |].
  intros active w2 H. injection H as <- <-.
  unfold ReasoningLogger.log_agent_selection.
  apply bind_log. intros wc Cc. rewrite Cb in Cc.
  (* what the dispatch returns is annotated *)
  assert (Hsent : forall inner wd,
            (rest <> [] -> context_is_mapping w user_id) ->
            R ((t <- now_time ;;
                let execution_time :=
                  PrimFloat.sub t (time_time (clock w)) in
                let response :=
                  Dict.set "user_id" (PyStr user_id)
                    (Dict.set "session_id" (session_id m)
                       (Dict.set "execution_time" (PyFloat execution_time)
                          inner)) in
                ReasoningLogger.log user_id "response_sent"
                  [("response", PyDict response);
                   ("execution_time", PyFloat execution_time)]
                  (session_id m) ;;
                ret response) wd)).
  { intros inner wd Hm.
    apply (bind_cases R); [intros e w2 H; discriminate H |].
    intros t w2 H. injection H as <- <-. cbv zeta.
    apply bind_log. intros wf _. eexists _, _. split; [reflexivity |]. left.
    split; [| apply annotated_set_all].
    exists m, w0, sender, resolved, first, rest. rewrite <- Euser.
    repeat split; assumption. }
  destruct rest as [| second rest].
  - (* one handler *)
    change (Nat.ltb 1 (List.length [first])) with false. cbv iota.
    apply (bind_cases R).
    { intros e w2 H. exfalso.
      destruct (invoke_single_total first m user_id
                  (or_else (session_id m) (PyStr "default")) wc)
        as (a & w3 & E).
      rewrite E in H. discriminate H. }
    intros inner wd _. apply Hsent. intros N. exfalso. apply N. reflexivity.
  - (* a chain *)
    change (Nat.ltb 1 (List.length (first :: second :: rest))) with true.
    cbv iota.
    apply (bind_cases R).
    { intros e w2 H. apply Hraised.
      intros (m' & w0' & s' & i' & f' & r' & Hp & _ & Hf & Hi' & Hs & Hm).
      rewrite Hparse in Hp. injection Hp as <- <-.
      rewrite Hfrom in Hf. injection Hf as <-.
      rewrite Hintent in Hi'. injection Hi' as <-.
      rewrite Hsel in Hs. injection Hs as <- <-.
      destruct (execute_tool_chain_returns (first :: second :: rest) m user_id
                  (or_else (session_id m) (PyStr "default")) d wc)
        as (a & w3 & E).
      - rewrite <- Euser in Hm. unfold context_is_mapping in *.
        rewrite (configuration_memory w wc Cc). apply Hm. discriminate.
      - exact Hd.
      - rewrite E in H. discriminate H. }
    intros inner wd Hchain. apply Hsent. intros _.
    apply execute_tool_chain_mapping in Hchain.
    unfold context_is_mapping in *.
    rewrite <- (configuration_memory w wc Cc). exact Hchain.
Qed.

End Envelope.

(** ** core.py and acp.py *)

Section Core.
Context {rt : PyRuntime}.

(** X20.  [handle_message] answers every record, in every state of the
    orchestrator: it never raises, and what it returns is an envelope
    with a [response], whose [success] is a boolean, false exactly when
    the envelope carries [error]. *)
Theorem handle_message_always_answers (acp_message : pydict) (w : World) :
  exists response w',
    AgentOrchestrator.handle_message acp_message w = (inr response, w')
    /\ Dict.get "success" response
       = Some (PyBool (negb (Dict.mem "error" response)))
    /\ carries "response" response.
Proof.
  assert (T : total (AgentOrchestrator.handle_message acp_message)).
  { unfold AgentOrchestrator.handle_message. apply total_try. intros e.
    apply total_bind; [apply total_logging | intros _].
    intros w0. eexists _, _. reflexivity. }
  destruct (T w) as (response & w' & E). exists response, w'.
  split; [exact E |].
  revert w response w' E.
  change (yields answers (AgentOrchestrator.handle_message acp_message)).
  unfold AgentOrchestrator.handle_message.
  apply yields_try.
  - apply yields_bind; intros m.
    destruct (negb (ACPMessage.is_valid m)).
    + apply yields_ret. split; reflexivity.
    + apply yields_bind_returns; intros response Hr.
      apply yields_bind; intros user_id.
      apply yields_bind; intros _.
      apply yields_ret. destruct Hr as (w & w' & Hr).
      exact (yields_route _ _ _ _ Hr).
  - intros e. apply yields_bind; intros _.
    apply yields_ret. split; reflexivity.
Qed.

Lemma extract_user s :
  AgentOrchestrator._extract_user_id (PyStr ("user:" ++ s)) = inr s.
Proof.
  unfold AgentOrchestrator._extract_user_id, startswith. simpl.
  destruct s; reflexivity.
Qed.

(** X21.  The simple entry point files the exchange under the caller's own
    identifier: for every message that is not [None] and every context
    that is empty or a dict, [handle_simple_message] returns the
    router's envelope and appends one record, holding that envelope,
    to the history of [str(user_id)]; a history read with limit 1 then
    returns exactly that record. *)
Theorem simple_message_is_remembered (user_id message context : pyval)
  (w : World) (h : list pyval) :
  message <> PyNone ->
  is_dict (or_else context (PyDict [])) = true ->
  history_is w (py_str user_id) h ->
  exists response record w',
    AgentOrchestrator.handle_simple_message user_id message context w
    = (inr response, w')
    /\ Dict.get "response" record = Some (PyDict response)
    /\ stored_history w' (py_str user_id)
       = Some (PyList (last_n 100 (h ++ [PyDict record])))
    /\ fst (MemoryManager.get_conversation_history (py_str user_id) 1 w')
       = inr (PyList [PyDict record]).
Proof.
  intros Hm Hc Hh. unfold AgentOrchestrator.handle_simple_message.
  match goal with
  | |- context [AgentOrchestrator.handle_message ?d] => set (data := d)
  end.
  destruct (init_fields (PyStr ("user:" ++ py_str user_id))
              (PyStr "agent:router") (PyStr "") message (PyStr "en-US")
              (or_else context (PyDict [])) PyNone PyNone w)
    as (m & w0 & Hinit & Ff & Ft & Fi & Fm & Fl & Fc & Nc & Nt & Ns).
  assert (Hparse : ACPMessage.from_dict data w = (inr m, w0)).
  { unfold ACPMessage.from_dict. eapply bind_runs; [reflexivity |]. exact Hinit. }
  assert (Hvalid : ACPMessage.is_valid m = true).
  { apply (is_valid_iff m Nc). rewrite Ff, Ft, Fi, Fm, Fl, Fc.
    repeat split; try discriminate; try exact Hm.
    - exists "en-US". split; [reflexivity | simpl; lia].
    - destruct (or_else context (PyDict [])); try discriminate Hc.
      eexists. reflexivity. }
  destruct (route_total data w0) as (response & w1 & Hroute).
  assert (C1 : configuration w1 = configuration w).
  { pose proof (frames_route data w0) as F1. rewrite Hroute in F1.
    pose proof (frames_from_dict data w) as F0. rewrite Hparse in F0.
    simpl in *. congruence. }
  assert (Hh1 : history_is w1 (py_str user_id) h).
  { unfold history_is, stored_history in *.
    rewrite (configuration_memory _ _ C1). exact Hh. }
  destruct (add_conversation_message_spec (py_str user_id)
              [("message", PyDict (ACPMessage.to_dict m));
               ("response", PyDict response)] w1 h Hh1)
    as (e & w2 & Hadd & Hst & Hhist).
  destruct Hst as [[F _] | [_ [t ->]]]; [discriminate F |].
  eexists response, _, w2. split; [| split; [| split; [exact Hhist |]]].
  - unfold AgentOrchestrator.handle_message. apply try_returns.
    eapply bind_runs; [exact Hparse |]. cbv beta.
    rewrite Hvalid. cbn [negb]. cbv iota.
    eapply bind_runs; [exact Hroute |]. cbv beta.
    rewrite Ff, extract_user.
    eapply bind_runs; [reflexivity |]. cbv beta.
    eapply bind_runs; [exact Hadd |]. reflexivity.
  - reflexivity.
  - rewrite (get_conversation_history_spec _ _ _ _
               (or_introl Hhist)).
    simpl. rewrite last_n_last_n by lia. rewrite last_n_one. reflexivity.
Qed.

(** X22.  An invalid message is turned away at the door: [handle_message]
    answers with its own three-key envelope, and neither the router
    nor the memory is involved -- no reasoning-log entry is written and
    no history is stored. *)
Theorem invalid_message_is_not_routed (acp_message : pydict) (w w0 : World)
  (m : ACPMessage) :
  ACPMessage.from_dict acp_message w = (inr m, w0) ->
  ACPMessage.is_valid m = false ->
  exists w',
    AgentOrchestrator.handle_message acp_message w
    = (inr [("success", PyBool false);
            ("error", PyStr "Invalid ACP message format");
            ("response", PyStr "Please provide a valid message format.")],
       w')
    /\ _logs w' = _logs w
    /\ _memory w' = _memory w
    /\ log_records w' = log_records w.
Proof.
  intros Hparse Hvalid. exists w0. split; [| split; [| split]].
  - unfold AgentOrchestrator.handle_message. apply try_returns.
    eapply bind_runs; [exact Hparse |]. cbv beta. rewrite Hvalid. reflexivity.
  - pose proof (keeps_logs_from_dict acp_message w) as K.
    rewrite Hparse in K. exact K.
  - pose proof (frames_from_dict acp_message w) as F. rewrite Hparse in F.
    exact (configuration_memory _ _ F).
  - assert (K : keeps log_records (ACPMessage.from_dict acp_message)).
    { unfold ACPMessage.from_dict, ACPMessage.__init__,
        ACPMessage.__post_init__, now_isoformat, now_session, tick.
      keeping. }
    specialize (K w). rewrite Hparse in K. exact K.
Qed.

(** X23.  The two constructors of [acp.py] and the router's reading of the
    sender agree for users only: a message built by
    [create_user_message] is addressed to the router and is filed under
    [str(user_id)], while one built by [create_agent_message] keeps its
    [agent:] prefix as the identifier it is filed under. *)
Theorem constructors_address_the_router
  (user_id from_agent to_agent i text lang c : pyval) (w : World) :
  (exists m w',
     acp.create_user_message user_id i text lang c w
     = (inr m, w')
     /\ to_id m = PyStr "agent:router"
     /\ AgentRouter._extract_user_id (from_id m) = inr (py_str user_id)
     /\ ACPMessage.from_dict (ACPMessage.to_dict m) w' = (inr m, w'))
  /\ (exists m w',
        acp.create_agent_message from_agent to_agent i text c w
        = (inr m, w')
        /\ to_id m = PyStr ("agent:" ++ py_str to_agent)%string
        /\ AgentRouter._extract_user_id (from_id m)
           = inr ("agent:" ++ py_str from_agent)%string
        /\ language m = PyStr "en-US").
Proof.
  split.
  - unfold acp.create_user_message.
    match goal with
    | |- context [ACPMessage.__init__ ?f ?t ?i ?x ?l ?c ?ts ?s w] =>
        destruct (init_fields f t i x l c ts s w)
          as (m & w' & E & Ff & Ft & _ & _ & _ & _ & Nc & Nt & Ns)
    end.
    exists m, w'. split; [exact E |]. split; [exact Ft |].
    split; [rewrite Ff; apply extract_user |].
    apply from_dict_to_dict; assumption.
  - unfold acp.create_agent_message.
    match goal with
    | |- context [ACPMessage.__init__ ?f ?t ?i ?x ?l ?c ?ts ?s w] =>
        destruct (init_fields f t i x l c ts s w)
          as (m & w' & E & Ff & Ft & _ & _ & Fl & _)
    end.
    exists m, w'. split; [exact E |]. split; [exact Ft |].
    split; [rewrite Ff; reflexivity | exact Fl].
Qed.

End Core.

(** * The further properties on the sample runtime *)

Lemma sessions_are_isolated_witness :
  (forall key value w,
     session_of
       (snd (MemoryManager.set_context (rt := Sample.runtime) "alice" key
               value w)) "bob"
     = session_of w "bob")
  /\ (forall message w,
        session_of
          (snd (MemoryManager.add_conversation_message (rt := Sample.runtime)
                  "alice" message w)) "bob"
        = session_of w "bob")
  /\ (forall w,
        session_of
          (snd (MemoryManager.clear_context (rt := Sample.runtime) "alice" w))
          "bob"
        = session_of w "bob")
  /\ (forall w,
        session_of
          (snd (MemoryManager.clear_conversation_history
                  (rt := Sample.runtime) "alice" w)) "bob"
        = session_of w "bob")
  /\ (forall w,
        session_of (snd (MemoryManager.delete_session "alice" w)) "bob"
        = session_of w "bob").
Proof.
  refine (sessions_are_isolated (rt := Sample.runtime) "alice" "bob" _).
  discriminate.
Defined.

Lemma set_context_then_get_witness :
  exists w',
    MemoryManager.set_context (rt := Sample.runtime) "alice" "crop"
      (PyStr "maize") Scenario.returning = (inr tt, w')
    /\ MemoryManager.get_context "alice" "crop" w' = (inr (PyStr "maize"), w')
    /\ (forall key',
          key' <> "crop" ->
          MemoryManager.get_context "alice" key' w'
          = (fst (MemoryManager.get_context "alice" key' Scenario.returning),
             w'))
    /\ stored_history w' "alice" = stored_history Scenario.returning "alice".
Proof.
  refine (set_context_then_get (rt := Sample.runtime) "alice" "crop"
            (PyStr "maize") Scenario.returning [("region", PyStr "north")] _).
  left. reflexivity.
Defined.

Lemma history_reads_most_recent_witness :
  (forall limit,
     MemoryManager.get_conversation_history "alice" limit Scenario.returning
     = (inr (PyList (if (0 <? limit)%Z
                     then last_n (Z.to_nat limit) [PyStr "earlier"]
                     else [PyStr "earlier"])),
        Scenario.returning))
  /\ (forall message,
        exists e w',
          MemoryManager.add_conversation_message (rt := Sample.runtime) "alice"
            message Scenario.returning = (inr tt, w')
          /\ stamped message e
          /\ MemoryManager.get_conversation_history "alice" 1 w'
             = (inr (PyList [PyDict e]), w')).
Proof.
  refine (history_reads_most_recent (rt := Sample.runtime) "alice"
            Scenario.returning [PyStr "earlier"] _).
  left. reflexivity.
Defined.

Lemma delete_session_forgets_witness :
  exists w',
    MemoryManager.delete_session "alice" Scenario.returning = (inr tt, w')
    /\ MemoryManager.get_session "alice" w' = (inr [], w')
    /\ (forall key, MemoryManager.get_context "alice" key w' = (inr PyNone, w'))
    /\ forall message,
         exists e w'',
           MemoryManager.add_conversation_message (rt := Sample.runtime)
             "alice" message w' = (inr tt, w'')
           /\ stamped message e
           /\ stored_history w'' "alice" = Some (PyList [PyDict e]).
Proof.
  refine (delete_session_forgets (rt := Sample.runtime) "alice"
            Scenario.returning _).
  constructor; [simpl; tauto | constructor].
Defined.

Lemma unregister_removes_one_name_witness :
  exists w',
    AgentRegistry.unregister "weather" Scenario.station
    = (inr (Dict.mem "weather" (_agents Scenario.station)), w')
    /\ Dict.get "weather" (_agents w') = None
    /\ Dict.get "weather" (_metadata w') = None
    /\ forall other,
         other <> "weather" ->
         Dict.get other (_agents w') = Dict.get other (_agents Scenario.station)
         /\ Dict.get other (_metadata w')
            = Dict.get other (_metadata Scenario.station).
Proof.
  refine (unregister_removes_one_name "weather"
            Scenario.station _ _ _).
  - constructor; [simpl; tauto | constructor].
  - constructor; [simpl; tauto | constructor].
  - reflexivity.
Defined.

Lemma failed_register_leaves_half_a_record_witness :
  exists e w1 w2,
    AgentRegistry.register (rt := Sample.runtime) "weather"
      (Sample.answering "Sunny, 31 degrees") (Some [("priority", PyInt 1)])
      Sample.world = (inl e, w1)
    /\ is_TypeError e
    /\ Dict.get "weather" (_agents w1)
       = Some (Sample.answering "Sunny, 31 degrees")
    /\ Dict.get "weather" (_metadata w1) = None
    /\ AgentRegistry.unregister "weather" w1
       = (inl (KeyError "weather"), w2)
    /\ Dict.get "weather" (_agents w2) = None.
Proof.
  refine (failed_register_leaves_half_a_record (rt := Sample.runtime) "weather"
            (Sample.answering "Sunny, 31 degrees") [("priority", PyInt 1)]
            Sample.world _ _ _).
  - exists "priority". split; [simpl; tauto |].
    simpl. intuition discriminate.
  - reflexivity.
  - constructor; [simpl; tauto | constructor].
Defined.

Lemma registered_intent_is_selected_witness :
  exists w1 selected,
    AgentRegistry.register (rt := Sample.runtime) "irrigation"
      (Sample.answering "Water at dawn")
      (Some [("intents", PyList [PyStr "irrigate"])]) Scenario.station
    = (inr tt, w1)
    /\ AgentRegistry.list_by_intent (PyStr "irrigate") w1 = (inr selected, w1)
    /\ AgentRouter._select_agents (PyStr "irrigate") (PyDict []) w1
       = (inr selected, w1)
    /\ In "irrigation" selected
    /\ forall other,
         other <> "irrigation" -> (In other selected <-> In other []).
Proof.
  refine (registered_intent_is_selected (rt := Sample.runtime) "irrigation"
            (Sample.answering "Water at dawn")
            [("intents", PyList [PyStr "irrigate"])] [PyStr "irrigate"]
            "irrigate" [] [] Scenario.station _ _ _ _ _ _ _).
  - reflexivity.
  - reflexivity.
  - reflexivity.
  - reflexivity.
  - reflexivity.
  - reflexivity.
  - reflexivity.
Defined.

Lemma prepare_context_overlays_witness :
  exists c t w',
    AgentRouter._prepare_context (rt := Sample.runtime) "alice"
      (PyDict [("region", PyStr "south"); ("user_id", PyStr "mallory")])
      Scenario.returning = (inr c, w')
    /\ configuration w' = configuration Scenario.returning
    /\ Dict.get "user_id" c = Some (PyStr "alice")
    /\ Dict.get "timestamp" c = Some (PyFloat t)
    /\ forall k,
         k <> "user_id" -> k <> "timestamp" ->
         Dict.get k c
         = match Dict.get k [("region", PyStr "south");
                             ("user_id", PyStr "mallory")] with
           | Some v => Some v
           | None => Dict.get k [("region", PyStr "north")]
           end.
Proof.
  refine (prepare_context_overlays (rt := Sample.runtime) "alice"
            [("region", PyStr "south"); ("user_id", PyStr "mallory")]
            [("region", PyStr "north")] Scenario.returning _ _).
  - left. reflexivity.
  - constructor; [simpl; intuition discriminate |].
    constructor; [simpl; tauto | constructor].
Defined.

Lemma envelope_echoes_caller_witness :
  exists sender,
    Dict.get "from_id" Sample.greeting = Some (PyStr sender)
    /\ Dict.get "user_id" Scenario.reply
       = Some (PyStr (if startswith "user:" sender then drop 5 sender
                      else sender))
    /\ forall s,
         Dict.get "session_id" Sample.greeting = Some s -> s <> PyNone ->
         Dict.get "session_id" Scenario.reply = Some s.
Proof.
  refine (envelope_echoes_caller (rt := Sample.runtime) Sample.greeting
            Scenario.reply Sample.world Scenario.replied _ _).
  - vm_compute. reflexivity.
  - vm_compute. reflexivity.
Defined.

Lemma added_chain_is_selected_witness :
  exists w1,
    AgentRouter.add_tool_chain (rt := Sample.runtime) "field_check"
      (map (fun s => chain_link (fst s) (snd s))
         [("soil_analyzer", "get_soil_data"); ("weather", "get_weather_data")])
      Sample.world = (inr tt, w1)
    /\ AgentRouter._select_agents (PyStr "get_weather")
         (PyDict [("tool_chain", PyStr "field_check")]) w1
       = (inr (map fst
                 [("soil_analyzer", "get_soil_data");
                  ("weather", "get_weather_data")]), w1).
Proof.
  refine (added_chain_is_selected (rt := Sample.runtime) "field_check"
            [("soil_analyzer", "get_soil_data"); ("weather", "get_weather_data")]
            (PyStr "get_weather") [("tool_chain", PyStr "field_check")]
            Sample.world _ _).
  - discriminate.
  - reflexivity.
Defined.

Lemma added_mapping_is_selected_witness :
  exists w1,
    AgentRouter.add_intent_mapping (rt := Sample.runtime) "irrigate"
      ["weather"; "irrigation"] Scenario.station = (inr tt, w1)
    /\ AgentRouter._select_agents (PyStr "irrigate") (PyDict []) w1
       = (inr (filter (fun a => Dict.mem a (_agents Scenario.station))
                 ["weather"; "irrigation"]), w1).
Proof.
  refine (added_mapping_is_selected (rt := Sample.runtime) "irrigate"
            ["weather"; "irrigation"] [] Scenario.station _).
  reflexivity.
Defined.

Lemma tool_chain_reports_every_step_witness :
  exists response entries w',
    AgentRouter._execute_tool_chain (rt := Sample.runtime)
      ["weather"; "nobody"; "crop_advisor"] Sample.advice_message "alice"
      (PyStr "default") Sample.farm = (inr response, w')
    /\ configuration w' = configuration Sample.farm
    /\ Dict.get "success" response = Some (PyBool true)
    /\ Dict.get "agents" response
       = Some (PyList (map PyStr ["weather"; "nobody"; "crop_advisor"]))
    /\ Dict.get "step_results" response = Some (PyList (map PyDict entries))
    /\ Forall2 (fun step entry => step_entry_for (fst step) (snd step) entry)
         (enumerate ["weather"; "nobody"; "crop_advisor"]) entries.
Proof.
  refine (tool_chain_reports_every_step (rt := Sample.runtime)
            ["weather"; "nobody"; "crop_advisor"] Sample.advice_message "alice"
            (PyStr "default") [("tool_chain", PyStr "comprehensive_advice")]
            Sample.farm _ _).
  - exact I.
  - reflexivity.
Defined.

Lemma single_dispatch_is_traced_witness :
  exists c response more w',
    AgentRouter.route (rt := Sample.runtime) Sample.greeting Sample.world
    = (inr response, w')
    /\ logs_of w' "alice" = logs_of Sample.world "alice" ++ more
    /\ Dict.get "user_id" c = Some (PyStr "alice")
    /\ match Sample.answer "How can I help?" (message Scenario.greeting_routed)
             c with
       | inr r =>
           Dict.get "success" response = Some (PyBool true)
           /\ Dict.get "agent" response = Some (PyStr "general_assistant")
           /\ Dict.get "response" response = Some (PyStr r)
           /\ map step_label more
              = map (fun s => Some (PyStr s))
                  ["message_received"; "intent_analysis"; "agent_selection";
                   "agent_invocation"; "response_sent"]
       | inl e =>
           Dict.get "success" response = Some (PyBool false)
           /\ Dict.get "error" response
              = Some (PyStr ("Agent " ++ "general_assistant" ++ " failed: "
                               ++ exn_str (rt := Sample.runtime) e)%string)
           /\ map step_label more
              = map (fun s => Some (PyStr s))
                  ["message_received"; "intent_analysis"; "agent_selection";
                   "error"; "response_sent"]
       end.
Proof.
  refine (single_dispatch_is_traced (rt := Sample.runtime) Sample.greeting
            Sample.world (with_clock 3 Sample.world) Scenario.greeting_routed
            "user:alice" (PyStr "general_help") "general_assistant"
            (Sample.answer "How can I help?") _ _ _ _ _ _ _).
  - reflexivity.
  - reflexivity.
  - reflexivity.
  - reflexivity.
  - reflexivity.
  - exact I.
  - reflexivity.
Defined.

Lemma simple_message_is_remembered_witness :
  exists response record w',
    AgentOrchestrator.handle_simple_message (rt := Sample.runtime)
      (PyStr "alice") (PyStr "Hello") PyNone Scenario.returning
    = (inr response, w')
    /\ Dict.get "response" record = Some (PyDict response)
    /\ stored_history w' (py_str (rt := Sample.runtime) (PyStr "alice"))
       = Some (PyList (last_n 100 ([PyStr "earlier"] ++ [PyDict record])))
    /\ fst (MemoryManager.get_conversation_history
              (py_str (rt := Sample.runtime) (PyStr "alice")) 1 w')
       = inr (PyList [PyDict record]).
Proof.
  refine (simple_message_is_remembered (rt := Sample.runtime) (PyStr "alice")
            (PyStr "Hello") PyNone Scenario.returning [PyStr "earlier"] _ _ _).
  - discriminate.
  - reflexivity.
  - left. reflexivity.
Defined.

Lemma invalid_message_is_not_routed_witness :
  exists w',
    AgentOrchestrator.handle_message (rt := Sample.runtime) Scenario.mumble
      Sample.world
    = (inr [("success", PyBool false);
            ("error", PyStr "Invalid ACP message format");
            ("response", PyStr "Please provide a valid message format.")],
       w')
    /\ _logs w' = _logs Sample.world
    /\ _memory w' = _memory Sample.world
    /\ log_records w' = log_records Sample.world.
Proof.
  refine (invalid_message_is_not_routed (rt := Sample.runtime) Scenario.mumble
            Sample.world (with_clock 2 Sample.world) Scenario.mumble_message
            _ _).
  - reflexivity.
  - reflexivity.
Defined.

Lemma route_envelope_shape_witness :
  exists response w',
    AgentRouter.route (rt := Sample.runtime) Sample.greeting Scenario.broken
    = (inr response, w')
    /\ dispatched (rt := Sample.runtime) Sample.greeting Scenario.broken
    /\ annotated response
    /\ Dict.get "success" response = Some (PyBool false)
    /\ Dict.get "error" response
       = Some (PyStr "Agent general_assistant failed: assistant offline").
Proof.
  destruct (route_envelope_shape (rt := Sample.runtime) Sample.greeting
              Scenario.broken) as (response & w' & E & [[D A] | [N _]]).
  - exists response, w'. split; [exact E |]. split; [exact D |].
    split; [exact A |].
    vm_compute in E. injection E as <- <-. split; reflexivity.
  - exfalso. apply N.
    exists Scenario.greeting_routed, (with_clock 3 Scenario.broken),
      "user:alice", (PyStr "general_help"), "general_assistant", [].
    repeat split; reflexivity.
Defined.
